(** * audiothek2rss: the query-and-feed pipeline of [audiothek2rss.py]

    A shallow embedding of the script's classes and functions, followed by
    the properties of its pagination, selection, serialization and
    option-validation steps.

    Python values that travel through the script untyped (the decoded API
    responses and whatever is copied out of them) are kept as a small
    universe of dynamic values, [pyval]; exceptions are explicit results;
    the network requests, file writes, prints and sleeps of a run are
    collected in a trace of events. *)

From Stdlib Require Import String Ascii ZArith List Lia Bool DecimalString.
From Stdlib Require Import Sorted Permutation.
Import ListNotations.

Set Warnings "-register-all".

Open Scope string_scope.
Open Scope list_scope.
Open Scope Z_scope.

Notation "s ^^ t" := (String.append s t) (at level 35, right associativity).

(** ** Exceptions and results *)

(** The Python exceptions the script can raise, and two markers of the
    embedding itself: [OutOfFuel] (a loop was cut short by the step bound
    of its model) and [NotModelled] (a library behaviour outside the
    embedded fragment was reached). *)
Inductive exn : Type :=
| TypeError
| KeyError (key : string)
| IndexError
| AttributeError
| ValueError
| SystemExit (msg : string)
| OutOfFuel
| NotModelled.

Inductive result (A : Type) : Type :=
| Ok (a : A)
| Raise (e : exn).
Arguments Ok {A} a.
Arguments Raise {A} e.

Definition rbind {A B} (r : result A) (f : A -> result B) : result B :=
  match r with
  | Ok a => f a
  | Raise e => Raise e
  end.

Definition rmap {A B} (f : A -> B) (r : result A) : result B :=
  rbind r (fun a => Ok (f a)).

Declare Scope res_scope.
Delimit Scope res_scope with res.
Notation "'let?' x ':=' r 'in' k" := (rbind r (fun x => k))
  (at level 10, x name, r at level 100, k at level 200) : res_scope.
Open Scope res_scope.

(** ** Dynamic values *)

(** What [result.json()] can return, and therefore what the fields copied
    out of a response can hold.  Only integral JSON numbers are modelled.
    A dict is the association list of its items in insertion order. *)
Inductive pyval : Type :=
| PNone
| PBool (b : bool)
| PInt (z : Z)
| PStr (s : string)
| PList (l : list pyval)
| PDict (d : list (string * pyval)).

(** Behaviour of the interpreter that is used by the script but whose
    definition is left open: [int()] on a string ([None] for a
    [ValueError]), [repr] of a list or dict (as taken by [str()] and [%s]),
    and [unicodedata.normalize("NFKD", _)]. *)
Class Builtins : Type := {
  int_of_str : string -> option Z;
  repr_container : pyval -> string;
  nfkd : string -> string
}.

Definition slen (s : string) : Z := Z.of_nat (String.length s).

(** [str(z)] for an integer. *)
Definition dec (z : Z) : string := NilZero.string_of_int (Z.to_int z).

Fixpoint lookup (k : string) (d : list (string * pyval)) : option pyval :=
  match d with
  | [] => None
  | (k', v) :: d' => if String.eqb k k' then Some v else lookup k d'
  end.

(** [v[k]] for a string key. *)
Definition getitem (v : pyval) (k : string) : result pyval :=
  match v with
  | PDict d => match lookup k d with
               | Some x => Ok x
               | None => Raise (KeyError k)
               end
  | _ => Raise TypeError
  end.

Fixpoint nth_char (n : nat) (s : string) : option ascii :=
  match s with
  | EmptyString => None
  | String c s' => match n with O => Some c | S n' => nth_char n' s' end
  end.

(** [v[i]] for an integer index (negative indices count from the end). *)
Definition getindex (v : pyval) (i : Z) : result pyval :=
  match v with
  | PList l =>
      let j := if i <? 0 then i + Z.of_nat (List.length l) else i in
      if j <? 0 then Raise IndexError
      else match nth_error l (Z.to_nat j) with
           | Some x => Ok x
           | None => Raise IndexError
           end
  | PStr s =>
      let j := if i <? 0 then i + slen s else i in
      if j <? 0 then Raise IndexError
      else match nth_char (Z.to_nat j) s with
           | Some c => Ok (PStr (String c EmptyString))
           | None => Raise IndexError
           end
  | PDict _ => Raise (KeyError (dec i))
  | _ => Raise TypeError
  end.

(** [len(v)]. *)
Definition py_len (v : pyval) : result Z :=
  match v with
  | PStr s => Ok (slen s)
  | PList l => Ok (Z.of_nat (List.length l))
  | PDict d => Ok (Z.of_nat (List.length d))
  | _ => Raise TypeError
  end.

(** Truth value of [v] in a condition. *)
Definition truthy (v : pyval) : bool :=
  match v with
  | PNone => false
  | PBool b => b
  | PInt z => negb (z =? 0)
  | PStr s => negb (String.eqb s "")
  | PList l => match l with [] => false | _ => true end
  | PDict d => match d with [] => false | _ => true end
  end.

Definition is_none (v : pyval) : bool :=
  match v with PNone => true | _ => false end.

Fixpoint chars (s : string) : list pyval :=
  match s with
  | EmptyString => []
  | String c s' => PStr (String c EmptyString) :: chars s'
  end.

(** The sequence a [for] loop runs over. *)
Definition py_iter (v : pyval) : result (list pyval) :=
  match v with
  | PList l => Ok l
  | PDict d => Ok (map (fun kv => PStr (fst kv)) d)
  | PStr s => Ok (chars s)
  | _ => Raise TypeError
  end.

(** The integer value of an [int] (or [bool]) object. *)
Definition as_num (v : pyval) : option Z :=
  match v with
  | PInt z => Some z
  | PBool b => Some (if b then 1 else 0)
  | _ => None
  end.

(** [a < b] and [a <= b] where one side is known to be an [int]. *)
Definition py_lt (a b : pyval) : result bool :=
  match as_num a, as_num b with
  | Some x, Some y => Ok (x <? y)
  | _, _ => Raise TypeError
  end.

Definition py_le (a b : pyval) : result bool :=
  match as_num a, as_num b with
  | Some x, Some y => Ok (x <=? y)
  | _, _ => Raise TypeError
  end.

Section Interpreter.
Context {B : Builtins}.

(** [str(v)]. *)
Definition py_str (v : pyval) : string :=
  match v with
  | PNone => "None"
  | PBool b => if b then "True" else "False"
  | PInt z => dec z
  | PStr s => s
  | PList _ | PDict _ => repr_container v
  end.

(** [int(v)]. *)
Definition py_int (v : pyval) : result Z :=
  match v with
  | PInt z => Ok z
  | PBool b => Ok (if b then 1 else 0)
  | PStr s => match int_of_str s with
              | Some z => Ok z
              | None => Raise ValueError
              end
  | _ => Raise TypeError
  end.

End Interpreter.

(** ** Strings *)

Fixpoint prefixb (p s : string) : bool :=
  match p with
  | EmptyString => true
  | String a p' => match s with
                   | EmptyString => false
                   | String b s' => Ascii.eqb a b && prefixb p' s'
                   end
  end.

(** [sub in s]. *)
Fixpoint contains (sub s : string) : bool :=
  prefixb sub s ||
  match s with
  | EmptyString => false
  | String _ s' => contains sub s'
  end.

Fixpoint in_str (c : ascii) (s : string) : bool :=
  match s with
  | EmptyString => false
  | String a s' => Ascii.eqb c a || in_str c s'
  end.

(** [s.rfind(c)] for a one-character needle: the index of the last
    occurrence, [-1] when there is none. *)
Fixpoint rfind (c : ascii) (s : string) : Z :=
  match s with
  | EmptyString => -1
  | String a s' =>
      let r := rfind c s' in
      if 0 <=? r then r + 1
      else if Ascii.eqb a c then 0 else -1
  end.

Fixpoint take (n : nat) (s : string) : string :=
  match n, s with
  | S n', String c s' => String c (take n' s')
  | _, _ => EmptyString
  end.

Fixpoint drop (n : nat) (s : string) : string :=
  match n, s with
  | S n', String _ s' => drop n' s'
  | _, _ => s
  end.

(** [sep.join(l)]. *)
Fixpoint join (sep : string) (l : list string) : string :=
  match l with
  | [] => ""
  | [x] => x
  | x :: l' => x ^^ sep ^^ join sep l'
  end.

(** [s.replace(old, new)] for a non-empty [old]: occurrences are replaced
    from left to right without overlap; [skip] counts the characters of a
    match that are still to be passed over. *)
Fixpoint replace_from (skip : nat) (old new s : string) : string :=
  match s with
  | EmptyString => EmptyString
  | String c s' =>
      match skip with
      | S k => replace_from k old new s'
      | O => if prefixb old s
             then new ^^ replace_from (String.length old - 1) old new s'
             else String c (replace_from O old new s')
      end
  end.

Definition replace (old new s : string) : string := replace_from O old new s.

(** The double quote, as a character and as a string. *)
Definition dquote : ascii := "034"%char.
Definition dq : string := String dquote EmptyString.

Fixpoint spaces (n : nat) : string :=
  match n with
  | O => EmptyString
  | S n' => String " " (spaces n')
  end.

(** ** The [%] operator on strings

    [fmt % args] for a tuple of arguments (a single argument that is
    neither a tuple nor a mapping behaves as a one-element tuple).  The
    conversion specifications are parsed as the interpreter does:
    [%[flags][width][.precision][length]conversion].  Rendering is
    embedded for [%%], [%s] and the decimal conversions [%d], [%i], [%u],
    with a width and the [-] flag; what lies outside ([*] widths, other
    flags or a precision on a number, the remaining conversions) ends in
    [NotModelled] once the interpreter's own checks have passed.  Only
    [%%] itself is the literal percent sign: a [%] that follows a flag, a
    width, a precision or a length modifier is a conversion character,
    which takes an argument and is then refused. *)

Record fspec : Type := {
  f_minus : bool;        (* the [-] flag *)
  f_other : bool;        (* any of the flags [+], blank, [#], [0] *)
  f_width : option nat;
  f_prec : option nat
}.

Inductive phase : Type :=
| Copy                                   (* literal text *)
| Start                                  (* just after the [%] *)
| Flags (m o : bool)
| Width (m o : bool) (w : nat)
| Dot (m o : bool) (w : option nat)      (* just after the [.] *)
| Prec (m o : bool) (w : option nat) (p : nat)
| Conv (sp : fspec).                     (* after a length modifier *)

Inductive action : Type :=
| Next (ph : phase)
| Emit (c : ascii)
| Convert (sp : fspec) (c : ascii)
| Star
| Fail (e : exn).

Definition is_digit (c : ascii) : bool := in_str c "0123456789".

Definition digit (c : ascii) : nat := nat_of_ascii c - 48.

Definition after_prec (sp : fspec) (c : ascii) : action :=
  if in_str c "hlL" then Next (Conv sp) else Convert sp c.

Definition after_width (m o : bool) (w : option nat) (c : ascii) : action :=
  if Ascii.eqb c "." then Next (Dot m o w)
  else after_prec {| f_minus := m; f_other := o; f_width := w; f_prec := None |} c.

Definition after_flags (m o : bool) (c : ascii) : action :=
  if Ascii.eqb c "*" then Star
  else if is_digit c then Next (Width m o (digit c))
  else after_width m o None c.

Definition in_flags (m o : bool) (c : ascii) : action :=
  if Ascii.eqb c "-" then Next (Flags true o)
  else if in_str c "+ #0" then Next (Flags m true)
  else after_flags m o c.

Definition step (ph : phase) (c : ascii) : action :=
  match ph with
  | Copy => if Ascii.eqb c "%" then Next Start else Emit c
  | Start => if Ascii.eqb c "%" then Emit "%"
             else if Ascii.eqb c "(" then Fail TypeError
             else in_flags false false c
  | Flags m o => in_flags m o c
  | Width m o w => if is_digit c then Next (Width m o (10 * w + digit c))
                   else after_width m o (Some w) c
  | Dot m o w =>
      if Ascii.eqb c "*" then Star
      else if is_digit c then Next (Prec m o w (digit c))
      else after_prec {| f_minus := m; f_other := o; f_width := w; f_prec := Some O |} c
  | Prec m o w p =>
      if is_digit c then Next (Prec m o w (10 * p + digit c))
      else after_prec {| f_minus := m; f_other := o; f_width := w; f_prec := Some p |} c
  | Conv sp => Convert sp c
  end.

(** Padding to the field width: to the right of the text with the [-]
    flag, to its left without. *)
Definition pad (sp : fspec) (s : string) : string :=
  match f_width sp with
  | None => s
  | Some w =>
      let fill := spaces (w - String.length s) in
      if f_minus sp then s ^^ fill else fill ^^ s
  end.

Definition truncate (sp : fspec) (s : string) : string :=
  match f_prec sp with
  | None => s
  | Some p => take p s
  end.

Section Format.
Context {B : Builtins}.

(** One conversion applied to its argument. *)
Definition render (sp : fspec) (c : ascii) (a : pyval) : result string :=
  if Ascii.eqb c "s" then
    if f_other sp then Raise NotModelled
    else Ok (pad sp (truncate sp (py_str a)))
  else if in_str c "diu" then
    match as_num a with
    | None => Raise TypeError
    | Some z =>
        if f_other sp then Raise NotModelled
        else match f_prec sp with
             | Some _ => Raise NotModelled
             | None => Ok (pad sp (dec z))
             end
    end
  else if in_str c "raoxXeEfFgGc" then Raise NotModelled
  else Raise ValueError.

Fixpoint format_from (ph : phase) (fmt : string) (args : list pyval) : result string :=
  match fmt with
  | EmptyString =>
      match ph with
      | Copy => match args with
                | [] => Ok EmptyString
                | _ :: _ => Raise TypeError       (* not all arguments converted *)
                end
      | _ => Raise ValueError                     (* incomplete format *)
      end
  | String c rest =>
      match step ph c with
      | Next ph' => format_from ph' rest args
      | Emit ch => rmap (String ch) (format_from Copy rest args)
      | Convert sp cv =>
          match args with
          | [] => Raise TypeError                 (* not enough arguments *)
          | a :: args' =>
              let? s := render sp cv a in
              rmap (String.append s) (format_from Copy rest args')
          end
      | Star =>
          match args with
          | [] => Raise TypeError
          | a :: _ => match as_num a with
                      | None => Raise TypeError   (* * wants int *)
                      | Some _ => Raise NotModelled
                      end
          end
      | Fail e => Raise e
      end
  end.

Definition pyformat (fmt : string) (args : list pyval) : result string :=
  format_from Copy fmt args.

End Format.

(** ** [html.escape] and the ElementTree document model *)

(** [html.escape(s)] with its default [quote=True].  Strings are byte
    strings of the UTF-8 encoding; the five characters concerned are
    ASCII, so working on bytes agrees with working on code points. *)
Fixpoint html_escape (s : string) : string :=
  match s with
  | EmptyString => EmptyString
  | String c s' =>
      if Ascii.eqb c "&" then "&amp;" ^^ html_escape s'
      else if Ascii.eqb c "<" then "&lt;" ^^ html_escape s'
      else if Ascii.eqb c ">" then "&gt;" ^^ html_escape s'
      else if Ascii.eqb c dquote then "&quot;" ^^ html_escape s'
      else if Ascii.eqb c "'" then "&#x27;" ^^ html_escape s'
      else String c (html_escape s')
  end.

(** [html.escape(v)]: anything but a string has no [replace]. *)
Definition py_html_escape (v : pyval) : result pyval :=
  match v with
  | PStr s => Ok (PStr (html_escape s))
  | _ => Raise AttributeError
  end.

(** [v.replace(old, new)]. *)
Definition py_replace (v : pyval) (old new : string) : result pyval :=
  match v with
  | PStr s => Ok (PStr (replace old new s))
  | _ => Raise AttributeError
  end.

(** An [xml.etree.ElementTree.Element]: tag, attributes in the order they
    were set, text, children.  No element of the script is given a tail. *)
Inductive element : Type :=
| Element (tag : string) (attrib : list (string * pyval)) (text : pyval)
          (children : list element).

Definition tag_of (e : element) : string := let 'Element t _ _ _ := e in t.
Definition attrib_of (e : element) : list (string * pyval) := let 'Element _ a _ _ := e in a.
Definition text_of (e : element) : pyval := let 'Element _ _ x _ := e in x.
Definition children_of (e : element) : list element := let 'Element _ _ _ c := e in c.

(** The serializer's escaping of character data ([_escape_cdata]) and of
    attribute values ([_escape_attrib]). *)
Fixpoint escape_cdata (s : string) : string :=
  match s with
  | EmptyString => EmptyString
  | String c s' =>
      if Ascii.eqb c "&" then "&amp;" ^^ escape_cdata s'
      else if Ascii.eqb c "<" then "&lt;" ^^ escape_cdata s'
      else if Ascii.eqb c ">" then "&gt;" ^^ escape_cdata s'
      else String c (escape_cdata s')
  end.

Fixpoint escape_attrib (s : string) : string :=
  match s with
  | EmptyString => EmptyString
  | String c s' =>
      if Ascii.eqb c "&" then "&amp;" ^^ escape_attrib s'
      else if Ascii.eqb c "<" then "&lt;" ^^ escape_attrib s'
      else if Ascii.eqb c ">" then "&gt;" ^^ escape_attrib s'
      else if Ascii.eqb c dquote then "&quot;" ^^ escape_attrib s'
      else if Ascii.eqb c "013" then "&#13;" ^^ escape_attrib s'
      else if Ascii.eqb c "010" then "&#10;" ^^ escape_attrib s'
      else if Ascii.eqb c "009" then "&#09;" ^^ escape_attrib s'
      else String c (escape_attrib s')
  end.

Definition newline : string := String "010" EmptyString.

(** ASCII white space, as removed by [str.strip()]. *)
Definition is_space (c : ascii) : bool :=
  let n := nat_of_ascii c in
  ((9 <=? n) && (n <=? 13) || (28 <=? n) && (n <=? 32))%nat.

Fixpoint blank (s : string) : bool :=
  match s with
  | EmptyString => true
  | String c s' => is_space c && blank s'
  end.

(** Character data as written by [tree.write]: nothing for a false value,
    the escaped text for a string; another true value cannot be
    serialized (a list or dict is outside the embedded fragment). *)
Definition write_text (v : pyval) : result string :=
  match v with
  | PStr s => Ok (escape_cdata s)
  | PList _ | PDict _ => Raise NotModelled
  | _ => if truthy v then Raise TypeError else Ok ""
  end.

Definition write_attr (kv : string * pyval) : result string :=
  match snd kv with
  | PStr s => Ok (" " ^^ fst kv ^^ "=" ^^ dq ^^ escape_attrib s ^^ dq)
  | PList _ | PDict _ => Raise NotModelled
  | _ => Raise TypeError
  end.

Fixpoint write_attrs (l : list (string * pyval)) : result string :=
  match l with
  | [] => Ok ""
  | kv :: l' =>
      let? a := write_attr kv in
      let? r := write_attrs l' in
      Ok (a ^^ r)
  end.

(** The text [ET.indent] leaves on an element that has children: the
    children's indentation replaces a missing or blank text. *)
Definition indented_text (child_ind : string) (v : pyval) : result pyval :=
  if negb (truthy v) then Ok (PStr child_ind)
  else match v with
       | PStr s => Ok (if blank s then PStr child_ind else v)
       | _ => Raise AttributeError
       end.

(** [ET.indent(tree, space="    ")] followed by the XML serialization of
    [tree.write], for the element whose own indentation is [ind]: inside
    it every child is followed by the children's indentation, the last one
    by [ind]. *)
Fixpoint serialize (ind : string) (e : element) : result string :=
  let 'Element tag attrib text children := e in
  let child_ind := ind ^^ "    " in
  let? attrs := write_attrs attrib in
  match children with
  | [] =>
      let? t := write_text text in
      if truthy text then Ok ("<" ^^ tag ^^ attrs ^^ ">" ^^ t ^^ "</" ^^ tag ^^ ">")
      else Ok ("<" ^^ tag ^^ attrs ^^ " />")
  | _ :: _ =>
      let? text' := indented_text child_ind text in
      let? t := write_text text' in
      let? body :=
        (fix each (l : list element) : result string :=
           match l with
           | [] => Ok ""
           | [c] => let? x := serialize child_ind c in Ok (x ^^ ind)
           | c :: l' =>
               let? x := serialize child_ind c in
               let? r := each l' in
               Ok (x ^^ child_ind ^^ r)
           end) children in
      Ok ("<" ^^ tag ^^ attrs ^^ ">" ^^ t ^^ body ^^ "</" ^^ tag ^^ ">")
  end.

Definition tostring (root : element) : result string := serialize newline root.

(** Character data as an XML parser reads it back: the predefined entity
    references and the character references [&#39;] and [&#x27;] are
    replaced by their characters; a bare [&] or [<] is not well-formed.
    [skip] counts the characters of a reference still to be passed over. *)
Definition reference (s : string) : option (ascii * nat) :=
  if prefixb "amp;" s then Some ("&"%char, 4%nat)
  else if prefixb "lt;" s then Some ("<"%char, 3%nat)
  else if prefixb "gt;" s then Some (">"%char, 3%nat)
  else if prefixb "quot;" s then Some (dquote, 5%nat)
  else if prefixb "apos;" s then Some ("'"%char, 5%nat)
  else if prefixb "#39;" s then Some ("'"%char, 4%nat)
  else if prefixb "#x27;" s then Some ("'"%char, 5%nat)
  else None.

Fixpoint parse_from (skip : nat) (s : string) : option string :=
  match s with
  | EmptyString => Some EmptyString
  | String c s' =>
      match skip with
      | S k => parse_from k s'
      | O =>
          if Ascii.eqb c "&" then
            match reference s' with
            | Some (ch, n) => option_map (String ch) (parse_from n s')
            | None => None
            end
          else if Ascii.eqb c "<" then None
          else option_map (String c) (parse_from O s')
      end
  end.

Definition parse_cdata (s : string) : option string := parse_from O s.

(** ** Effects *)

(** What a run does to the outside world, in order. *)
Inductive event : Type :=
| EPost (body : string)                  (* [requests.post] of a query *)
| EMakedirs (path : string)
| EWrite (path : string) (doc : string)  (* a feed file, fully written *)
| EWriteFailed (path : string)           (* a feed file opened, then an exception *)
| EWriteIndex (path : string) (source : string)  (* the HTML index *)
| ECopytree (src dst : string)           (* [shutil.copytree] of the template *)
| EPrint (line : string)
| ESleep (seconds : Z).

(** A computation yields the events it caused and either a value or the
    exception that ended it; events caused before an exception stay. *)
Definition M (A : Type) : Type := (list event * result A)%type.

Definition ret {A} (a : A) : M A := ([], Ok a).

Definition bind {A B} (m : M A) (f : A -> M B) : M B :=
  match snd m with
  | Ok a => (fst m ++ fst (f a), snd (f a))
  | Raise e => (fst m, Raise e)
  end.

Definition lift {A} (r : result A) : M A := ([], r).

Definition emit (e : event) : M unit := ([e], Ok tt).

Declare Scope m_scope.
Delimit Scope m_scope with M.
Notation "x <- m ;; k" := (bind m (fun x => k))
  (at level 61, m at next level, right associativity) : m_scope.
Notation "m ;;; k" := (bind m (fun _ => k))
  (at level 61, right associativity) : m_scope.

Fixpoint mapR {A B} (f : A -> result B) (l : list A) : result (list B) :=
  match l with
  | [] => Ok []
  | a :: l' =>
      let? b := f a in
      let? r := mapR f l' in
      Ok (b :: r)
  end.

(** The POST bodies of a trace: the queries sent to the API. *)
Fixpoint posts (t : list event) : list string :=
  match t with
  | [] => []
  | EPost b :: t' => b :: posts t'
  | _ :: t' => posts t'
  end.

(** ** Command-line options *)

(** The namespace returned by [argParser.parse_args].  [search] is the
    attribute that only the option check creates ([None] while it does
    not exist). *)
Record Options : Type := {
  categoryID : option (list Z);
  categorySearch : option string;
  programID : option (list Z);
  programSearch : option string;
  maxPrograms : option Z;
  pagination : Z;
  latest : Z;
  html : bool;
  outputDir : string;
  output : string;
  search : option pyval
}.

(** [os.path.join(a, b)] on a POSIX system. *)
Definition ends_with_sep (a : string) : bool :=
  match nth_char (String.length a - 1) a with
  | Some c => Ascii.eqb c "/"
  | None => false
  end.

Definition path_join (a b : string) : string :=
  if prefixb "/" b then b
  else if String.eqb a "" || ends_with_sep a then a ^^ b
  else a ^^ "/" ^^ b.

Definition tab : string := String "009" EmptyString.

(** The world a run talks to: the API's answer to each POST body (already
    decoded by [result.json()]) and [os.path.exists] at start-up. *)
Class World : Type := {
  server : string -> pyval;
  path_exists : string -> bool
}.

(** ** [executeQuery] *)

Section ExecuteQuery.
Context {B : Builtins} {W : World}.

(** The body that [executeQuery] posts for a query. *)
Definition posted (query : string) : string := "{" ^^ query ^^ "}".

Definition executeQuery (query : string) : M pyval :=
  (body <- lift (pyformat "{%s}" [PStr query]) ;;
   emit (EPost body) ;;;
   ret (server body))%M.

End ExecuteQuery.

(** ** The classes *)

Module AudiothekItem.

(** [programSet], the reference to the owning program set, is only ever
    followed to read the owner's [title], which is never reassigned; it is
    kept as that title ([None] while the item has no owner). *)
Record t : Type := {
  id : pyval;
  title : pyval;
  dateTime : pyval;
  duration : pyval;
  downloadUrl : pyval;
  sharingUrl : pyval;
  description : pyval;
  synopsis : pyval;
  valid : bool;
  imageUrl : pyval;
  programSet : option pyval
}.

Definition set_programSet (owner : option pyval) (self : t) : t :=
  {| id := id self; title := title self; dateTime := dateTime self;
     duration := duration self; downloadUrl := downloadUrl self;
     sharingUrl := sharingUrl self; description := description self;
     synopsis := synopsis self; valid := valid self; imageUrl := imageUrl self;
     programSet := owner |}.

(** [x if len(x) > 0 else ""]. *)
Definition or_empty (x : pyval) : result pyval :=
  let? n := py_len x in
  Ok (if n >? 0 then x else PStr "").

Definition init (id title duration dateTime downloadUrl
                 sharingUrl description synopsis imageUrl : pyval) : result t :=
  let dateTime' := if is_none dateTime then PStr "" else dateTime in
  let duration' := if is_none duration then PInt 0 else duration in
  let? sharingUrl' := or_empty sharingUrl in
  let? description' := or_empty description in
  let? synopsis' := or_empty synopsis in
  let valid' := negb (is_none downloadUrl) in
  let? n := py_len imageUrl in
  let? imageUrl' := (if n >? 0 then py_replace imageUrl "{width}" "448" else Ok PNone) in
  Ok {| id := id; title := title; dateTime := dateTime'; duration := duration';
        downloadUrl := downloadUrl; sharingUrl := sharingUrl';
        description := description'; synopsis := synopsis'; valid := valid';
        imageUrl := imageUrl'; programSet := None |}.

Section Methods.
Context {B : Builtins}.

Definition toXML (self : t) : result element :=
  let? title_text := py_html_escape (title self) in
  let? description_text := py_html_escape (synopsis self) in
  let head :=
    [ Element "title" [] title_text [];
      Element "description" [] description_text [];
      Element "guid" [] (sharingUrl self) [];
      Element "link" [] (sharingUrl self) [];
      Element "enclosure"
        [("url", downloadUrl self); ("length", PStr ""); ("type", PStr "audio/mpeg")]
        PNone [];
      Element "media:content"
        [("url", downloadUrl self); ("medium", PStr "audio");
         ("type", PStr "audio/mpeg"); ("duration", PStr (py_str (duration self)))]
        PNone [];
      Element "pubDate" [] (dateTime self) [];
      Element "itunes:duration" [] (PStr (py_str (duration self))) [] ] in
  if truthy (imageUrl self) then
    let? url_text := py_html_escape (imageUrl self) in
    let? image_title :=
      match programSet self with
      | Some owner_title => py_html_escape owner_title
      | None => Ok PNone
      end in
    let? href := py_html_escape (imageUrl self) in
    Ok (Element "item" [] PNone
          (head ++
           [ Element "image" [] PNone
               [ Element "url" [] url_text []; Element "title" [] image_title [] ];
             Element "itunes:image" [("href", href)] PNone [] ]))
  else Ok (Element "item" [] PNone head).

End Methods.
End AudiothekItem.

Module AudiothekProgramSet.

(** [items] is [None] once [main] has released the list. *)
Record t : Type := {
  id : pyval;
  title : pyval;
  sharingUrl : pyval;
  description : pyval;
  synopsis : pyval;
  rssPath : pyval;
  audiothekPath : pyval;
  imageUrl : pyval;
  items : option (list AudiothekItem.t)
}.

Definition init (id title sharingUrl description synopsis imageUrl : pyval) : result t :=
  let? n := py_len imageUrl in
  Ok {| id := id; title := title; sharingUrl := sharingUrl;
        description := description; synopsis := synopsis;
        rssPath := PNone; audiothekPath := PNone;
        imageUrl := (if n >? 0 then imageUrl else PNone);
        items := Some [] |}.

Definition hasItems (self : t) : result bool :=
  match items self with
  | Some l => Ok (Z.of_nat (List.length l) >? 0)
  | None => Raise TypeError
  end.

Definition set_items (l : option (list AudiothekItem.t)) (self : t) : t :=
  {| id := id self; title := title self; sharingUrl := sharingUrl self;
     description := description self; synopsis := synopsis self;
     rssPath := rssPath self; audiothekPath := audiothekPath self;
     imageUrl := imageUrl self; items := l |}.

Definition addItem (self : t) (item : AudiothekItem.t) : result t :=
  match items self with
  | Some l =>
      Ok (set_items (Some (l ++ [AudiothekItem.set_programSet (Some (title self)) item])) self)
  | None => Raise AttributeError
  end.

Definition addItems (self : t) (addItems : list AudiothekItem.t) : result t :=
  match items self with
  | Some l =>
      Ok (set_items
            (Some (l ++ map (AudiothekItem.set_programSet (Some (title self))) addItems))
            self)
  | None => Raise AttributeError
  end.

Section Methods.
Context {B : Builtins} {W : World}.

(** The episode of one node of the response. *)
Definition episode (item : pyval) : result AudiothekItem.t :=
  let? a_title := getitem item "title" in
  let? a_duration := getitem item "duration" in
  let? a_date := getitem item "publicationStartDateAndTime" in
  let? audios := getitem item "audios" in
  let? audio := getindex audios 0 in
  let? a_url := getitem audio "url" in
  let? a_sharing := getitem item "sharingUrl" in
  let? a_summary := getitem item "summary" in
  let? a_synopsis := getitem item "synopsis" in
  let? image := getitem item "image" in
  let? a_image := getitem image "url1X1" in
  AudiothekItem.init (PInt 0) a_title a_duration a_date a_url
                     a_sharing a_summary a_synopsis a_image.

Definition episodes_query (self : t) (options : Options) : result string :=
  let? n := py_int (id self) in
  pyformat "programSet(id:%d){title,path,synopsis,sharingUrl,image{url,url1X1,},items(orderBy:PUBLISH_DATE_DESC,filter:{isPublished:{equalTo:true}}first:%d){nodes{title,summary,synopsis,sharingUrl,publicationStartDateAndTime:publishDate,url,episodeNumber,duration,image{url,url1X1,},isPublished,audios{url,downloadUrl,mimeType,}}}}"
           [PInt n; PInt (latest options)].

(** [data["items"]["nodes"]] of a response, as the loop runs over it. *)
Definition episode_nodes (data : pyval) : result (list pyval) :=
  let? its := getitem data "items" in
  let? nodes := getitem its "nodes" in
  py_iter nodes.

(** The statements of [queryEpisodes] after [data] has been taken out of
    the response. *)
Definition populate (self : t) (data : pyval) : result t :=
  let? seq := episode_nodes data in
  let? episodes := mapR episode seq in
  let? self1 := addItems self episodes in
  let? image := getitem data "image" in
  let? url := getitem image "url1X1" in
  let? path := getitem data "path" in
  Ok {| id := id self1; title := title self1; sharingUrl := sharingUrl self1;
        description := description self1; synopsis := synopsis self1;
        rssPath := rssPath self1; audiothekPath := path;
        imageUrl := url; items := items self1 |}.

Definition queryEpisodes (self : t) (options : Options) : M t :=
  (query <- lift (episodes_query self options) ;;
   response <- executeQuery query ;;
   lift (let? d := getitem response "data" in
         let? data := getitem d "programSet" in
         populate self data))%M.

(** The [image] block of the channel: present when [imageUrl] is not
    [None]. *)
Definition showImage (self : t) : result (list element) :=
  if negb (is_none (imageUrl self)) then
    let? url_text := py_html_escape (imageUrl self) in
    let? title_text := py_html_escape (title self) in
    let? link :=
      (if negb (is_none (audiothekPath self)) then
         let? l := pyformat "https://www.ardaudiothek.de%s" [audiothekPath self] in
         Ok [Element "link" [] (PStr l) []]
       else Ok []) in
    Ok [Element "image" [] PNone
          ([Element "url" [] url_text []; Element "title" [] title_text []] ++ link)]
  else Ok [].

Definition toXML (self : t) : result element :=
  let? showTitle := py_html_escape (title self) in
  let showLink := Element "link" [] (sharingUrl self) [] in
  let? showImage := showImage self in
  let? showDescription := py_html_escape (synopsis self) in
  let atom := Element "atom:link"
                [("href", PStr "ardaudiothek.html"); ("rel", PStr "self");
                 ("type", PStr "application/rss+xml")] PNone [] in
  let? its := match items self with Some l => Ok l | None => Raise TypeError end in
  let? item_nodes := mapR AudiothekItem.toXML (filter AudiothekItem.valid its) in
  Ok (Element "channel" [] PNone
        ([Element "title" [] showTitle []; showLink] ++ showImage ++
         [Element "description" [] showDescription []; atom] ++ item_nodes)).

End Methods.
End AudiothekProgramSet.

Module AudiothekCategory.

Record t : Type := {
  id : pyval;
  title : pyval;
  programSets : list AudiothekProgramSet.t
}.

Definition init (id title : pyval) : t :=
  {| id := id; title := title; programSets := [] |}.

Definition addProgramSet (self : t) (programSet : AudiothekProgramSet.t) : t :=
  {| id := id self; title := title self;
     programSets := programSets self ++ [programSet] |}.

Definition addProgramSets (self : t) (l : list AudiothekProgramSet.t) : t :=
  {| id := id self; title := title self; programSets := programSets self ++ l |}.

End AudiothekCategory.

(** ** The fetching functions *)

Section Pipeline.
Context {B : Builtins} {W : World}.

(** [",".join(['"%s"' % str(x) for x in xs])], the strings [str(x)] given. *)
Definition quoted_list (xs : list string) : result string :=
  let? qs := mapR (fun x => pyformat (dq ^^ "%s" ^^ dq) [PStr x]) xs in
  Ok (join "," qs).

Definition category_of (item : pyval) : result AudiothekCategory.t :=
  let? node := getitem item "node" in
  let? a_id := getitem node "id" in
  let? node' := getitem item "node" in
  let? a_title := getitem node' "title" in
  Ok (AudiothekCategory.init a_id a_title).

Definition categories_query (options : Options) : result string :=
  match categoryID options with
  | Some ids =>
      let? l := quoted_list (map dec ids) in
      pyformat "editorialCategoriesByIDs(ids:[%s]){edges{node{title, id}}}" [PStr l]
  | None =>
      match categorySearch options with
      | Some term =>
          let? filter := pyformat ("(filter:{title:{includes:" ^^ dq ^^ "%s" ^^ dq ^^ "})") [PStr term] in
          pyformat "editorialCategories%s{edges{node{title, id}}}" [PStr filter]
      | None => Raise TypeError
      end
  end.

Definition getCategories (options : Options) : M (list AudiothekCategory.t) :=
  match categoryID options, categorySearch options with
  | None, None => ret []
  | _, _ =>
      (query <- lift (categories_query options) ;;
       response <- executeQuery query ;;
       lift (let? d := getitem response "data" in
             let? cats := getitem d "editorialCategories" in
             let? data := getitem cats "edges" in
             let? seq := py_iter data in
             mapR category_of seq))%M
  end.

(** The program set of one listing record. *)
Definition programSet_of (node : pyval) : result AudiothekProgramSet.t :=
  let? a_id := getitem node "id" in
  let? a_title := getitem node "title" in
  let? a_sharing := getitem node "sharingUrl" in
  let? a_description := getitem node "description" in
  let? a_synopsis := getitem node "synopsis" in
  AudiothekProgramSet.init a_id a_title a_sharing a_description a_synopsis (PStr "").

Definition programSet_of_edge (item : pyval) : result AudiothekProgramSet.t :=
  let? n1 := getitem item "node" in
  let? a_id := getitem n1 "id" in
  let? n2 := getitem item "node" in
  let? a_title := getitem n2 "title" in
  let? n3 := getitem item "node" in
  let? a_sharing := getitem n3 "sharingUrl" in
  let? n4 := getitem item "node" in
  let? a_description := getitem n4 "description" in
  let? n5 := getitem item "node" in
  let? a_synopsis := getitem n5 "synopsis" in
  AudiothekProgramSet.init a_id a_title a_sharing a_description a_synopsis (PStr "").

(** The filter clause of [getProgramSets] (the statements before its loop). *)
Definition programSets_filter (options : Options) (categoryIDs : list pyval) : result string :=
  let? filters1 :=
    (if Z.of_nat (List.length categoryIDs) >? 0 then
       let? l := quoted_list (map py_str categoryIDs) in
       let? f := pyformat "editorialCategoryId:{in:[]}" [PStr l] in
       Ok [f]
     else Ok []) in
  let? filters2 :=
    match programSearch options with
    | Some term =>
        let? f := pyformat ("title:{likeInsensitive:" ^^ dq ^^ "%%%s%%" ^^ dq ^^ "}") [PStr term] in
        Ok (filters1 ++ [f])
    | None => Ok filters1
    end in
  if Z.of_nat (List.length filters2) >? 0
  then pyformat "filter:{%s}," [PStr (join "," filters2)]
  else Ok "".

(** The query of the page at [offset]. *)
Definition page_query (options : Options) (filter : string) (offset : Z) : result string :=
  let? page := pyformat "first:%d,offset:%d" [PInt (pagination options); PInt offset] in
  pyformat "programSets(%s,%s,orderBy:LAST_ITEM_ADDED_DESC){edges{node{title, id, sharingUrl, description, synopsis}}, totalCount}"
           [PStr filter; PStr page].

(** The condition of the [while] loop of [getProgramSets]. *)
Definition another_page (options : Options) (totalCount : pyval) (offset : Z)
    : result bool :=
  let? unknown := py_lt totalCount (PInt 0) in
  if unknown : bool then Ok true
  else py_le (PInt (offset + pagination options)) totalCount.

(** [data["programSets"]["totalCount"]] and the program sets of
    [data["programSets"]["edges"]]. *)
Definition page_total (data : pyval) : result pyval :=
  let? p := getitem data "programSets" in
  getitem p "totalCount".

Definition page_programSets (data : pyval) : result (list AudiothekProgramSet.t) :=
  let? p := getitem data "programSets" in
  let? edges := getitem p "edges" in
  let? seq := py_iter edges in
  mapR programSet_of_edge seq.

(** The body of the loop up to the advance of [offset]: the page at
    [offset] is requested; the total count is taken from the answer while
    it is unknown; the value is the total count and the program sets of
    the page. *)
Definition fetch_page (options : Options) (filter : string) (totalCount : pyval)
    (offset : Z) : M (pyval * list AudiothekProgramSet.t) :=
  (query <- lift (page_query options filter offset) ;;
   response <- executeQuery query ;;
   data <- lift (getitem response "data") ;;
   unknown <- lift (py_lt totalCount (PInt 0)) ;;
   totalCount' <- (if unknown : bool then lift (page_total data) else ret totalCount) ;;
   page <- lift (page_programSets data) ;;
   ret (totalCount', page))%M.

(** The [while] loop of [getProgramSets]; [fuel] bounds the number of
    times its condition is evaluated. *)
Fixpoint getProgramSets_loop (fuel : nat) (options : Options) (filter : string)
    (totalCount : pyval) (offset : Z) (programSets : list AudiothekProgramSet.t)
    : M (list AudiothekProgramSet.t) :=
  match fuel with
  | O => lift (Raise OutOfFuel)
  | S fuel' =>
      (continue <- lift (another_page options totalCount offset) ;;
       if continue : bool then
         r <- fetch_page options filter totalCount offset ;;
         getProgramSets_loop fuel' options filter (fst r)
                             (offset + pagination options) (programSets ++ snd r)
       else ret programSets)%M
  end.

Definition getProgramSets (fuel : nat) (options : Options) (categoryIDs : list pyval)
    : M (list AudiothekProgramSet.t) :=
  (filter <- lift (programSets_filter options categoryIDs) ;;
   getProgramSets_loop fuel options filter (PInt (-1)) 0 [])%M.

Definition programSetsByIds_query (options : Options) : result string :=
  match programID options with
  | Some ids =>
      let? l := quoted_list (map dec ids) in
      pyformat "programSetsByIds(ids:[%s]){nodes{title, id, sharingUrl, description, synopsis}}"
               [PStr l]
  | None => Raise TypeError
  end.

Definition getProgramSetsByID (options : Options) : M (list AudiothekProgramSet.t) :=
  (query <- lift (programSetsByIds_query options) ;;
   response <- executeQuery query ;;
   lift (let? d := getitem response "data" in
         let? p := getitem d "programSetsByIds" in
         let? data := getitem p "nodes" in
         let? seq := py_iter data in
         mapR programSet_of seq))%M.

(** [ET.indent] and [tree.write].  The file itself is taken to open: what
    can raise here is the indentation or the serialization of the tree,
    which leaves the file opened and incomplete. *)
Definition writeRSS (outputPath : string) (root : element) : M unit :=
  match tostring root with
  | Ok doc => emit (EWrite outputPath doc)
  | Raise e => (emit (EWriteFailed outputPath) ;;; lift (Raise e))%M
  end.

Definition queryContent (fuel : nat) (options : Options) : M (list AudiothekProgramSet.t) :=
  match programID options with
  | Some _ => getProgramSetsByID options
  | None =>
      (categories <- getCategories options ;;
       getProgramSets fuel options (map AudiothekCategory.id categories))%M
  end.

(** ** The feed loop of [main] *)

(** [unicodedata.normalize("NFKD", v)]. *)
Definition normalize (v : pyval) : result string :=
  match v with
  | PStr s => Ok (nfkd s)
  | _ => Raise TypeError
  end.

(** The file name of a feed: [options.output % ("", int(programSet.id))]. *)
Definition outputFileName (options : Options) (programSet : AudiothekProgramSet.t)
    : result string :=
  let? n := py_int (AudiothekProgramSet.id programSet) in
  pyformat (output options) [PStr ""; PInt n].

(** What the body of the [for] loop of [main] does when the program set
    has items: it writes the feed and returns the released program set
    with the new entry of [jinjaVars]. *)
Definition writeFeed (options : Options) (rssDir : string)
    (programSet : AudiothekProgramSet.t)
    : M (AudiothekProgramSet.t * (string * string)) :=
  (contentNode <- lift (AudiothekProgramSet.toXML programSet) ;;
   let root := Element "rss" [] PNone [contentNode] in
   normTitle <- lift (normalize (AudiothekProgramSet.title programSet)) ;;
   name <- lift (outputFileName options programSet) ;;
   let outputPath := path_join rssDir name in
   writeRSS outputPath root ;;;
   let entry := (path_join (path_join ".." "rss") name, normTitle) in
   let released :=
     {| AudiothekProgramSet.id := AudiothekProgramSet.id programSet;
        AudiothekProgramSet.title := AudiothekProgramSet.title programSet;
        AudiothekProgramSet.sharingUrl := AudiothekProgramSet.sharingUrl programSet;
        AudiothekProgramSet.description := AudiothekProgramSet.description programSet;
        AudiothekProgramSet.synopsis := AudiothekProgramSet.synopsis programSet;
        AudiothekProgramSet.rssPath := PStr outputPath;
        AudiothekProgramSet.audiothekPath := AudiothekProgramSet.audiothekPath programSet;
        AudiothekProgramSet.imageUrl := AudiothekProgramSet.imageUrl programSet;
        AudiothekProgramSet.items := None |} in
   line <- lift (let? n := py_int (AudiothekProgramSet.id programSet) in
                 pyformat ("Written %d" ^^ tab ^^ "%s")
                          [PInt n; AudiothekProgramSet.title programSet]) ;;
   emit (EPrint line) ;;;
   ret (released, entry))%M.

(** The [for] loop of [main] over the program sets still to be processed,
    with the running [count] and the [jinjaVars] collected so far. *)
Fixpoint main_loop (options : Options) (rssDir : string) (limit count : Z)
    (programSets : list AudiothekProgramSet.t) (jinjaVars : list (string * string))
    : M (list (string * string)) :=
  match programSets with
  | [] => ret jinjaVars
  | programSet :: rest =>
      (programSet1 <- AudiothekProgramSet.queryEpisodes programSet options ;;
       has <- lift (AudiothekProgramSet.hasItems programSet1) ;;
       jinjaVars' <- (if has : bool then
                        r <- writeFeed options rssDir programSet1 ;;
                        ret (jinjaVars ++ [snd r])
                      else ret jinjaVars) ;;
       let count' := count + 1 in
       let stop := (limit >? 0) && (count' =? limit) in
       if stop then ret jinjaVars'
       else
         (if negb (count' mod 100 =? 0) then emit (ESleep 1) else ret tt) ;;;
         main_loop options rssDir limit count' rest jinjaVars')%M
  end.

(** ** The option checks of [getOptions] *)

(** The correction of the output template (the last check). *)
Definition corrected_output (output : string) : string :=
  let lastDot := rfind "." output in
  if lastDot >? -1
  then take (Z.to_nat lastDot) output ^^ "%d" ^^ drop (Z.to_nat lastDot) output
  else output ^^ "%d".

Definition with_output (o : Options) (s : string) : Options :=
  {| categoryID := categoryID o; categorySearch := categorySearch o;
     programID := programID o; programSearch := programSearch o;
     maxPrograms := maxPrograms o; pagination := pagination o; latest := latest o;
     html := html o; outputDir := outputDir o; output := s; search := search o |}.

Definition silence_filters (o : Options) : Options :=
  {| categoryID := None; categorySearch := categorySearch o;
     programID := programID o; programSearch := programSearch o;
     maxPrograms := maxPrograms o; pagination := pagination o; latest := latest o;
     html := html o; outputDir := outputDir o; output := output o;
     search := Some PNone |}.

Definition is_some {A} (x : option A) : bool :=
  match x with Some _ => true | None => false end.

(** The value checks of [getOptions], applied to the parsed arguments. *)
Definition getOptions (parsed : Options) : M Options :=
  ((if negb (path_exists (outputDir parsed)) then
      msg <- lift (pyformat "The output directory %s does not exist"
                            [PStr (outputDir parsed)]) ;;
      lift (Raise (SystemExit msg))
    else ret tt) ;;;
   options1 <- (if is_some (programID parsed) &&
                   (is_some (programSearch parsed) || is_some (categoryID parsed))
                then
                  emit (EPrint "The --program-id argument overrides eventual restrictions by --program-search and --category-id.") ;;;
                  ret (silence_filters parsed)
                else ret parsed) ;;
   if negb (contains "%d" (output options1)) then
     let options2 := with_output options1 (corrected_output (output options1)) in
     line <- lift (pyformat "The --output file name template has been corrected to %s"
                            [PStr (output options2)]) ;;
     emit (EPrint line) ;;;
     ret options2
   else ret options1)%M.

End Pipeline.

(** ** The index of [main]

    What [main] computes from [jinjaVars] when [options.html] is set, up
    to the call of the template engine: the entries grouped under the
    upper-cased first character of their normalized title, every group
    sorted by title, and the groups and their anchors ordered by the
    escaped initial. *)

(** [str.upper()], left open like the other tables of the Unicode
    database. *)
Class Casing : Type := {
  upper : string -> string
}.

(** The number of bytes of the UTF-8 sequence that a lead byte begins. *)
Definition utf8_width (c : ascii) : nat :=
  let n := N_of_ascii c in
  if (n <? 192)%N then 1%nat
  else if (n <? 224)%N then 2%nat
  else if (n <? 240)%N then 3%nat
  else 4%nat.

(** [s[:1]]: the first character of [s], the empty string when there is
    none. *)
Definition first_char (s : string) : string :=
  match s with
  | EmptyString => EmptyString
  | String c _ => take (utf8_width c) s
  end.

(** [l.sort(key=key)] with string keys.  The sort of a list is stable and
    compares keys with [<] only; on strings [<] is the lexicographic order
    of the code points, which is the order of the bytes of their UTF-8
    encoding. *)
Section Sort.
Context {A : Type} (key : A -> string).

Fixpoint insert_sorted (x : A) (l : list A) : list A :=
  match l with
  | [] => [x]
  | y :: l' =>
      if String.ltb (key y) (key x) then y :: insert_sorted x l'
      else x :: y :: l'
  end.

Fixpoint list_sort (l : list A) : list A :=
  match l with
  | [] => []
  | x :: l' => insert_sorted x (list_sort l')
  end.

End Sort.

(** [programsByChar]: the items of the dict in insertion order. *)
Definition groups : Type := list (string * list (string * string)).

(** One turn of the grouping loop: the key is created with an empty list
    when it is missing, and the entry is appended to the list of the
    key. *)
Fixpoint group_append (initChar : string) (e : string * string) (d : groups) : groups :=
  match d with
  | [] => [(initChar, [e])]
  | (k, l) :: d' =>
      if String.eqb initChar k then (k, l ++ [e]) :: d'
      else (k, l) :: group_append initChar e d'
  end.

Section Index.
Context {B : Builtins} {C : Casing}.

(** [normTitle[:1].upper()] of an entry [(filePath, normTitle)]. *)
Definition initial (e : string * string) : string := upper (first_char (snd e)).

(** The entries filed under [initChar]. *)
Definition of_initial (initChar : string) (e : string * string) : bool :=
  String.eqb (initial e) initChar.

Definition programsByChar (jinjaVars : list (string * string)) : groups :=
  fold_left (fun d e => group_append (initial e) e d) jinjaVars [].

(** [programsByChar[initChar].sort(key=lambda x:x[1])] for every key. *)
Definition sort_groups (d : groups) : groups :=
  map (fun g => (fst g, list_sort snd (snd g))) d.

Definition letters (d : groups) : result (list (string * string)) :=
  let? l := mapR (fun g =>
                    let? anchor := pyformat "#%s" [PStr (html_escape (upper (fst g)))] in
                    Ok (anchor, html_escape (upper (fst g)))) d in
  Ok (list_sort snd l).

Definition orderedData (d : groups) : groups :=
  list_sort fst (map (fun g => (html_escape (upper (fst g)), snd g)) d).

(** The values [letters] and [orderedData] handed to the template. *)
Definition index_data (jinjaVars : list (string * string))
    : result (list (string * string) * groups) :=
  let programsByChar := sort_groups (programsByChar jinjaVars) in
  let? letters := letters programsByChar in
  Ok (letters, orderedData programsByChar).

End Index.

(** ** [main]

    What the last block of [main] takes from its surroundings: the
    directory of the script ([getScriptDirectory()]), and the template
    engine - the import of [jinja2], the environment over the template
    directory, [get_template('index.jinja')] and [render] with the index
    data, the date of the day and the command line - as the function from
    the template directory and the index data to the page, or to the
    exception that one of these steps raises. *)
Class Site : Type := {
  scriptDirectory : string;
  render_index : string -> list (string * string) -> groups -> result string
}.

Section Main.
Context {B : Builtins} {W : World} {C : Casing} {S : Site}.




End Main.

(** ** Vocabulary of the properties *)

(** The elements of a channel that stand for episodes. *)
Definition is_item (e : element) : bool := String.eqb (tag_of e) "item".

(** The child elements of [e] with the given tag. *)
Definition children_tagged (tag : string) (e : element) : list element :=
  filter (fun c => String.eqb (tag_of c) tag) (children_of e).

(** What a parser reads back from the character data written for a text,
    taken on its own: the references are resolved.  The normalization of
    line ends and the well-formedness of the document around the text are
    not part of it. *)
Definition read_back (v : pyval) : option string :=
  match write_text v with
  | Ok w => parse_cdata w
  | Raise _ => None
  end.

(** The characters that [html.escape] replaces. *)
Definition special (c : ascii) : bool :=
  in_str c "&<>'" || Ascii.eqb c dquote.

Fixpoint has_special (s : string) : bool :=
  match s with
  | EmptyString => false
  | String c s' => special c || has_special s'
  end.

(** The number of pages the specification's words ask for,
    [ceil(totalCount / p)]. *)
Definition ceil_div (total p : Z) : Z := (total + p - 1) / p.

(** The [valid] flag of an item agrees with its download URL. *)
Definition valid_iff_url (item : AudiothekItem.t) : Prop :=
  AudiothekItem.valid item = true <-> AudiothekItem.downloadUrl item <> PNone.

(** The quoted, comma-separated list of identifiers. *)
Definition quoted (xs : list string) : string :=
  join "," (map (fun x => dq ^^ x ^^ dq) xs).

Section Requests.
Context {B : Builtins} {W : World}.

(** The request of the page at [offset], as an event. *)
Definition page_request (options : Options) (filter : string) (offset : Z)
    (ev : event) : Prop :=
  exists q, page_query options filter offset = Ok q /\ ev = EPost (posted q).

(** The answers at the offsets [k * p] decode to the pages [page k]. *)
Definition pages_are (options : Options) (filter : string)
    (page : nat -> list AudiothekProgramSet.t) : Prop :=
  forall k : nat, exists q data,
    page_query options filter (Z.of_nat k * pagination options) = Ok q /\
    getitem (server (posted q)) "data" = Ok data /\
    page_programSets data = Ok (page k).

(** The answers at the offsets [k * p] decode to pages and carry the
    total count [total]. *)
Definition pages_report (options : Options) (filter : string) (total : Z) : Prop :=
  forall k : nat, exists q data page,
    page_query options filter (Z.of_nat k * pagination options) = Ok q /\
    getitem (server (posted q)) "data" = Ok data /\
    page_programSets data = Ok page /\
    page_total data = Ok (PInt total).

(** The episode query of a program set, as a posted body. *)
Definition episode_request (options : Options) (programSet : AudiothekProgramSet.t)
    (body : string) : Prop :=
  exists q, AudiothekProgramSet.episodes_query programSet options = Ok q /\
            body = posted q.

End Requests.

(** The paths of the feed files a trace opens, and the number of pauses
    in it. *)
Fixpoint files (t : list event) : list string :=
  match t with
  | [] => []
  | EWrite path _ :: t' => path :: files t'
  | EWriteFailed path :: t' => path :: files t'
  | _ :: t' => files t'
  end.

Fixpoint pauses (t : list event) : nat :=
  match t with
  | [] => O
  | ESleep _ :: t' => S (pauses t')
  | _ :: t' => pauses t'
  end.

Section Feeds.
Context {B : Builtins} {W : World}.

(** The feed of a candidate program set, as file name and normalized
    title: what the body of the loop of [main] computes for it when its
    episode query is answered with at least one item ([None] when there is
    no item, or when a step raises). *)
Definition feed_of (options : Options) (programSet : AudiothekProgramSet.t)
    : option (string * string) :=
  match snd (AudiothekProgramSet.queryEpisodes programSet options) with
  | Ok programSet1 =>
      match AudiothekProgramSet.hasItems programSet1 with
      | Ok true =>
          match outputFileName options programSet1,
                normalize (AudiothekProgramSet.title programSet1) with
          | Ok name, Ok normTitle => Some (name, normTitle)
          | _, _ => None
          end
      | _ => None
      end
  | Raise _ => None
  end.

Definition feeds_of (options : Options) (programSets : list AudiothekProgramSet.t)
    : list (string * string) :=
  flat_map (fun programSet => match feed_of options programSet with
                              | Some f => [f]
                              | None => []
                              end) programSets.

(** The pause after the program set that brings the count to [count]. *)
Definition pause_after (count : Z) : list event :=
  if negb (count mod 100 =? 0) then [ESleep 1] else [].

End Feeds.

(** The candidates that the loop of [main] works on from a running count
    [count]: with a positive limit not yet reached, as many as are missing
    to the limit; otherwise all of them. *)
Definition attempted (limit count : Z) (candidates : list AudiothekProgramSet.t)
    : list AudiothekProgramSet.t :=
  if (limit >? 0) && (count <? limit)
  then firstn (Z.to_nat (limit - count)) candidates
  else candidates.

(** Values that the feed can carry as text: a string where the script
    calls a string method on the value, a string or [None] where the
    value only reaches the serializer. *)
Definition is_str (v : pyval) : bool :=
  match v with PStr _ => true | _ => false end.

Definition str_or_none (v : pyval) : bool :=
  match v with PStr _ | PNone => true | _ => false end.

(** An element that [tree.write] serializes: attribute values are
    strings, texts are strings or missing. *)
Fixpoint writable (e : element) : bool :=
  let 'Element _ attrib text children := e in
  forallb (fun kv => is_str (snd kv)) attrib && str_or_none text &&
  forallb writable children.

(** An episode whose fields are texts. *)
Definition textual_item (item : AudiothekItem.t) : bool :=
  is_str (AudiothekItem.title item) && is_str (AudiothekItem.synopsis item) &&
  str_or_none (AudiothekItem.sharingUrl item) &&
  is_str (AudiothekItem.downloadUrl item) &&
  str_or_none (AudiothekItem.dateTime item) &&
  str_or_none (AudiothekItem.imageUrl item) &&
  match AudiothekItem.programSet item with
  | Some owner_title => is_str owner_title
  | None => true
  end.

(** A program set whose fields are texts and whose valid episodes are
    textual. *)
Definition textual_programSet (programSet : AudiothekProgramSet.t) : bool :=
  is_str (AudiothekProgramSet.title programSet) &&
  is_str (AudiothekProgramSet.synopsis programSet) &&
  str_or_none (AudiothekProgramSet.sharingUrl programSet) &&
  str_or_none (AudiothekProgramSet.imageUrl programSet) &&
  match AudiothekProgramSet.items programSet with
  | Some l => forallb (fun item => negb (AudiothekItem.valid item) || textual_item item) l
  | None => false
  end.


(** ** Qualified names

    A tag or attribute name with a colon is a qualified name.  The
    serializer writes names as they are; a namespace-aware parser accepts
    a qualified name only when its prefix is declared by an attribute
    [xmlns:prefix] of the element or of one of its ancestors ([xml] and
    [xmlns] are declared from the start). *)

(** The prefix of a name: the text before its first colon. *)
Fixpoint prefix_of (name : string) : option string :=
  match name with
  | EmptyString => None
  | String c rest =>
      if Ascii.eqb c ":" then Some EmptyString
      else option_map (String c) (prefix_of rest)
  end.

(** The prefixes that the attributes of an element declare. *)
Definition declared (attrib : list (string * pyval)) : list string :=
  flat_map (fun kv => if prefixb "xmlns:" (fst kv) then [drop 6 (fst kv)] else [])
           attrib.

Definition bound (scope : list string) (name : string) : bool :=
  match prefix_of name with
  | None => true
  | Some p => existsb (String.eqb p) scope
  end.

(** Every prefix used in the tree is declared where it is used. *)
Fixpoint prefixes_bound (scope : list string) (e : element) : bool :=
  let 'Element tag attrib _ children := e in
  let scope' := declared attrib ++ scope in
  bound scope' tag && forallb (fun kv => bound scope' (fst kv)) attrib &&
  forallb (prefixes_bound scope') children.

(** ** Sample inputs *)

(** An interpreter for the samples: [int()] reads plain decimal digits. *)
Fixpoint digits_value (acc : Z) (s : string) : option Z :=
  match s with
  | EmptyString => Some acc
  | String c s' =>
      if is_digit c then digits_value (10 * acc + Z.of_nat (digit c)) s' else None
  end.

Definition sample_builtins : Builtins :=
  {| int_of_str := fun s => match s with
                            | EmptyString => None
                            | _ => digits_value 0 s
                            end;
     repr_container := fun _ => "<container>";
     nfkd := fun s => s |}.

(** The default options of the argument parser, and variations. *)
Definition default_options : Options :=
  {| categoryID := None; categorySearch := None; programID := None;
     programSearch := None; maxPrograms := None; pagination := 100;
     latest := 10; html := false; outputDir := "rss";
     output := "ardaudiothek_%s%d.rss"; search := None |}.

Definition options_with_output (template : string) : Options :=
  {| categoryID := None; categorySearch := None; programID := None;
     programSearch := None; maxPrograms := None; pagination := 100;
     latest := 10; html := false; outputDir := "rss";
     output := template; search := None |}.

(** A program set as [getProgramSets] builds it from a listing record. *)
Definition sample_programSet (id title : string) : AudiothekProgramSet.t :=
  {| AudiothekProgramSet.id := PStr id;
     AudiothekProgramSet.title := PStr title;
     AudiothekProgramSet.sharingUrl := PStr "https://www.ardaudiothek.de/sendung/x";
     AudiothekProgramSet.description := PStr "";
     AudiothekProgramSet.synopsis := PStr "About the show";
     AudiothekProgramSet.rssPath := PNone;
     AudiothekProgramSet.audiothekPath := PNone;
     AudiothekProgramSet.imageUrl := PNone;
     AudiothekProgramSet.items := Some [] |}.

(** A world whose API answers every query alike and in which every path
    exists. *)
Definition constant_world (response : pyval) : World :=
  {| server := fun _ => response; path_exists := fun _ => true |}.

(** Responses to the episode query: a node of the episode list with the
    given title and media URL, and the answer for a program set. *)
Definition sample_node (title : string) (url : pyval) : pyval :=
  PDict [ ("title", PStr title); ("summary", PStr "Summary");
          ("synopsis", PStr "Synopsis");
          ("sharingUrl", PStr "https://www.ardaudiothek.de/episode/e");
          ("publicationStartDateAndTime", PStr "2024-05-01T10:00:00Z");
          ("url", PStr "https://api.ardaudiothek.de/episode/e");
          ("episodeNumber", PNone); ("duration", PInt 1800);
          ("image", PDict [ ("url", PStr "https://img.ard.de/e?w={width}");
                            ("url1X1", PStr "https://img.ard.de/e1x1?w={width}") ]);
          ("isPublished", PBool true);
          ("audios", PList [ PDict [ ("url", url); ("downloadUrl", url);
                                     ("mimeType", PStr "audio/mpeg") ] ]) ].

Definition sample_episodes (image1x1 : pyval) (nodes : list pyval) : pyval :=
  PDict [ ("data",
     PDict [ ("programSet",
        PDict [ ("title", PStr "Show"); ("path", PStr "/sendung/show/7/");
                ("synopsis", PStr "About the show");
                ("sharingUrl", PStr "https://www.ardaudiothek.de/sendung/x");
                ("image", PDict [ ("url", PStr "https://img.ard.de/s?w={width}");
                                  ("url1X1", image1x1) ]);
                ("items", PDict [ ("nodes", PList nodes) ]) ]) ]) ].

(** Two episodes, the second without a media URL. *)
Definition two_episodes : pyval :=
  sample_episodes (PStr "https://img.ard.de/s1x1?w={width}")
    [ sample_node "First" (PStr "https://media.ard.de/first.mp3");
      sample_node "Second" PNone ].

(** The program set with id 7 after its episode query was answered with
    [two_episodes]. *)
Definition populated_sample : AudiothekProgramSet.t :=
  match snd (@AudiothekProgramSet.queryEpisodes sample_builtins
               (constant_world two_episodes) (sample_programSet "7" "Show")
               default_options) with
  | Ok p => p
  | Raise _ => sample_programSet "7" "Show"
  end.

(** A record of the program-set listing. *)
Definition sample_listing (id title : string) : pyval :=
  PDict [ ("title", PStr title); ("id", PStr id);
          ("sharingUrl", PStr "https://www.ardaudiothek.de/sendung/x");
          ("description", PStr ""); ("synopsis", PStr "About the show") ].

(** The answer to an episode query whose 1x1 image URL is the empty
    string. *)
Definition episodes_without_image : pyval :=
  sample_episodes (PStr "")
    [ sample_node "First" (PStr "https://media.ard.de/first.mp3") ].

(** A program set and an episode whose titles contain markup characters. *)
Definition markup_episodes : pyval :=
  sample_episodes (PStr "https://img.ard.de/s1x1")
    [ sample_node "Q&A <live>" (PStr "https://media.ard.de/first.mp3") ].

Definition markup_sample : AudiothekProgramSet.t :=
  match snd (@AudiothekProgramSet.queryEpisodes sample_builtins
               (constant_world markup_episodes) (sample_programSet "7" "Tom & Jerry")
               default_options) with
  | Ok p => p
  | Raise _ => sample_programSet "7" "Tom & Jerry"
  end.

(** Options with the given selectors, cap and page size; the rest as by
    default. *)
Definition sample_options (categories programs : option (list Z))
    (term : option string) (cap : option Z) (page : Z) : Options :=
  {| categoryID := categories; categorySearch := None; programID := programs;
     programSearch := term; maxPrograms := cap; pagination := page;
     latest := 10; html := false; outputDir := "rss";
     output := "ardaudiothek_%s%d.rss"; search := None |}.

(** An answer to the category query by IDs, shaped as the query asks. *)
Definition categories_by_id_answer : pyval :=
  PDict [ ("data",
     PDict [ ("editorialCategoriesByIDs",
        PDict [ ("edges",
           PList [ PDict [ ("node", PDict [ ("title", PStr "Krimi");
                                            ("id", PStr "42") ]) ] ]) ]) ]) ].

(** An answer to the query of program sets by IDs. *)
Definition programSets_by_id_answer : pyval :=
  PDict [ ("data",
     PDict [ ("programSetsByIds",
        PDict [ ("nodes", PList [ sample_listing "7" "Show";
                                  sample_listing "9" "Other show" ]) ]) ]) ].

(** An answer to a page query: the total count and the records of the
    page. *)
Definition page_answer (total : Z) (records : list pyval) : pyval :=
  PDict [ ("data",
     PDict [ ("programSets",
        PDict [ ("edges", PList (map (fun r => PDict [("node", r)]) records));
                ("totalCount", PInt total) ]) ]) ].

(** Five candidate program sets. *)
Definition five_candidates : list AudiothekProgramSet.t :=
  [ sample_programSet "1" "One"; sample_programSet "2" "Two";
    sample_programSet "3" "Three"; sample_programSet "4" "Four";
    sample_programSet "5" "Five" ].

(** An episode node that lists no audio. *)
Definition node_without_audio : pyval :=
  PDict [ ("title", PStr "Silent"); ("summary", PStr "Summary");
          ("synopsis", PStr "Synopsis");
          ("sharingUrl", PStr "https://www.ardaudiothek.de/episode/s");
          ("publicationStartDateAndTime", PStr "2024-05-01T10:00:00Z");
          ("duration", PInt 60);
          ("image", PDict [ ("url1X1", PStr "https://img.ard.de/s1x1") ]);
          ("audios", PList []) ].

(** An answer to the category query by search term: one category. *)
Definition categories_by_search_answer : pyval :=
  PDict [ ("data",
     PDict [ ("editorialCategories",
        PDict [ ("edges",
           PList [ PDict [ ("node", PDict [ ("title", PStr "Krimi");
                                            ("id", PStr "42") ]) ] ]) ]) ]) ].

(** Options that select categories by the search term [Krimi]. *)
Definition search_options : Options :=
  {| categoryID := None; categorySearch := Some "Krimi"; programID := None;
     programSearch := None; maxPrograms := None; pagination := 100;
     latest := 10; html := false; outputDir := "rss";
     output := "ardaudiothek_%s%d.rss"; search := None |}.

(** * Properties *)

(** ** Strings and formatting *)

Lemma take_append (a b : string) : take (String.length a) (a ^^ b) = a.
Proof. induction a as [|x a IH]; simpl; [now destruct b | now rewrite IH]. Qed.

Lemma drop_append (a b : string) : drop (String.length a) (a ^^ b) = b.
Proof. induction a as [|x a IH]; simpl; [now destruct b | exact IH]. Qed.

(** [rfind] answers [-1] on the strings without the character. *)
Lemma rfind_absent (c : ascii) (s : string) :
  in_str c s = false -> rfind c s = -1.
Proof.
  induction s as [|a s IH]; simpl; [reflexivity |].
  intros H. apply orb_false_iff in H. destruct H as [Hc Hs].
  rewrite (IH Hs). simpl. rewrite Ascii.eqb_sym, Hc. reflexivity.
Qed.

(** The last occurrence: the position after which the character does not
    occur again. *)
Lemma rfind_last (c : ascii) (stem ext : string) :
  in_str c ext = false ->
  rfind c (stem ^^ String c ext) = slen stem.
Proof.
  intros Hext. unfold slen. induction stem as [|a stem IH]; simpl.
  - rewrite (rfind_absent _ _ Hext). simpl. now rewrite Ascii.eqb_refl.
  - rewrite IH.
    destruct (0 <=? Z.of_nat (String.length stem)) eqn:E.
    + lia.
    + apply Z.leb_gt in E. lia.
Qed.

Lemma corrected_output_ext (stem ext : string) :
  in_str "." ext = false ->
  corrected_output (stem ^^ "." ^^ ext) = stem ^^ "%d" ^^ "." ^^ ext.
Proof.
  intros H. unfold corrected_output.
  change (stem ^^ "." ^^ ext) with (stem ^^ String "." ext).
  rewrite (rfind_last _ _ _ H). unfold slen.
  destruct (Z.of_nat (String.length stem) >? -1) eqn:E.
  - rewrite Nat2Z.id, take_append, drop_append. reflexivity.
  - rewrite Z.gtb_ltb in E. apply Z.ltb_ge in E. lia.
Qed.

Lemma corrected_output_no_ext (s : string) :
  in_str "." s = false -> corrected_output s = s ^^ "%d".
Proof.
  intros H. unfold corrected_output. now rewrite (rfind_absent _ _ H).
Qed.

(** ** The option checks *)

Section OptionChecks.
Context {B : Builtins} {W : World}.

(** With an existing output directory the checks return: the program-ID
    list is kept, and the template is either kept or corrected. *)
Lemma getOptions_returns (parsed : Options) :
  path_exists (outputDir parsed) = true ->
  exists tr options,
    getOptions parsed = (tr, Ok options) /\
    programID options = programID parsed /\
    output options = (if contains "%d" (output parsed) then output parsed
                      else corrected_output (output parsed)) /\
    categoryID options
    = (if is_some (programID parsed) &&
          (is_some (programSearch parsed) || is_some (categoryID parsed))
       then None else categoryID parsed).
Proof.
  intros Hdir. unfold getOptions. rewrite Hdir. simpl negb. cbv iota.
  destruct (is_some (programID parsed) &&
            (is_some (programSearch parsed) || is_some (categoryID parsed))) eqn:Hsel.
  - destruct (contains "%d" (output parsed)) eqn:Hd;
      unfold bind, ret, emit, lift; simpl; rewrite Hd; simpl;
      do 2 eexists; repeat split; reflexivity.
  - destruct (contains "%d" (output parsed)) eqn:Hd;
      unfold bind, ret, emit, lift; simpl; rewrite Hd; simpl;
      do 2 eexists; repeat split; reflexivity.
Qed.

(** C8. For an existing output directory the option checks return, and the
    output template they return is: the given template when it contains
    [%d]; otherwise the given template with [%d] inserted immediately
    before its last dot (before the extension), or appended when it has no
    dot.  In particular [show.rss] becomes [show%d.rss] and [show_%d.rss]
    stays as it is. *)
Theorem output_template_correction (parsed : Options) :
  path_exists (outputDir parsed) = true ->
  exists tr options,
    getOptions parsed = (tr, Ok options) /\
    (contains "%d" (output parsed) = true -> output options = output parsed) /\
    (contains "%d" (output parsed) = false ->
       (forall stem ext,
           output parsed = stem ^^ "." ^^ ext -> in_str "." ext = false ->
           output options = stem ^^ "%d" ^^ "." ^^ ext) /\
       (in_str "." (output parsed) = false ->
           output options = output parsed ^^ "%d")) /\
    (output parsed = "show.rss" -> output options = "show%d.rss") /\
    (output parsed = "show_%d.rss" -> output options = "show_%d.rss").
Proof.
  intros Hdir.
  destruct (getOptions_returns parsed Hdir) as (tr & options & Hrun & _ & Hout & _).
  exists tr, options. split; [exact Hrun |].
  repeat split.
  - intros Hd. now rewrite Hout, Hd.
  - intros stem ext Hs Hext. rewrite Hout, H, Hs. now apply corrected_output_ext.
  - intros Hnodot. rewrite Hout, H. now apply corrected_output_no_ext.
  - intros Hs. rewrite Hout, Hs. reflexivity.
  - intros Hs. rewrite Hout, Hs. reflexivity.
Qed.

End OptionChecks.

(** ** Output file names *)

Lemma in_str_take (c : ascii) (n : nat) (s : string) :
  in_str c s = false -> in_str c (take n s) = false.
Proof.
  revert n. induction s as [|a s IH]; intros [|n] H; simpl in *; try reflexivity.
  apply orb_false_iff in H. destruct H as [Ha Hs].
  now rewrite Ha, (IH n Hs).
Qed.

Lemma contains_in_str (c : ascii) (sub s : string) :
  contains (String c sub) s = true -> in_str c s = true.
Proof.
  induction s as [|a s IH]; simpl; [discriminate |].
  intros H. apply orb_true_iff in H. destruct H as [H | H].
  - apply andb_true_iff in H. destruct H as [H _]. now rewrite H.
  - rewrite (IH H). apply orb_true_r.
Qed.

Section FileNames.
Context {B : Builtins} {W : World}.

(** Text without [%] is copied. *)
Lemma format_literal (lit rest : string) (args : list pyval) :
  in_str "%" lit = false ->
  format_from Copy (lit ^^ rest) args
  = rmap (String.append lit) (format_from Copy rest args).
Proof.
  induction lit as [|c lit IH]; intros H.
  - simpl. now destruct (format_from Copy rest args).
  - change (in_str "%" (String c lit))
      with (Ascii.eqb "%" c || in_str "%" lit) in H.
    apply orb_false_iff in H. destruct H as [Hc Hl].
    rewrite Ascii.eqb_sym in Hc.
    change ((String c lit) ^^ rest) with (String c (lit ^^ rest)).
    cbn [format_from step]. rewrite Hc, (IH Hl).
    now destruct (format_from Copy rest args).
Qed.

(** A plain [%d] does not take a string. *)
Lemma format_d_str (stem rest s : string) (args : list pyval) :
  in_str "%" stem = false ->
  pyformat (stem ^^ "%d" ^^ rest) (PStr s :: args) = Raise TypeError.
Proof.
  intros H. unfold pyformat. rewrite (format_literal _ _ _ H). reflexivity.
Qed.

Lemma outputFileName_d (options : Options) (programSet : AudiothekProgramSet.t)
    (stem rest : string) :
  in_str "%" stem = false -> output options = stem ^^ "%d" ^^ rest ->
  exists e, outputFileName options programSet = Raise e /\
            (forall n, py_int (AudiothekProgramSet.id programSet) = Ok n -> e = TypeError).
Proof.
  intros Hs Hout. unfold outputFileName. rewrite Hout.
  destruct (py_int (AudiothekProgramSet.id programSet)) as [n|e]; cbn [rbind].
  - rewrite (format_d_str _ _ _ _ Hs). exists TypeError. now split.
  - exists e. split; [reflexivity | discriminate].
Qed.

(** C9 (amended). The file name of a feed is
    [options.output % ("", int(programSet.id))].  (1) For every template
    whose first [%] starts a plain [%d] the formatting raises a TypeError,
    and the feed-writing step of [main] raises without having written
    anything.  (2) Every template without any [%] leaves the option checks
    in that form (such as [show.rss], corrected to [show%d.rss]).  (3) The
    default template [ardaudiothek_%s%d.rss], a string conversion followed
    by a numeric one, yields the file name [ardaudiothek_<id>.rss]. *)
Theorem output_template_formatting :
  (forall (options : Options) (programSet : AudiothekProgramSet.t)
          (rssDir stem rest : string),
      in_str "%" stem = false -> output options = stem ^^ "%d" ^^ rest ->
      (forall n, py_int (AudiothekProgramSet.id programSet) = Ok n ->
                 outputFileName options programSet = Raise TypeError) /\
      fst (writeFeed options rssDir programSet) = [] /\
      exists e, snd (writeFeed options rssDir programSet) = Raise e) /\
  (forall parsed : Options,
      path_exists (outputDir parsed) = true -> in_str "%" (output parsed) = false ->
      exists tr options stem rest,
        getOptions parsed = (tr, Ok options) /\
        output options = stem ^^ "%d" ^^ rest /\ in_str "%" stem = false) /\
  (forall (options : Options) (programSet : AudiothekProgramSet.t) (n : Z),
      output options = "ardaudiothek_%s%d.rss" ->
      py_int (AudiothekProgramSet.id programSet) = Ok n ->
      outputFileName options programSet = Ok ("ardaudiothek_" ^^ dec n ^^ ".rss")).
Proof.
  split; [| split].
  - intros options programSet rssDir stem rest Hs Hout.
    destruct (outputFileName_d options programSet stem rest Hs Hout) as (e & He & Hty).
    split; [| split].
    + intros n Hn. now rewrite He, (Hty n Hn).
    + unfold writeFeed, bind, lift.
      destruct (AudiothekProgramSet.toXML programSet); simpl; [| reflexivity].
      destruct (normalize (AudiothekProgramSet.title programSet)); simpl; [| reflexivity].
      rewrite He. reflexivity.
    + unfold writeFeed, bind, lift.
      destruct (AudiothekProgramSet.toXML programSet) as [x|e1]; simpl; [| now exists e1].
      destruct (normalize (AudiothekProgramSet.title programSet)) as [t|e2]; simpl;
        [| now exists e2].
      rewrite He. now exists e.
  - intros parsed Hdir Hpc.
    destruct (getOptions_returns parsed Hdir) as (tr & options & Hrun & _ & Hout & _).
    assert (Hd : contains "%d" (output parsed) = false).
    { destruct (contains "%d" (output parsed)) eqn:E; [| reflexivity].
      apply contains_in_str in E. congruence. }
    rewrite Hd in Hout. exists tr, options.
    unfold corrected_output in Hout.
    destruct (rfind "." (output parsed) >? -1).
    + exists (take (Z.to_nat (rfind "." (output parsed))) (output parsed)),
             (drop (Z.to_nat (rfind "." (output parsed))) (output parsed)).
      repeat split; [exact Hrun | exact Hout | now apply in_str_take].
    + exists (output parsed), "".
      repeat split; [exact Hrun | | exact Hpc].
      rewrite Hout. reflexivity.
  - intros options programSet n Hout Hn.
    unfold outputFileName. rewrite Hn, Hout. reflexivity.
Qed.

End FileNames.

(** The option checks at the template [show.rss]. *)
Lemma output_template_correction_witness :
  exists tr options,
    @getOptions sample_builtins (constant_world PNone) (options_with_output "show.rss")
    = (tr, Ok options) /\
    output options = "show%d.rss".
Proof.
  destruct (@output_template_correction sample_builtins (constant_world PNone)
              (options_with_output "show.rss") eq_refl)
    as (tr & options & Hrun & _ & _ & Hshow & _).
  exists tr, options. split; [exact Hrun | exact (Hshow eq_refl)].
Defined.

(** Filling [show%d.rss] and the default template for the program set
    with id 7. *)
Lemma output_template_formatting_witness :
  @outputFileName sample_builtins (options_with_output "show%d.rss")
     (sample_programSet "7" "Show") = Raise TypeError /\
  @outputFileName sample_builtins default_options (sample_programSet "7" "Show")
  = Ok "ardaudiothek_7.rss".
Proof.
  destruct (@output_template_formatting sample_builtins (constant_world PNone))
    as [H1 [_ H3]].
  split.
  - destruct (H1 (options_with_output "show%d.rss") (sample_programSet "7" "Show")
                 "rss" "show" ".rss" eq_refl eq_refl) as [H _].
    exact (H 7 eq_refl).
  - exact (H3 default_options (sample_programSet "7" "Show") 7 eq_refl eq_refl).
Defined.

(** A template that contains [%d] and not [%s] and is filled without an
    error: its first conversion is a string conversion with a width.  And a
    template that the option check corrects and that is filled without an
    error afterwards: [feed_%s.rss], corrected to [feed_%s%d.rss]. *)
Lemma output_template_counterexample :
  (contains "%d" "%5s%d.rss" = true /\
   contains "%s" "%5s%d.rss" = false /\
   @outputFileName sample_builtins (options_with_output "%5s%d.rss")
      (sample_programSet "7" "Show") = Ok "     7.rss") /\
  (contains "%d" "feed_%s.rss" = false /\
   corrected_output "feed_%s.rss" = "feed_%s%d.rss" /\
   @outputFileName sample_builtins (options_with_output "feed_%s%d.rss")
      (sample_programSet "7" "Show") = Ok "feed_7.rss").
Proof. repeat split. Qed.

(** ** Items and their validity *)

Lemma mapR_Forall2 {A C} (f : A -> result C) (l : list A) (r : list C) :
  mapR f l = Ok r -> Forall2 (fun a c => f a = Ok c) l r.
Proof.
  revert r. induction l as [|a l IH]; simpl; intros r H.
  - injection H as <-. constructor.
  - destruct (f a) as [c|e] eqn:Ha; [| discriminate]. simpl in H.
    destruct (mapR f l) as [r'|e]; [| discriminate]. simpl in H.
    injection H as <-. constructor; [exact Ha | now apply IH].
Qed.

Lemma Forall2_same_length {A C} (R : A -> C -> Prop) (l : list A) (r : list C) :
  Forall2 R l r -> List.length l = List.length r.
Proof. induction 1; simpl; congruence. Qed.

(** The constructor stores the download URL as given and derives [valid]
    from it. *)
Lemma item_init_valid (a_id a_title a_duration a_date a_url a_sharing a_description
                       a_synopsis a_image : pyval) (item : AudiothekItem.t) :
  AudiothekItem.init a_id a_title a_duration a_date a_url a_sharing a_description
                     a_synopsis a_image = Ok item ->
  AudiothekItem.downloadUrl item = a_url /\
  AudiothekItem.valid item = negb (is_none a_url).
Proof.
  unfold AudiothekItem.init. intros H.
  destruct (AudiothekItem.or_empty a_sharing); [| discriminate]. cbn [rbind] in H.
  destruct (AudiothekItem.or_empty a_description); [| discriminate]. cbn [rbind] in H.
  destruct (AudiothekItem.or_empty a_synopsis); [| discriminate]. cbn [rbind] in H.
  destruct (py_len a_image) as [n|]; [| discriminate]. cbn [rbind] in H.
  destruct (if n >? 0 then py_replace a_image "{width}" "448" else Ok PNone);
    [| discriminate].
  cbn [rbind] in H. injection H as <-. split; reflexivity.
Qed.

Lemma valid_iff_url_intro (item : AudiothekItem.t) :
  AudiothekItem.valid item = negb (is_none (AudiothekItem.downloadUrl item)) ->
  valid_iff_url item.
Proof.
  unfold valid_iff_url. intros ->.
  destruct (AudiothekItem.downloadUrl item); simpl; split; congruence.
Qed.

Section Validity.
Context {B : Builtins} {W : World}.

Lemma episode_valid (node : pyval) (item : AudiothekItem.t) :
  AudiothekProgramSet.episode node = Ok item -> valid_iff_url item.
Proof.
  unfold AudiothekProgramSet.episode. intros H.
  repeat match type of H with
         | rbind ?r _ = _ => destruct r; [cbn [rbind] in H | discriminate]
         end.
  apply item_init_valid in H. destruct H as [Hu Hv].
  apply valid_iff_url_intro. now rewrite Hu.
Qed.

Lemma item_toXML_tag (item : AudiothekItem.t) (e : element) :
  AudiothekItem.toXML item = Ok e -> tag_of e = "item".
Proof.
  unfold AudiothekItem.toXML. intros H.
  repeat match type of H with
         | rbind ?r _ = _ => destruct r; [cbn [rbind] in H | discriminate]
         | (if ?c then _ else _) = _ => destruct c
         end;
    injection H as <-; reflexivity.
Qed.

Lemma showImage_not_items (self : AudiothekProgramSet.t) (l : list element) :
  AudiothekProgramSet.showImage self = Ok l -> filter is_item l = [].
Proof.
  unfold AudiothekProgramSet.showImage. intros H.
  repeat match type of H with
         | rbind ?r _ = _ => destruct r; [cbn [rbind] in H | discriminate]
         | (if ?c then _ else _) = _ => destruct c
         end;
    injection H as <-; reflexivity.
Qed.

Lemma filter_all_items (l : list element) :
  Forall (fun e => tag_of e = "item") l -> filter is_item l = l.
Proof.
  induction 1 as [|e l He _ IH]; simpl; [reflexivity |].
  unfold is_item at 1. rewrite He. simpl. now rewrite IH.
Qed.

(** The item elements of a channel are the elements of the valid items, in
    the order of the item list. *)
Lemma channel_items (self : AudiothekProgramSet.t) (channel : element) :
  AudiothekProgramSet.toXML self = Ok channel ->
  exists its,
    AudiothekProgramSet.items self = Some its /\
    Forall2 (fun item e => AudiothekItem.toXML item = Ok e)
            (filter AudiothekItem.valid its)
            (filter is_item (children_of channel)).
Proof.
  unfold AudiothekProgramSet.toXML. intros H.
  destruct (py_html_escape (AudiothekProgramSet.title self)); [| discriminate].
  cbn [rbind] in H.
  destruct (AudiothekProgramSet.showImage self) as [img|] eqn:Himg; [| discriminate].
  cbn [rbind] in H.
  destruct (py_html_escape (AudiothekProgramSet.synopsis self)); [| discriminate].
  cbn [rbind] in H.
  destruct (AudiothekProgramSet.items self) as [its|]; [| discriminate].
  cbn [rbind] in H.
  destruct (mapR AudiothekItem.toXML (filter AudiothekItem.valid its)) as [nodes|] eqn:Hn;
    [| discriminate].
  cbn [rbind] in H. injection H as <-.
  exists its. split; [reflexivity |].
  apply mapR_Forall2 in Hn.
  assert (Hall : Forall (fun e => tag_of e = "item") nodes).
  { clear - Hn. induction Hn as [|item e l r He _ IH]; constructor;
      [now apply item_toXML_tag with item | exact IH]. }
  simpl. rewrite filter_app, (showImage_not_items _ _ Himg). simpl.
  now rewrite (filter_all_items _ Hall).
Qed.

End Validity.

(** ** What [queryEpisodes] does *)

Section QueryEpisodes.
Context {B : Builtins} {W : World}.

Lemma executeQuery_run (query : string) :
  executeQuery query
  = ([EPost ("{" ^^ query ^^ "}")], Ok (server ("{" ^^ query ^^ "}"))).
Proof. reflexivity. Qed.

(** A run of [queryEpisodes] that returns has posted exactly the episode
    query and populated the program set from the answer. *)
Lemma queryEpisodes_returns (self self' : AudiothekProgramSet.t) (options : Options)
    (tr : list event) :
  AudiothekProgramSet.queryEpisodes self options = (tr, Ok self') ->
  exists query d data,
    AudiothekProgramSet.episodes_query self options = Ok query /\
    tr = [EPost ("{" ^^ query ^^ "}")] /\
    getitem (server ("{" ^^ query ^^ "}")) "data" = Ok d /\
    getitem d "programSet" = Ok data /\
    AudiothekProgramSet.populate self data = Ok self'.
Proof.
  unfold AudiothekProgramSet.queryEpisodes. intros H.
  destruct (AudiothekProgramSet.episodes_query self options) as [query|e] eqn:Hq;
    [| discriminate].
  unfold bind at 1 in H. cbn [lift fst snd] in H.
  rewrite executeQuery_run in H. unfold bind, lift in H. cbn [fst snd app] in H.
  destruct (getitem (server ("{" ^^ query ^^ "}")) "data") as [d|e] eqn:Hd;
    [cbn [rbind] in H | discriminate].
  destruct (getitem d "programSet") as [data|e] eqn:Hdata;
    [cbn [rbind] in H | discriminate].
  destruct (AudiothekProgramSet.populate self data) as [p|e] eqn:Hp; [| discriminate].
  injection H as <- <-. exists query, d, data. repeat split; assumption.
Qed.

(** Whatever the run, [queryEpisodes] posts at most its one query. *)
Lemma queryEpisodes_posts (self : AudiothekProgramSet.t) (options : Options) :
  (exists query,
      AudiothekProgramSet.episodes_query self options = Ok query /\
      fst (AudiothekProgramSet.queryEpisodes self options) = [EPost ("{" ^^ query ^^ "}")]) \/
  (fst (AudiothekProgramSet.queryEpisodes self options) = [] /\
   exists e, snd (AudiothekProgramSet.queryEpisodes self options) = Raise e).
Proof.
  unfold AudiothekProgramSet.queryEpisodes.
  destruct (AudiothekProgramSet.episodes_query self options) as [query|e] eqn:Hq.
  - left. exists query. split; [reflexivity |].
    unfold bind at 1. cbn [lift fst snd].
    rewrite executeQuery_run. unfold bind, lift. cbn [fst snd app].
    reflexivity.
  - right. split; [reflexivity | now exists e].
Qed.

(** Every node of the answer becomes an item of the list, valid or not;
    the image URL and the path are stored as they come. *)
Lemma populate_returns (self self' : AudiothekProgramSet.t) (data : pyval)
    (old : list AudiothekItem.t) :
  AudiothekProgramSet.items self = Some old ->
  AudiothekProgramSet.populate self data = Ok self' ->
  exists nodes new image,
    AudiothekProgramSet.episode_nodes data = Ok nodes /\
    List.length new = List.length nodes /\
    Forall valid_iff_url new /\
    AudiothekProgramSet.items self' = Some (old ++ new) /\
    getitem data "image" = Ok image /\
    getitem image "url1X1" = Ok (AudiothekProgramSet.imageUrl self').
Proof.
  unfold AudiothekProgramSet.populate, AudiothekProgramSet.addItems.
  intros Hold H. rewrite Hold in H.
  destruct (AudiothekProgramSet.episode_nodes data) as [nodes|]; [| discriminate].
  cbn [rbind] in H.
  destruct (mapR AudiothekProgramSet.episode nodes) as [episodes|] eqn:He;
    [| discriminate].
  cbn [rbind] in H.
  destruct (getitem data "image") as [image|]; [| discriminate]. cbn [rbind] in H.
  destruct (getitem image "url1X1") as [url|] eqn:Hu; [| discriminate].
  cbn [rbind] in H.
  destruct (getitem data "path") as [path|]; [| discriminate]. cbn [rbind] in H.
  injection H as <-.
  exists nodes,
         (map (AudiothekItem.set_programSet (Some (AudiothekProgramSet.title self)))
              episodes),
         image.
  apply mapR_Forall2 in He.
  repeat split; try reflexivity.
  - rewrite length_map. symmetry. now apply Forall2_same_length in He.
  - clear - He. induction He as [|node e l r Hn _ IH]; simpl; constructor.
    + apply episode_valid in Hn. exact Hn.
    + exact IH.
  - exact Hu.
Qed.

End QueryEpisodes.

Section ValidityFilter.
Context {B : Builtins} {W : World}.

(** C5. (1) An item built by the constructor keeps the download URL it is
    given, and its [valid] flag holds exactly when that URL is not [None].
    (2) The episode query adds one item to the program set's list for every
    node of the answer, with or without download URL, each with [valid]
    equivalent to a non-null download URL.  (3) The [item] elements of the
    serialized channel are the elements of the valid items of the list, in
    order: an item without download URL has no element in the feed, though
    it is in the list. *)
Theorem validity_filter :
  (forall (a_id a_title a_duration a_date a_url a_sharing a_description a_synopsis
           a_image : pyval) (item : AudiothekItem.t),
      AudiothekItem.init a_id a_title a_duration a_date a_url a_sharing a_description
                         a_synopsis a_image = Ok item ->
      AudiothekItem.downloadUrl item = a_url /\
      (AudiothekItem.valid item = true <-> a_url <> PNone)) /\
  (forall (self self' : AudiothekProgramSet.t) (options : Options) (tr : list event)
          (old : list AudiothekItem.t),
      AudiothekProgramSet.items self = Some old ->
      AudiothekProgramSet.queryEpisodes self options = (tr, Ok self') ->
      exists query d data nodes new,
        tr = [EPost ("{" ^^ query ^^ "}")] /\
        getitem (server ("{" ^^ query ^^ "}")) "data" = Ok d /\
        getitem d "programSet" = Ok data /\
        AudiothekProgramSet.episode_nodes data = Ok nodes /\
        AudiothekProgramSet.items self' = Some (old ++ new) /\
        List.length new = List.length nodes /\
        Forall (fun item => AudiothekItem.valid item = true <->
                            AudiothekItem.downloadUrl item <> PNone) new) /\
  (forall (self : AudiothekProgramSet.t) (channel : element),
      AudiothekProgramSet.toXML self = Ok channel ->
      exists its,
        AudiothekProgramSet.items self = Some its /\
        Forall2 (fun item e => AudiothekItem.toXML item = Ok e)
                (filter AudiothekItem.valid its)
                (filter is_item (children_of channel))).
Proof.
  split; [| split].
  - intros a_id a_title a_duration a_date a_url a_sharing a_description a_synopsis
           a_image item H.
    apply item_init_valid in H. destruct H as [Hu Hv]. split; [exact Hu |].
    rewrite Hv. destruct a_url; simpl; split; congruence.
  - intros self self' options tr old Hold H.
    apply queryEpisodes_returns in H.
    destruct H as (query & d & data & _ & Htr & Hd & Hdata & Hp).
    destruct (populate_returns self self' data old Hold Hp)
      as (nodes & new & image & Hn & Hlen & Hvalid & Hitems & _).
    exists query, d, data, nodes, new. repeat split; assumption.
  - intros self channel H. now apply channel_items.
Qed.

End ValidityFilter.

(** The populated sample: two items in the list, one [item] element in
    the channel. *)
Lemma validity_filter_witness :
  exists channel its,
    @AudiothekProgramSet.toXML sample_builtins populated_sample = Ok channel /\
    AudiothekProgramSet.items populated_sample = Some its /\
    List.length its = 2%nat /\
    List.length (filter is_item (children_of channel)) = 1%nat.
Proof.
  destruct (@validity_filter sample_builtins (constant_world two_episodes))
    as (_ & _ & H3).
  destruct (@AudiothekProgramSet.toXML sample_builtins populated_sample)
    as [channel|e] eqn:E; [| vm_compute in E; discriminate].
  destruct (H3 populated_sample channel E) as (its & Hits & HF).
  exists channel, its. split; [reflexivity | split; [exact Hits |]].
  apply Forall2_same_length in HF. rewrite <- HF.
  vm_compute in Hits. injection Hits as <-. split; reflexivity.
Defined.

(** ** Escaping *)

(** The serializer's escaping of character data is undone by the parser. *)
Lemma parse_escape_cdata (s : string) : parse_cdata (escape_cdata s) = Some s.
Proof.
  unfold parse_cdata. induction s as [|c s IH]; [reflexivity |].
  cbn [escape_cdata].
  destruct (Ascii.eqb c "&") eqn:Ea.
  { apply Ascii.eqb_eq in Ea. subst c. simpl. now rewrite IH. }
  destruct (Ascii.eqb c "<") eqn:El.
  { apply Ascii.eqb_eq in El. subst c. simpl. now rewrite IH. }
  destruct (Ascii.eqb c ">") eqn:Eg.
  { apply Ascii.eqb_eq in Eg. subst c. simpl. now rewrite IH. }
  cbn [parse_from]. now rewrite Ea, El, IH.
Qed.

Lemma read_back_str (s : string) : read_back (PStr s) = Some s.
Proof. unfold read_back. simpl. apply parse_escape_cdata. Qed.

Lemma html_escape_length (s : string) :
  (String.length s <= String.length (html_escape s))%nat /\
  (has_special s = true -> (String.length s < String.length (html_escape s))%nat).
Proof.
  induction s as [|c s [IH1 IH2]]; [split; [reflexivity | discriminate] |].
  cbn [html_escape has_special special in_str].
  destruct (Ascii.eqb c "&") eqn:Ea; [simpl; split; intros; lia |].
  destruct (Ascii.eqb c "<") eqn:El; [simpl; split; intros; lia |].
  destruct (Ascii.eqb c ">") eqn:Eg; [simpl; split; intros; lia |].
  destruct (Ascii.eqb c dquote) eqn:Eq; [simpl; split; intros; lia |].
  destruct (Ascii.eqb c "'") eqn:Es; [simpl; split; intros; lia |].
  assert (Hsp : special c = false).
  { unfold special, in_str. now rewrite Ea, El, Eg, Es, Eq. }
  rewrite Hsp. cbn [orb String.length]. split; [lia |].
  intros H. specialize (IH2 H). lia.
Qed.

(** [html.escape] changes every string that contains one of its five
    characters. *)
Lemma html_escape_changes (s : string) :
  has_special s = true -> html_escape s <> s.
Proof.
  intros H E. apply html_escape_length in H. rewrite E in H. lia.
Qed.

Section DoubleEscaping.
Context {B : Builtins}.

(** The text a parser reads back from the channel's title element is the
    title after [html.escape]: not the title, when the title contains one
    of the five characters. *)
Lemma channel_title_read_back (self : AudiothekProgramSet.t) (s : string)
    (channel : element) :
  AudiothekProgramSet.title self = PStr s ->
  AudiothekProgramSet.toXML self = Ok channel ->
  exists el rest,
    children_of channel = el :: rest /\ tag_of el = "title" /\
    read_back (text_of el) = Some (html_escape s) /\
    (has_special s = true -> read_back (text_of el) <> Some s).
Proof.
  unfold AudiothekProgramSet.toXML. intros Ht H. rewrite Ht in H.
  cbn [py_html_escape rbind] in H.
  repeat match type of H with
         | rbind ?r _ = _ => destruct r; [cbn [rbind] in H | discriminate]
         end.
  injection H as <-. do 2 eexists. split; [reflexivity |].
  split; [reflexivity |]. cbn [text_of]. rewrite read_back_str.
  split; [reflexivity |].
  intros Hs E. injection E as E. now apply (html_escape_changes s Hs).
Qed.

End DoubleEscaping.

(** C2 (at the failing input). For the program set titled [Tom & Jerry]
    with the episode [Q&A <live>]: the title elements of the channel and of
    the item hold the titles after [html.escape]; the written document
    escapes them once more; and what a parser reads back from them is
    [Tom &amp; Jerry] and [Q&amp;A &lt;live&gt;], not the titles. *)
Theorem title_round_trip_fails :
  exists channel item doc,
    @AudiothekProgramSet.toXML sample_builtins markup_sample = Ok channel /\
    tostring (Element "rss" [] PNone [channel]) = Ok doc /\
    contains "<title>Tom &amp;amp; Jerry</title>" doc = true /\
    contains "<title>Q&amp;amp;A &amp;lt;live&amp;gt;</title>" doc = true /\
    map (fun e => read_back (text_of e)) (children_tagged "title" channel)
    = [Some "Tom &amp; Jerry"] /\
    children_tagged "item" channel = [item] /\
    map (fun e => read_back (text_of e)) (children_tagged "title" item)
    = [Some "Q&amp;A &lt;live&gt;"] /\
    AudiothekProgramSet.title markup_sample = PStr "Tom & Jerry" /\
    option_map (map AudiothekItem.title) (AudiothekProgramSet.items markup_sample)
    = Some [PStr "Q&A <live>"].
Proof.
  destruct (@AudiothekProgramSet.toXML sample_builtins markup_sample)
    as [channel|e] eqn:E; [| vm_compute in E; discriminate].
  vm_compute in E. injection E as <-.
  do 3 eexists. split; [reflexivity |].
  split; [vm_compute; reflexivity |].
  repeat split; vm_compute; reflexivity.
Qed.

(** ** The queries *)

Section Queries.
Context {B : Builtins} {W : World}.

Lemma quoted_list_ok (xs : list string) : quoted_list xs = Ok (quoted xs).
Proof.
  unfold quoted_list, quoted.
  assert (H : mapR (fun x => pyformat (dq ^^ "%s" ^^ dq) [PStr x]) xs
              = Ok (map (fun x => dq ^^ x ^^ dq) xs)).
  { induction xs as [|x xs IH]; [reflexivity |].
    cbn [mapR map]. rewrite IH. reflexivity. }
  now rewrite H.
Qed.

Lemma categories_query_ids (options : Options) (ids : list Z) :
  categoryID options = Some ids ->
  categories_query options
  = Ok ("editorialCategoriesByIDs(ids:[" ^^ quoted (map dec ids)
        ^^ "]){edges{node{title, id}}}").
Proof.
  intros H. unfold categories_query. rewrite H, quoted_list_ok. reflexivity.
Qed.

Lemma programSetsByIds_query_ids (options : Options) (ids : list Z) :
  programID options = Some ids ->
  programSetsByIds_query options
  = Ok ("programSetsByIds(ids:[" ^^ quoted (map dec ids)
        ^^ "]){nodes{title, id, sharingUrl, description, synopsis}}").
Proof.
  intros H. unfold programSetsByIds_query. rewrite H, quoted_list_ok. reflexivity.
Qed.

(** C3 (the code at its failing inputs). With at least one category ID,
    [getProgramSets] raises a TypeError while it builds its filter (the
    format string of the category clause has no conversion for its
    argument): no query is built or sent, whatever the options. *)
Theorem getProgramSets_with_categories (fuel : nat) (options : Options)
    (categoryID : pyval) (others : list pyval) :
  programSets_filter options (categoryID :: others) = Raise TypeError /\
  getProgramSets fuel options (categoryID :: others) = ([], Raise TypeError).
Proof.
  assert (H : programSets_filter options (categoryID :: others) = Raise TypeError).
  { unfold programSets_filter.
    change (Z.of_nat (List.length (categoryID :: others)) >? 0) with true.
    cbv iota. rewrite quoted_list_ok. reflexivity. }
  split; [exact H |].
  unfold getProgramSets. rewrite H. reflexivity.
Qed.

(** C10. When a category-ID list is given, [getCategories] posts the
    query for the field [editorialCategoriesByIDs]; if the [data] of the
    answer has that field (and, matching the query, only that one), the
    extraction raises the KeyError of the key [editorialCategories], and
    no category list is returned. *)
Theorem getCategories_by_id_raises (options : Options) (ids : list Z)
    (answer : pyval) :
  categoryID options = Some ids ->
  getitem (server (posted ("editorialCategoriesByIDs(ids:[" ^^ quoted (map dec ids)
                           ^^ "]){edges{node{title, id}}}"))) "data"
  = Ok (PDict [("editorialCategoriesByIDs", answer)]) ->
  getCategories options
  = ([EPost (posted ("editorialCategoriesByIDs(ids:[" ^^ quoted (map dec ids)
                     ^^ "]){edges{node{title, id}}}"))],
     Raise (KeyError "editorialCategories")).
Proof.
  intros Hids Hdata. unfold getCategories. rewrite Hids.
  rewrite (categories_query_ids _ _ Hids).
  unfold bind at 1. cbn [lift fst snd].
  rewrite executeQuery_run. unfold bind, lift. cbn [fst snd app].
  unfold posted in Hdata. rewrite Hdata. reflexivity.
Qed.

(** C6. When a program-ID list is given, [queryContent] is the fetch by
    IDs: whatever the category and search options and whatever the API
    answers, exactly one query is posted, the [programSetsByIds] query of
    the listed IDs, and none for categories or for pages of program sets.
    The option checks keep the program-ID list and, when a category-ID
    list or a program search term came with it, drop the category-ID
    list. *)
Theorem program_ids_take_precedence (fuel : nat) (options : Options) (ids : list Z) :
  programID options = Some ids ->
  queryContent fuel options = getProgramSetsByID options /\
  fst (queryContent fuel options)
  = [EPost (posted ("programSetsByIds(ids:[" ^^ quoted (map dec ids)
                    ^^ "]){nodes{title, id, sharingUrl, description, synopsis}}"))] /\
  (path_exists (outputDir options) = true ->
   exists tr options',
     getOptions options = (tr, Ok options') /\
     programID options' = Some ids /\
     (is_some (programSearch options) || is_some (categoryID options) = true ->
      categoryID options' = None)).
Proof.
  intros Hids. split; [| split].
  - unfold queryContent. now rewrite Hids.
  - unfold queryContent. rewrite Hids. unfold getProgramSetsByID.
    rewrite (programSetsByIds_query_ids _ _ Hids).
    unfold bind at 1. cbn [lift fst snd].
    rewrite executeQuery_run. unfold bind, lift. cbn [fst snd app].
    reflexivity.
  - intros Hdir.
    destruct (getOptions_returns options Hdir) as (tr & options' & Hrun & Hp & _ & Hc).
    exists tr, options'. split; [exact Hrun |].
    split; [now rewrite Hp |].
    intros Hsel. rewrite Hc, Hids, Hsel. reflexivity.
Qed.

End Queries.

(** Category IDs 42 and 7, answered in the shape of the query. *)
Lemma getCategories_by_id_raises_witness :
  snd (@getCategories sample_builtins (constant_world categories_by_id_answer)
         (sample_options (Some [42; 7]) None None None 100))
  = Raise (KeyError "editorialCategories").
Proof.
  rewrite (@getCategories_by_id_raises sample_builtins
             (constant_world categories_by_id_answer)
             (sample_options (Some [42; 7]) None None None 100) [42; 7]
             (PDict [("edges",
                      PList [PDict [("node", PDict [("title", PStr "Krimi");
                                                    ("id", PStr "42")])]])])
             eq_refl eq_refl).
  reflexivity.
Defined.

(** Program IDs 7 and 9 given together with a category ID and a search
    term. *)
Lemma program_ids_take_precedence_witness :
  List.length
    (fst (@queryContent sample_builtins (constant_world programSets_by_id_answer) 0
            (sample_options (Some [42]) (Some [7; 9]) (Some "krimi") None 100)))
  = 1%nat /\
  exists tr options',
    @getOptions sample_builtins (constant_world programSets_by_id_answer)
      (sample_options (Some [42]) (Some [7; 9]) (Some "krimi") None 100)
    = (tr, Ok options') /\
    programID options' = Some [7; 9] /\ categoryID options' = None.
Proof.
  destruct (@program_ids_take_precedence sample_builtins
              (constant_world programSets_by_id_answer) 0
              (sample_options (Some [42]) (Some [7; 9]) (Some "krimi") None 100)
              [7; 9] eq_refl) as (_ & Hposts & Hchecks).
  split.
  - rewrite Hposts. reflexivity.
  - destruct (Hchecks eq_refl) as (tr & options' & Hrun & Hp & Hc).
    exists tr, options'. split; [exact Hrun | split; [exact Hp | exact (Hc eq_refl)]].
Defined.

(** C4 (at the failing input). A program set built from a listing record
    has no image URL ([None]); when the answer to its episode query gives
    the empty string as 1x1 image URL, the program set holds the empty
    string as [imageUrl] afterwards, and its channel gets an [image] block
    with an empty [url]. *)
Theorem imageUrl_empty_after_queryEpisodes :
  exists self self' channel,
    @programSet_of (sample_listing "7" "Show") = Ok self /\
    AudiothekProgramSet.imageUrl self = PNone /\
    snd (@AudiothekProgramSet.queryEpisodes sample_builtins
           (constant_world episodes_without_image) self default_options) = Ok self' /\
    AudiothekProgramSet.imageUrl self' = PStr "" /\
    @AudiothekProgramSet.toXML sample_builtins self' = Ok channel /\
    map children_of (children_tagged "image" channel)
    = [[ Element "url" [] (PStr "") [];
         Element "title" [] (PStr "Show") [];
         Element "link" [] (PStr "https://www.ardaudiothek.de/sendung/show/7/") [] ]].
Proof.
  do 3 eexists.
  split; [vm_compute; reflexivity |].
  split; [reflexivity |].
  split; [vm_compute; reflexivity |].
  split; [reflexivity |].
  split; [vm_compute; reflexivity |].
  vm_compute. reflexivity.
Qed.

(** ** Running computations *)

Lemma bind_lift_Ok {A C} (a : A) (f : A -> M C) : bind (lift (Ok a)) f = f a.
Proof. unfold bind, lift. simpl. now destruct (f a). Qed.

Lemma bind_returns {A C} (m : M A) (f : A -> M C) (tr tr' : list event) (a : A)
    (r : result C) :
  m = (tr, Ok a) -> f a = (tr', r) -> bind m f = (tr ++ tr', r).
Proof. intros -> H. unfold bind. simpl. now rewrite H. Qed.

(** ** Pagination *)

Section Pagination.
Context {B : Builtins} {W : World}.

Lemma programSets_filter_nil (options : Options) :
  exists filter, programSets_filter options [] = Ok filter.
Proof.
  unfold programSets_filter. cbn [List.length Z.of_nat Z.gtb Z.compare rbind].
  destruct (programSearch options) as [term|]; eexists; reflexivity.
Qed.

Lemma page_query_ok (options : Options) (filter : string) (offset : Z) :
  exists q, page_query options filter offset = Ok q.
Proof. eexists. reflexivity. Qed.

(** One turn of the loop of [getProgramSets] on an answer that decodes. *)
Lemma fetch_page_run (options : Options) (filter q : string) (offset : Z)
    (data totalCount totalCount' : pyval) (page : list AudiothekProgramSet.t) :
  page_query options filter offset = Ok q ->
  getitem (server (posted q)) "data" = Ok data ->
  page_programSets data = Ok page ->
  (py_lt totalCount (PInt 0) = Ok true /\ page_total data = Ok totalCount') \/
  (py_lt totalCount (PInt 0) = Ok false /\ totalCount' = totalCount) ->
  fetch_page options filter totalCount offset
  = ([EPost (posted q)], Ok (totalCount', page)).
Proof.
  intros Hq Hdata Hpage Htot.
  unfold fetch_page. rewrite Hq, bind_lift_Ok, executeQuery_run.
  unfold bind at 1. cbn [fst snd]. fold (posted q).
  rewrite Hdata, bind_lift_Ok.
  destruct Htot as [[Hlt Ht] | [Hlt ->]]; rewrite Hlt, bind_lift_Ok.
  - now rewrite Ht, Hpage.
  - now rewrite Hpage.
Qed.

Lemma known_total (total : Z) : 0 <= total -> py_lt (PInt total) (PInt 0) = Ok false.
Proof. intros H. unfold py_lt. simpl. f_equal. apply Z.ltb_ge. lia. Qed.

(** The loop once the total count is known, from the page [k] on: [m]
    more pages are requested when the condition holds at the next [m]
    offsets and fails after. *)
Lemma loop_requests (options : Options) (filter : string) (total : Z)
    (page : nat -> list AudiothekProgramSet.t) :
  pages_are options filter page -> 0 <= total ->
  forall (m k : nat) (acc : list AudiothekProgramSet.t) (fuel : nat),
    (m < fuel)%nat ->
    (forall j : nat, (j < m)%nat ->
        Z.of_nat (k + j) * pagination options + pagination options <= total) ->
    total < Z.of_nat (k + m) * pagination options + pagination options ->
    exists tr,
      getProgramSets_loop fuel options filter (PInt total)
                          (Z.of_nat k * pagination options) acc
      = (tr, Ok (acc ++ concat (map page (seq k m)))) /\
      Forall2 (fun j ev => page_request options filter
                             (Z.of_nat j * pagination options) ev)
              (seq k m) tr.
Proof.
  intros Hpages Htot.
  induction m as [|m IH]; intros k acc fuel Hfuel Hin Hout;
    (destruct fuel as [|fuel]; [lia |]); cbn [getProgramSets_loop].
  - exists []. split; [| constructor].
    unfold another_page. rewrite (known_total _ Htot). cbn [rbind].
    unfold py_le. cbn [as_num].
    replace (Z.of_nat k * pagination options + pagination options <=? total)
      with false by (symmetry; apply Z.leb_gt; rewrite Nat.add_0_r in Hout; lia).
    rewrite bind_lift_Ok. cbn [seq map concat]. now rewrite app_nil_r.
  - unfold another_page. rewrite (known_total _ Htot). cbn [rbind].
    unfold py_le. cbn [as_num].
    replace (Z.of_nat k * pagination options + pagination options <=? total)
      with true
      by (symmetry; apply Z.leb_le; specialize (Hin O ltac:(lia));
          rewrite Nat.add_0_r in Hin; lia).
    rewrite bind_lift_Ok.
    destruct (Hpages k) as (q & data & Hq & Hdata & Hpage).
    rewrite (fetch_page_run options filter q _ data (PInt total) (PInt total) (page k)
               Hq Hdata Hpage (or_intror (conj (known_total _ Htot) eq_refl))).
    unfold bind at 1. cbn [fst snd].
    replace (Z.of_nat k * pagination options + pagination options)
      with (Z.of_nat (S k) * pagination options) by lia.
    destruct (IH (S k) (acc ++ page k) fuel) as (tr & Hloop & Htr).
    + lia.
    + intros j Hj. specialize (Hin (S j) ltac:(lia)).
      replace (S k + j)%nat with (k + S j)%nat by lia. exact Hin.
    + replace (S k + m)%nat with (k + S m)%nat by lia. exact Hout.
    + rewrite Hloop. cbn [fst snd]. exists (EPost (posted q) :: tr). split.
      * cbn [seq map concat app]. now rewrite <- app_assoc.
      * cbn [seq]. constructor; [now exists q | exact Htr].
Qed.

End Pagination.

Lemma ceil_div_multiple (total p : Z) :
  0 < p -> total mod p = 0 -> ceil_div total p = total / p.
Proof.
  intros Hp Hmod. unfold ceil_div.
  pose proof (Z.div_mod total p ltac:(lia)) as Hdm. rewrite Hmod in Hdm.
  symmetry. apply (Z.div_unique _ _ _ (p - 1)); lia.
Qed.

Lemma ceil_div_floor (total p : Z) : 0 < p -> total / p <= ceil_div total p.
Proof. intros Hp. unfold ceil_div. apply Z.div_le_mono; lia. Qed.

Section Paginator.
Context {B : Builtins} {W : World}.

(** C1 (amended). Let the category list be empty, the page size [p] be
    positive, the page queries at the offsets [0, p, 2p, ...] be answered
    with records that decode to the pages [page 0, page 1, ...], and the
    answer to the first page give the total count [total >= 0].  Then
    [getProgramSets] returns (for every step bound above the number of
    pages) after requesting [n] pages, at the offsets
    [0, p, 2p, ..., (n-1)p], each once and in this order, and its result
    holds the program sets of these pages in this order, where: the first
    page is always requested ([n >= 1]), and it is the only one when
    [total] is 0; when [p] divides a positive [total], [n] is
    [ceil(total / p)]; for every [total], [n] is at most
    [max 1 (ceil(total / p))] and every offset after the first is below
    [total]. *)
Theorem pagination_requests (options : Options) (total : Z)
    (page : nat -> list AudiothekProgramSet.t) :
  0 < pagination options -> 0 <= total ->
  (forall filter, programSets_filter options [] = Ok filter ->
                  pages_are options filter page) ->
  (forall filter q data,
      programSets_filter options [] = Ok filter ->
      page_query options filter 0 = Ok q ->
      getitem (server (posted q)) "data" = Ok data ->
      page_total data = Ok (PInt total)) ->
  exists (n : nat) (filter : string),
    programSets_filter options [] = Ok filter /\
    (1 <= n)%nat /\
    (total = 0 -> n = 1%nat) /\
    (0 < total -> total mod pagination options = 0 ->
        Z.of_nat n = ceil_div total (pagination options)) /\
    Z.of_nat n <= Z.max 1 (ceil_div total (pagination options)) /\
    (forall k : nat, (1 <= k < n)%nat -> Z.of_nat k * pagination options < total) /\
    forall fuel : nat, (n < fuel)%nat ->
      exists tr,
        getProgramSets fuel options [] = (tr, Ok (concat (map page (seq 0 n)))) /\
        Forall2 (fun k ev => page_request options filter
                               (Z.of_nat k * pagination options) ev)
                (seq 0 n) tr.
Proof.
  intros Hp Htot Hpages Hfirst.
  set (p := pagination options) in *.
  destruct (programSets_filter_nil options) as [filter Hfilter].
  specialize (Hpages filter Hfilter).
  pose proof (Z.div_mod total p ltac:(lia)) as Hdm.
  pose proof (Z.mod_pos_bound total p Hp) as Hr.
  pose proof (ceil_div_floor total p Hp) as Hceil.
  assert (Hq : 0 <= total / p) by (apply Z.div_pos; lia).
  set (m := Z.to_nat (total / p - 1)).
  assert (Hm : Z.of_nat m = Z.max 0 (total / p - 1)) by (unfold m; lia).
  exists (S m), filter. split; [exact Hfilter |].
  split; [lia |].
  split. { intros H0. subst total. rewrite Z.div_0_l in Hm by lia. lia. }
  split. { intros Hpos Hmod. rewrite (ceil_div_multiple total p Hp Hmod).
           rewrite Hmod in Hdm. nia. }
  split. { lia. }
  split. { intros k Hk. nia. }
  intros fuel Hfuel.
  destruct fuel as [|fuel]; [lia |].
  destruct (Hpages O) as (q & data & Hquery & Hdata & Hpage).
  change (Z.of_nat 0 * pagination options) with 0 in Hquery.
  pose proof (Hfirst filter q data Hfilter Hquery Hdata) as Htotal.
  destruct (loop_requests options filter total page Hpages Htot m 1 ([] ++ page O) fuel)
    as (tr & Hloop & Htr).
  - lia.
  - intros j Hj. fold p. nia.
  - fold p. nia.
  - exists (EPost (posted q) :: tr). split.
    + unfold getProgramSets. rewrite Hfilter, bind_lift_Ok.
      cbn [getProgramSets_loop].
      change (another_page options (PInt (-1)) 0) with (@Ok bool true).
      rewrite bind_lift_Ok.
      rewrite (fetch_page_run options filter q 0 data (PInt (-1)) (PInt total) (page O)
                 Hquery Hdata Hpage (or_introl (conj eq_refl Htotal))).
      unfold bind at 1. cbn [fst snd].
      replace (0 + pagination options) with (Z.of_nat 1 * pagination options) by lia.
      rewrite Hloop. cbn [fst snd app seq map concat]. reflexivity.
    + cbn [seq]. constructor; [| exact Htr].
      exists q. split; [exact Hquery | reflexivity].
Qed.

End Paginator.

(** A catalogue of 200 program sets read in pages of 100, every page
    answered with the same record: two requests, [ceil(200 / 100)]. *)
Lemma pagination_requests_witness :
  exists tr,
    @getProgramSets sample_builtins
       (constant_world (page_answer 200 [sample_listing "7" "Show"])) 3
       (sample_options None None None None 100) []
    = (tr, Ok [sample_programSet "7" "Show"; sample_programSet "7" "Show"]) /\
    List.length tr = 2%nat /\ ceil_div 200 100 = 2.
Proof.
  destruct (@pagination_requests sample_builtins
              (constant_world (page_answer 200 [sample_listing "7" "Show"]))
              (sample_options None None None None 100) 200
              (fun _ => [sample_programSet "7" "Show"]))
    as (n & filter & _ & _ & _ & Hn & _ & _ & Hrun).
  - reflexivity.
  - discriminate.
  - intros filter _ k. do 2 eexists. split; [reflexivity |]. split; reflexivity.
  - intros filter q data _ _ Hdata. simpl in Hdata. injection Hdata as <-. reflexivity.
  - assert (Hn2 : n = 2%nat).
    { apply Nat2Z.inj. rewrite Hn; [reflexivity | lia | reflexivity]. }
    subst n. destruct (Hrun 3%nat ltac:(lia)) as (tr & Hget & Htr).
    exists tr. split; [exact Hget |]. split; [| reflexivity].
    apply Forall2_same_length in Htr. now rewrite <- Htr.
Defined.

(** An empty catalogue is asked for once, where [ceil(0 / 100)] is 0. *)
Lemma pagination_counterexample :
  exists tr,
    @getProgramSets sample_builtins (constant_world (page_answer 0 [])) 5
       (sample_options None None None None 100) [] = (tr, Ok []) /\
    List.length (posts tr) = 1%nat /\ ceil_div 0 100 = 0.
Proof.
  eexists. split; [vm_compute; reflexivity |]. split; reflexivity.
Qed.

(** ** The cap on processed program sets *)

Lemma bind_inv {A C} (m : M A) (f : A -> M C) (tr : list event) (r : result C) :
  bind m f = (tr, r) ->
  (exists e, m = (tr, Raise e) /\ r = Raise e) \/
  (exists t1 a t2, m = (t1, Ok a) /\ f a = (t2, r) /\ tr = t1 ++ t2).
Proof.
  unfold bind. destruct m as [t1 [a|e]]; simpl; intros H.
  - right. exists t1, a, (fst (f a)). injection H as <- <-.
    repeat split. now destruct (f a).
  - left. exists e. injection H as <- <-. now split.
Qed.

Lemma posts_app (t1 t2 : list event) : posts (t1 ++ t2) = posts t1 ++ posts t2.
Proof.
  induction t1 as [|ev t1 IH]; [reflexivity |].
  destruct ev; simpl; now rewrite IH.
Qed.

Section Cap.
Context {B : Builtins} {W : World}.

(** Writing a feed sends nothing to the API. *)
Lemma writeFeed_posts (options : Options) (rssDir : string)
    (programSet : AudiothekProgramSet.t) :
  posts (fst (writeFeed options rssDir programSet)) = [].
Proof.
  unfold writeFeed, writeRSS, bind, lift, emit, ret.
  destruct (AudiothekProgramSet.toXML programSet); [| reflexivity]. cbn [fst snd].
  destruct (normalize (AudiothekProgramSet.title programSet)); [| reflexivity].
  cbn [fst snd].
  destruct (outputFileName options programSet); [| reflexivity]. cbn [fst snd].
  destruct (tostring _); cbn [fst snd]; [| reflexivity].
  match goal with |- context [rbind ?r ?f] => destruct (rbind r f) end; reflexivity.
Qed.

(** The loop from a running count [count < limit]: queries are posted for
    the first candidates only, never for more than [limit - count] of
    them, and for exactly that many (or all candidates, if fewer) when the
    loop returns. *)
Lemma main_loop_cap (options : Options) (rssDir : string) (limit : Z) :
  forall (candidates : list AudiothekProgramSet.t) (count : Z)
         (jinjaVars : list (string * string)),
    0 <= count < limit ->
    exists k : nat,
      (k <= Z.to_nat (Z.min (limit - count) (Z.of_nat (List.length candidates))))%nat /\
      Forall2 (episode_request options) (firstn k candidates)
              (posts (fst (main_loop options rssDir limit count candidates jinjaVars))) /\
      (forall out,
          snd (main_loop options rssDir limit count candidates jinjaVars) = Ok out ->
          k = Z.to_nat (Z.min (limit - count) (Z.of_nat (List.length candidates)))).
Proof.
  induction candidates as [|programSet rest IH]; intros count jinjaVars Hcount.
  - exists O. cbn [main_loop ret fst snd posts firstn List.length].
    repeat split; [lia | constructor | intros; lia].
  - destruct (main_loop options rssDir limit count (programSet :: rest) jinjaVars)
      as [tr r] eqn:Hrun.
    cbn [main_loop] in Hrun. cbn [fst snd List.length].
    assert (Hcap : (1 <= Z.to_nat (Z.min (limit - count)
                                        (Z.of_nat (S (List.length rest)))))%nat) by lia.
    apply bind_inv in Hrun.
    destruct (queryEpisodes_posts programSet options)
      as [(q & Hq & Hposted) | (Hnone & e0 & Hraise)].
    2: { (* the query could not be built *)
      exists O. destruct Hrun as [(e & Hm & ->) | (t1 & a & t2 & Hm & _ & _)].
      - rewrite Hm in Hnone. cbn [fst] in Hnone. subst tr.
        repeat split; [lia | constructor | discriminate].
      - rewrite Hm in Hraise. discriminate. }
    assert (Hone : forall t, posts t = [] ->
              Forall2 (episode_request options) (firstn 1 (programSet :: rest))
                      (posts ([EPost (posted q)] ++ t))).
    { intros t Ht. rewrite posts_app, Ht. cbn [posts app firstn].
      constructor; [now exists q | constructor]. }
    destruct Hrun as [(e & Hm & ->) | (t1 & programSet1 & t2 & Hm & Hrest & ->)].
    { exists 1%nat. rewrite Hm in Hposted. cbn [fst] in Hposted. subst tr.
      repeat split; [exact Hcap | apply (Hone []); reflexivity | discriminate]. }
    rewrite Hm in Hposted. cbn [fst] in Hposted. subst t1.
    apply bind_inv in Hrest.
    destruct Hrest as [(e & Hm2 & ->) | (t3 & has & t4 & Hm2 & Hrest & ->)].
    { exists 1%nat. unfold lift in Hm2. injection Hm2 as <- _.
      repeat split; [exact Hcap | apply (Hone []); reflexivity | discriminate]. }
    unfold lift in Hm2. injection Hm2 as <- _. cbn [app] in *.
    apply bind_inv in Hrest.
    assert (Hwrite : forall t (x : result (list (string * string))),
              (if has
               then bind (writeFeed options rssDir programSet1)
                         (fun r0 => ret (jinjaVars ++ [snd r0]))
               else ret jinjaVars) = (t, x) -> posts t = []).
    { intros t x Hw. destruct has.
      - pose proof (writeFeed_posts options rssDir programSet1) as Hwp.
        apply bind_inv in Hw.
        destruct Hw as [(e & Hw & _) | (t5 & a & t6 & Hw & Hret & ->)].
        + rewrite Hw in Hwp. exact Hwp.
        + rewrite Hw in Hwp. cbn [fst] in Hwp. unfold ret in Hret.
          injection Hret as <- _. now rewrite app_nil_r.
      - unfold ret in Hw. now injection Hw as <- _. }
    destruct Hrest as [(e & Hm3 & ->) | (t5 & jinjaVars' & t6 & Hm3 & Hrest & ->)].
    { exists 1%nat.
      repeat split; [exact Hcap | apply Hone; now apply (Hwrite _ _ Hm3) | discriminate]. }
    pose proof (Hwrite _ _ Hm3) as Ht5.
    cbv zeta in Hrest.
    destruct ((limit >? 0) && (count + 1 =? limit)) eqn:Hstop.
    { (* the cap is reached *)
      exists 1%nat. unfold ret in Hrest. injection Hrest as <- <-.
      apply andb_true_iff in Hstop. destruct Hstop as [_ Hstop].
      apply Z.eqb_eq in Hstop.
      repeat split; [exact Hcap | | intros; lia].
      apply Hone. now rewrite posts_app, Ht5. }
    assert (Hnext : 0 <= count + 1 < limit).
    { apply andb_false_iff in Hstop. destruct Hstop as [Hstop | Hstop].
      - rewrite Z.gtb_ltb in Hstop. apply Z.ltb_ge in Hstop. lia.
      - apply Z.eqb_neq in Hstop. lia. }
    apply bind_inv in Hrest.
    destruct Hrest as [(e & Hm4 & _) | (t7 & u & t8 & Hm4 & Hrest & ->)].
    { destruct (negb ((count + 1) mod 100 =? 0)); discriminate. }
    assert (Ht7 : posts t7 = []).
    { destruct (negb ((count + 1) mod 100 =? 0)); unfold emit, ret in Hm4;
        now injection Hm4 as <- _. }
    destruct (IH (count + 1) jinjaVars' Hnext) as (k & Hk & HF & Hok).
    rewrite Hrest in HF, Hok. cbn [fst snd] in HF, Hok.
    exists (S k). repeat split.
    + lia.
    + cbn [firstn posts]. constructor; [now exists q |].
      rewrite !posts_app, Ht5, Ht7. exact HF.
    + intros out ->. specialize (Hok out eq_refl). lia.
Qed.

(** C7. With a positive cap [m], the loop of [main] over the candidate
    program sets posts episode queries for the first candidates only,
    never for more than [min m (number of candidates)] of them, whatever
    the API answers; and when the loop returns it has posted the episode
    query of each of the first [min m (number of candidates)] candidates,
    once and in order, and of none after them.  The count does not depend
    on whether a feed was written for a program set. *)
Theorem max_programs_cap (options : Options) (rssDir : string) (m : Z)
    (candidates : list AudiothekProgramSet.t) :
  0 < m ->
  exists k : nat,
    (k <= Z.to_nat (Z.min m (Z.of_nat (List.length candidates))))%nat /\
    Forall2 (episode_request options) (firstn k candidates)
            (posts (fst (main_loop options rssDir m 0 candidates []))) /\
    (forall jinjaVars,
        snd (main_loop options rssDir m 0 candidates []) = Ok jinjaVars ->
        k = Z.to_nat (Z.min m (Z.of_nat (List.length candidates)))).
Proof.
  intros Hm.
  destruct (main_loop_cap options rssDir m candidates 0 [] ltac:(lia))
    as (k & Hk & HF & Hok).
  rewrite Z.sub_0_r in Hk, Hok. now exists k.
Qed.

End Cap.

(** A cap of 2 on five candidates, each answered with [two_episodes]. *)
Lemma max_programs_cap_witness :
  List.length
    (posts (fst (@main_loop sample_builtins (constant_world two_episodes)
                   default_options "rss/rss" 2 0 five_candidates [])))
  = 2%nat.
Proof.
  destruct (@max_programs_cap sample_builtins (constant_world two_episodes)
              default_options "rss/rss" 2 five_candidates eq_refl)
    as (k & _ & HF & Hok).
  apply Forall2_same_length in HF. rewrite <- HF.
  assert (Hret : exists out,
             snd (@main_loop sample_builtins (constant_world two_episodes)
                    default_options "rss/rss" 2 0 five_candidates []) = Ok out)
    by (eexists; vm_compute; reflexivity).
  destruct Hret as [out Hout]. rewrite (Hok out Hout). reflexivity.
Defined.

(** * Further properties of the code *)

(** ** The image placeholder of an item *)

(** A prefix without the digit 4 that is read off the replaced string is
    a prefix of the original string: replaced text starts with [448]. *)
Lemma prefix_of_replaced (q t : string) :
  in_str "4" q = false ->
  prefixb q (replace "{width}" "448" t) = true -> prefixb q t = true.
Proof.
  unfold replace. revert t. induction q as [|a q IH]; intros t Hq H; [reflexivity |].
  change (in_str "4" (String a q)) with (Ascii.eqb "4" a || in_str "4" q) in Hq.
  apply orb_false_iff in Hq. destruct Hq as [Ha Hq].
  destruct t as [|d t]; [discriminate H |].
  cbn [replace_from] in H.
  destruct (prefixb "{width}" (String d t)).
  - cbn [String.append prefixb] in H. rewrite Ascii.eqb_sym, Ha in H. discriminate H.
  - cbn [prefixb] in H |- *. apply andb_true_iff in H. destruct H as [Had H].
    rewrite Had. now apply IH.
Qed.

(** No [{width}] is left after the replacement, whatever is still to be
    skipped. *)
Lemma replaced_has_no_token (s : string) (skip : nat) :
  contains "{width}" (replace_from skip "{width}" "448" s) = false.
Proof.
  revert skip. induction s as [|c s IH]; intros skip; [reflexivity |].
  destruct skip as [|k]; cbn [replace_from]; [| apply IH].
  destruct (prefixb "{width}" (String c s)) eqn:Hp.
  - change (String.length "{width}" - 1)%nat with 6%nat.
    change ("448" ^^ replace_from 6 "{width}" "448" s)
      with (String "4" (String "4" (String "8" (replace_from 6 "{width}" "448" s)))).
    cbn [contains]. rewrite IH.
    cbn [prefixb Ascii.eqb Bool.eqb andb orb]. reflexivity.
  - cbn [contains]. rewrite IH, orb_false_r.
    destruct (prefixb "{width}" (String c (replace_from 0 "{width}" "448" s))) eqn:Hr;
      [| reflexivity].
    change (Ascii.eqb "{" c && prefixb "width}" (replace "{width}" "448" s) = true)
      in Hr.
    change (Ascii.eqb "{" c && prefixb "width}" s = false) in Hp.
    apply andb_true_iff in Hr. destruct Hr as [Hc Hr].
    apply (prefix_of_replaced "width}" s eq_refl) in Hr.
    rewrite Hc, Hr in Hp. discriminate Hp.
Qed.

(** A string without the token is left as it is. *)
Lemma replace_without_token (s : string) :
  contains "{width}" s = false -> replace "{width}" "448" s = s.
Proof.
  unfold replace. induction s as [|c s IH]; intros H; [reflexivity |].
  cbn [contains] in H. apply orb_false_iff in H. destruct H as [Hp Hs].
  cbn [replace_from]. rewrite Hp, (IH Hs). reflexivity.
Qed.

(** The first token, after text without an opening brace, is replaced and
    the replacement goes on behind it. *)
Lemma replace_first_token (a b : string) :
  in_str "{" a = false ->
  replace "{width}" "448" (a ^^ "{width}" ^^ b)
  = a ^^ "448" ^^ replace "{width}" "448" b.
Proof.
  unfold replace. induction a as [|c a IH]; intros H.
  - cbn [String.append]. cbn [replace_from prefixb Ascii.eqb Bool.eqb andb].
    reflexivity.
  - change (in_str "{" (String c a)) with (Ascii.eqb "{" c || in_str "{" a) in H.
    apply orb_false_iff in H. destruct H as [Hc Ha].
    change ((String c a) ^^ "{width}" ^^ b) with (String c (a ^^ "{width}" ^^ b)).
    cbn [replace_from prefixb]. rewrite Hc. cbn [andb].
    rewrite (IH Ha). reflexivity.
Qed.

(** X1. The image URL of an item built from a string [u]: [None] when [u]
    is empty; otherwise [u] with every [{width}] replaced by [448], so
    that no [{width}] is left in it, a URL without the token is kept
    unchanged, and the first token after brace-free text [a] gives
    [a448...]. *)
Theorem item_image_placeholder :
  forall (a_id a_title a_duration a_date a_url a_sharing a_description a_synopsis : pyval)
         (u : string) (item : AudiothekItem.t),
    AudiothekItem.init a_id a_title a_duration a_date a_url a_sharing a_description
                       a_synopsis (PStr u) = Ok item ->
    (u = "" -> AudiothekItem.imageUrl item = PNone) /\
    (u <> "" ->
       exists v, AudiothekItem.imageUrl item = PStr v /\
                 contains "{width}" v = false /\
                 (contains "{width}" u = false -> v = u) /\
                 (forall a b, in_str "{" a = false -> u = a ^^ "{width}" ^^ b ->
                              v = a ^^ "448" ^^ replace "{width}" "448" b)).
Proof.
  intros a_id a_title a_duration a_date a_url a_sharing a_description a_synopsis u item.
  unfold AudiothekItem.init. intros H.
  destruct (AudiothekItem.or_empty a_sharing); [| discriminate]. cbn [rbind] in H.
  destruct (AudiothekItem.or_empty a_description); [| discriminate]. cbn [rbind] in H.
  destruct (AudiothekItem.or_empty a_synopsis); [| discriminate]. cbn [rbind] in H.
  cbn [py_len rbind] in H.
  destruct u as [|c u].
  - cbn in H. injection H as <-. split; [reflexivity | congruence].
  - assert (Hlen : (slen (String c u) >? 0) = true).
    { unfold slen. cbn [String.length]. rewrite Z.gtb_ltb. apply Z.ltb_lt. lia. }
    rewrite Hlen in H. cbn [py_replace rbind] in H. injection H as <-.
    split; [discriminate |]. intros _.
    exists (replace "{width}" "448" (String c u)). cbn [AudiothekItem.imageUrl].
    split; [reflexivity |]. split; [apply replaced_has_no_token |].
    split; [apply replace_without_token |].
    intros pre post Hpre ->. now apply replace_first_token.
Qed.

(** An item with the image URL [https://img.ard.de/e1x1?w={width}]. *)
Lemma item_image_placeholder_witness :
  exists item,
    AudiothekItem.init (PInt 0) (PStr "First") (PInt 1800) PNone
      (PStr "https://media.ard.de/first.mp3") (PStr "") (PStr "") (PStr "")
      (PStr "https://img.ard.de/e1x1?w={width}") = Ok item /\
    AudiothekItem.imageUrl item = PStr "https://img.ard.de/e1x1?w=448".
Proof.
  destruct (AudiothekItem.init (PInt 0) (PStr "First") (PInt 1800) PNone
              (PStr "https://media.ard.de/first.mp3") (PStr "") (PStr "") (PStr "")
              (PStr "https://img.ard.de/e1x1?w={width}")) as [item|e] eqn:E;
    [| vm_compute in E; discriminate].
  exists item. split; [reflexivity |].
  destruct (item_image_placeholder _ _ _ _ _ _ _ _ _ _ E) as [_ H].
  destruct (H ltac:(discriminate)) as (v & Hv & _ & _ & Htok).
  rewrite Hv, (Htok "https://img.ard.de/e1x1?w=" "" eq_refl eq_refl). reflexivity.
Defined.

(** ** The arguments of an item *)

Lemma or_empty_str (s : string) : AudiothekItem.or_empty (PStr s) = Ok (PStr s).
Proof.
  unfold AudiothekItem.or_empty. cbn [py_len rbind].
  destruct s as [|c s]; [reflexivity |].
  replace (slen (String c s) >? 0) with true; [reflexivity |].
  symmetry. unfold slen. cbn [String.length]. rewrite Z.gtb_ltb. apply Z.ltb_lt. lia.
Qed.

Lemma or_empty_raises (v : pyval) (e : exn) :
  AudiothekItem.or_empty v = Raise e -> e = TypeError.
Proof.
  unfold AudiothekItem.or_empty. destruct v; cbn [py_len rbind]; congruence.
Qed.

Lemma or_empty_none : AudiothekItem.or_empty PNone = Raise TypeError.
Proof. reflexivity. Qed.

(** X2. The constructor of an item on string arguments: the sharing URL,
    description and synopsis are stored as given (the guard on their
    length changes nothing), a missing date becomes the empty string and a
    missing duration 0, and the item has no owner yet.  When one of sharing
    URL, description, synopsis or image URL is [None], the constructor
    raises a TypeError instead of falling back to a default. *)
Theorem item_init_arguments :
  (forall (a_id a_title a_duration a_date a_url : pyval) (s d y u : string),
      exists item,
        AudiothekItem.init a_id a_title a_duration a_date a_url
                           (PStr s) (PStr d) (PStr y) (PStr u) = Ok item /\
        AudiothekItem.id item = a_id /\
        AudiothekItem.title item = a_title /\
        AudiothekItem.sharingUrl item = PStr s /\
        AudiothekItem.description item = PStr d /\
        AudiothekItem.synopsis item = PStr y /\
        AudiothekItem.dateTime item = (if is_none a_date then PStr "" else a_date) /\
        AudiothekItem.duration item = (if is_none a_duration then PInt 0 else a_duration) /\
        AudiothekItem.programSet item = None) /\
  (forall a_id a_title a_duration a_date a_url a_sharing a_description a_synopsis
          a_image : pyval,
      a_sharing = PNone \/ a_description = PNone \/ a_synopsis = PNone \/
      a_image = PNone ->
      AudiothekItem.init a_id a_title a_duration a_date a_url a_sharing a_description
                         a_synopsis a_image = Raise TypeError).
Proof.
  split.
  - intros a_id a_title a_duration a_date a_url s d y u.
    unfold AudiothekItem.init. rewrite !or_empty_str. cbn [rbind py_len].
    destruct (slen u >? 0); cbn [py_replace rbind]; eexists;
      repeat split; reflexivity.
  - intros a_id a_title a_duration a_date a_url a_sharing a_description a_synopsis
           a_image H.
    unfold AudiothekItem.init.
    destruct (AudiothekItem.or_empty a_sharing) as [x1|e1] eqn:E1; cbn [rbind];
      [| now rewrite (or_empty_raises _ _ E1)].
    destruct (AudiothekItem.or_empty a_description) as [x2|e2] eqn:E2; cbn [rbind];
      [| now rewrite (or_empty_raises _ _ E2)].
    destruct (AudiothekItem.or_empty a_synopsis) as [x3|e3] eqn:E3; cbn [rbind];
      [| now rewrite (or_empty_raises _ _ E3)].
    destruct H as [-> | [-> | [-> | ->]]];
      try (rewrite or_empty_none in *; discriminate).
    reflexivity.
Qed.

(** An episode whose summary is [null]. *)
Lemma item_init_arguments_witness :
  AudiothekItem.init (PInt 0) (PStr "First") (PInt 1800) (PStr "2024-05-01")
    (PStr "https://media.ard.de/first.mp3") (PStr "https://www.ardaudiothek.de/e")
    PNone (PStr "Synopsis") (PStr "") = Raise TypeError.
Proof.
  destruct item_init_arguments as [_ H].
  apply H. right. left. reflexivity.
Defined.

(** ** Answers that cannot be decoded *)

Lemma mapR_first_failure {A C} (f : A -> result C) (good rest : list A) (bad : A)
    (e : exn) :
  Forall (fun a => exists c, f a = Ok c) good -> f bad = Raise e ->
  mapR f (good ++ bad :: rest) = Raise e.
Proof.
  intros Hgood Hbad. induction Hgood as [|a good [c Hc] _ IH]; cbn [app mapR].
  - now rewrite Hbad.
  - now rewrite Hc, IH.
Qed.

Section Decoding.
Context {B : Builtins} {W : World}.

(** X3. An episode node whose list of audios is empty cannot be decoded:
    taking its first audio raises an IndexError.  And the first node of an
    answer that cannot be decoded ends the episode query with its
    exception, after the query was posted: no item of the answer is added
    to the program set. *)
Theorem episode_without_audio :
  (forall node a_title a_duration a_date : pyval,
      getitem node "title" = Ok a_title ->
      getitem node "duration" = Ok a_duration ->
      getitem node "publicationStartDateAndTime" = Ok a_date ->
      getitem node "audios" = Ok (PList []) ->
      AudiothekProgramSet.episode node = Raise IndexError) /\
  (forall (self : AudiothekProgramSet.t) (options : Options) (query : string)
          (d data bad : pyval) (good rest : list pyval) (e : exn),
      AudiothekProgramSet.episodes_query self options = Ok query ->
      getitem (server (posted query)) "data" = Ok d ->
      getitem d "programSet" = Ok data ->
      AudiothekProgramSet.episode_nodes data = Ok (good ++ bad :: rest) ->
      Forall (fun node => exists item, AudiothekProgramSet.episode node = Ok item) good ->
      AudiothekProgramSet.episode bad = Raise e ->
      AudiothekProgramSet.queryEpisodes self options
      = ([EPost (posted query)], Raise e)).
Proof.
  split.
  - intros node a_title a_duration a_date Ht Hd Hp Ha.
    unfold AudiothekProgramSet.episode. rewrite Ht, Hd, Hp, Ha. reflexivity.
  - intros self options query d data bad good rest e Hq Hd Hdata Hnodes Hgood Hbad.
    unfold AudiothekProgramSet.queryEpisodes. rewrite Hq, bind_lift_Ok.
    rewrite executeQuery_run. unfold bind, lift. cbn [fst snd app].
    fold (posted query). rewrite Hd. cbn [rbind]. rewrite Hdata. cbn [rbind].
    unfold AudiothekProgramSet.populate. rewrite Hnodes. cbn [rbind].
    rewrite (mapR_first_failure _ _ _ _ _ Hgood Hbad). reflexivity.
Qed.

(** X4. An episode query that returns leaves the identifier, title,
    sharing URL, description, synopsis and feed path of the program set as
    they were, keeps the items it had in front of the new ones, and takes
    the site path and the image URL from the answer as they come. *)
Theorem queryEpisodes_frame (self self' : AudiothekProgramSet.t) (options : Options)
    (tr : list event) :
  AudiothekProgramSet.queryEpisodes self options = (tr, Ok self') ->
  AudiothekProgramSet.id self' = AudiothekProgramSet.id self /\
  AudiothekProgramSet.title self' = AudiothekProgramSet.title self /\
  AudiothekProgramSet.sharingUrl self' = AudiothekProgramSet.sharingUrl self /\
  AudiothekProgramSet.description self' = AudiothekProgramSet.description self /\
  AudiothekProgramSet.synopsis self' = AudiothekProgramSet.synopsis self /\
  AudiothekProgramSet.rssPath self' = AudiothekProgramSet.rssPath self /\
  exists query d data image old new,
    tr = [EPost (posted query)] /\
    getitem (server (posted query)) "data" = Ok d /\
    getitem d "programSet" = Ok data /\
    getitem data "path" = Ok (AudiothekProgramSet.audiothekPath self') /\
    getitem data "image" = Ok image /\
    getitem image "url1X1" = Ok (AudiothekProgramSet.imageUrl self') /\
    AudiothekProgramSet.items self = Some old /\
    AudiothekProgramSet.items self' = Some (old ++ new).
Proof.
  intros H. apply queryEpisodes_returns in H.
  destruct H as (query & d & data & _ & Htr & Hd & Hdata & Hp).
  unfold AudiothekProgramSet.populate, AudiothekProgramSet.addItems in Hp.
  destruct (AudiothekProgramSet.episode_nodes data) as [nodes|]; [| discriminate].
  cbn [rbind] in Hp.
  destruct (mapR AudiothekProgramSet.episode nodes) as [episodes|]; [| discriminate].
  cbn [rbind] in Hp.
  destruct (AudiothekProgramSet.items self) as [old|] eqn:Hold; [| discriminate].
  cbn [rbind] in Hp.
  destruct (getitem data "image") as [image|] eqn:Hi; [| discriminate].
  cbn [rbind] in Hp.
  destruct (getitem image "url1X1") as [url|] eqn:Hu; [| discriminate].
  cbn [rbind] in Hp.
  destruct (getitem data "path") as [path|] eqn:Hpath; [| discriminate].
  cbn [rbind] in Hp. injection Hp as <-.
  repeat (split; [reflexivity |]).
  exists query, d, data, image, old,
         (map (AudiothekItem.set_programSet (Some (AudiothekProgramSet.title self)))
              episodes).
  repeat split; assumption.
Qed.

End Decoding.

(** A node without audio, alone and behind a node that decodes. *)
Lemma episode_without_audio_witness :
  @AudiothekProgramSet.episode node_without_audio = Raise IndexError /\
  @AudiothekProgramSet.queryEpisodes sample_builtins
     (constant_world
        (sample_episodes (PStr "https://img.ard.de/s1x1")
           [ sample_node "First" (PStr "https://media.ard.de/first.mp3");
             node_without_audio ]))
     (sample_programSet "7" "Show") default_options
  = ([EPost (posted "programSet(id:7){title,path,synopsis,sharingUrl,image{url,url1X1,},items(orderBy:PUBLISH_DATE_DESC,filter:{isPublished:{equalTo:true}}first:10){nodes{title,summary,synopsis,sharingUrl,publicationStartDateAndTime:publishDate,url,episodeNumber,duration,image{url,url1X1,},isPublished,audios{url,downloadUrl,mimeType,}}}}")],
     Raise IndexError).
Proof.
  destruct (@episode_without_audio sample_builtins
              (constant_world
                 (sample_episodes (PStr "https://img.ard.de/s1x1")
                    [ sample_node "First" (PStr "https://media.ard.de/first.mp3");
                      node_without_audio ]))) as [H1 H2].
  assert (Hbad : @AudiothekProgramSet.episode node_without_audio = Raise IndexError).
  { eapply H1; reflexivity. }
  split; [exact Hbad |].
  eapply (H2 (sample_programSet "7" "Show") default_options _ _ _ node_without_audio
             [sample_node "First" (PStr "https://media.ard.de/first.mp3")] []).
  - reflexivity.
  - reflexivity.
  - reflexivity.
  - reflexivity.
  - constructor; [eexists; vm_compute; reflexivity | constructor].
  - exact Hbad.
Defined.

(** The episode query of the program set with id 7, answered with
    [two_episodes]. *)
Lemma queryEpisodes_frame_witness :
  exists self',
    snd (@AudiothekProgramSet.queryEpisodes sample_builtins
           (constant_world two_episodes) (sample_programSet "7" "Show")
           default_options) = Ok self' /\
    AudiothekProgramSet.title self' = PStr "Show" /\
    AudiothekProgramSet.id self' = PStr "7".
Proof.
  destruct (@AudiothekProgramSet.queryEpisodes sample_builtins
              (constant_world two_episodes) (sample_programSet "7" "Show")
              default_options) as [tr [self'|e]] eqn:E;
    [| vm_compute in E; discriminate].
  exists self'. split; [reflexivity |].
  destruct (@queryEpisodes_frame sample_builtins (constant_world two_episodes)
              _ _ _ _ E) as (Hid & Htitle & _).
  split; [exact Htitle | exact Hid].
Defined.

(** ** Categories and listings *)

Lemma Forall2_mapR {A C} (f : A -> result C) (l : list A) (r : list C) :
  Forall2 (fun a c => f a = Ok c) l r -> mapR f l = Ok r.
Proof.
  induction 1 as [|a c l r Ha _ IH]; cbn [mapR]; [reflexivity |].
  now rewrite Ha, IH.
Qed.

Section Listings.
Context {B : Builtins} {W : World}.

(** X5. The categories found by a search term.  Without category IDs and
    without a search term [getCategories] returns the empty list and posts
    nothing.  With a search term only, it posts the [editorialCategories]
    query filtered by the term and returns one category per edge of the
    answer, in the order of the answer, with the identifier and title of
    the edge's node and no program sets. *)
Theorem getCategories_by_search :
  (forall options : Options,
      categoryID options = None -> categorySearch options = None ->
      getCategories options = ([], Ok [])) /\
  (forall (options : Options) (term : string) (d cats : pyval) (edges : list pyval)
          (categories : list AudiothekCategory.t),
      categoryID options = None -> categorySearch options = Some term ->
      getitem (server (posted ("editorialCategories"
                               ^^ ("(filter:{title:{includes:" ^^ dq ^^ term ^^ dq ^^ "})")
                               ^^ "{edges{node{title, id}}}"))) "data" = Ok d ->
      getitem d "editorialCategories" = Ok cats ->
      getitem cats "edges" = Ok (PList edges) ->
      Forall2 (fun edge category =>
                 exists node,
                   getitem edge "node" = Ok node /\
                   getitem node "id" = Ok (AudiothekCategory.id category) /\
                   getitem node "title" = Ok (AudiothekCategory.title category) /\
                   AudiothekCategory.programSets category = [])
              edges categories ->
      getCategories options
      = ([EPost (posted ("editorialCategories"
                         ^^ ("(filter:{title:{includes:" ^^ dq ^^ term ^^ dq ^^ "})")
                         ^^ "{edges{node{title, id}}}"))],
         Ok categories)).
Proof.
  split.
  - intros options Hid Hsearch. unfold getCategories. now rewrite Hid, Hsearch.
  - intros options term d cats edges categories Hid Hsearch Hd Hcats Hedges Hall.
    unfold getCategories, categories_query. rewrite Hid, Hsearch.
    change (pyformat ("(filter:{title:{includes:" ^^ dq ^^ "%s" ^^ dq ^^ "})") [PStr term])
      with (Ok ("(filter:{title:{includes:" ^^ dq ^^ term ^^ dq ^^ "})")).
    cbn [rbind].
    change (pyformat "editorialCategories%s{edges{node{title, id}}}"
              [PStr ("(filter:{title:{includes:" ^^ dq ^^ term ^^ dq ^^ "})")])
      with (Ok ("editorialCategories"
                ^^ ("(filter:{title:{includes:" ^^ dq ^^ term ^^ dq ^^ "})")
                ^^ "{edges{node{title, id}}}")).
    rewrite bind_lift_Ok, executeQuery_run. unfold bind, lift. cbn [fst snd app].
    unfold posted in Hd. rewrite Hd. cbn [rbind]. rewrite Hcats. cbn [rbind].
    rewrite Hedges. cbn [rbind py_iter].
    assert (Hmap : mapR category_of edges = Ok categories).
    { apply Forall2_mapR. clear - Hall.
      induction Hall as [|edge c l r (node & Hn & Hi & Ht & Hp) _ IH];
        constructor; [| exact IH].
      unfold category_of. rewrite Hn. cbn [rbind]. rewrite Hi, Ht. cbn [rbind].
      destruct c as [i t p]. cbn in Hp. now subst p. }
    rewrite Hmap. reflexivity.
Qed.

(** The filter of a non-empty category list cannot be built. *)
Lemma category_filter_raises (fuel : nat) (options : Options)
    (first : pyval) (others : list pyval) :
  getProgramSets fuel options (first :: others) = ([], Raise TypeError).
Proof.
  unfold getProgramSets, programSets_filter.
  change (Z.of_nat (List.length (first :: others)) >? 0) with true.
  cbv iota. rewrite quoted_list_ok. reflexivity.
Qed.

(** X6. When no program IDs are given, [queryContent] resolves the
    categories first.  If at least one category is found, it ends with a
    TypeError as soon as the categories are known: no page of program sets
    is requested.  If none is found, it goes on as [getProgramSets] without
    categories does. *)
Theorem categories_never_filter (fuel : nat) (options : Options) (tr : list event) :
  programID options = None ->
  (forall first others,
      getCategories options = (tr, Ok (first :: others)) ->
      queryContent fuel options = (tr, Raise TypeError)) /\
  (getCategories options = (tr, Ok []) ->
   queryContent fuel options
   = (tr ++ fst (getProgramSets fuel options []),
      snd (getProgramSets fuel options []))).
Proof.
  intros Hp. split.
  - intros first others Hc. unfold queryContent. rewrite Hp, Hc.
    unfold bind. cbn [fst snd map]. rewrite category_filter_raises.
    cbn [fst snd]. now rewrite app_nil_r.
  - intros Hc. unfold queryContent. rewrite Hp, Hc. reflexivity.
Qed.

(** X7. The fetch by program IDs returns one program set per node of the
    answer, in the order of the answer, with the five fields of the node
    and with no items, no image URL and no paths yet; the nodes are not
    compared with the requested IDs. *)
Theorem getProgramSetsByID_returns (options : Options) (ids : list Z)
    (d p : pyval) (nodes : list pyval) (programSets : list AudiothekProgramSet.t) :
  programID options = Some ids ->
  getitem (server (posted ("programSetsByIds(ids:[" ^^ quoted (map dec ids)
             ^^ "]){nodes{title, id, sharingUrl, description, synopsis}}"))) "data"
  = Ok d ->
  getitem d "programSetsByIds" = Ok p ->
  getitem p "nodes" = Ok (PList nodes) ->
  Forall2 (fun node programSet =>
             exists a_id a_title a_sharing a_description a_synopsis,
               getitem node "id" = Ok a_id /\
               getitem node "title" = Ok a_title /\
               getitem node "sharingUrl" = Ok a_sharing /\
               getitem node "description" = Ok a_description /\
               getitem node "synopsis" = Ok a_synopsis /\
               programSet
               = {| AudiothekProgramSet.id := a_id;
                    AudiothekProgramSet.title := a_title;
                    AudiothekProgramSet.sharingUrl := a_sharing;
                    AudiothekProgramSet.description := a_description;
                    AudiothekProgramSet.synopsis := a_synopsis;
                    AudiothekProgramSet.rssPath := PNone;
                    AudiothekProgramSet.audiothekPath := PNone;
                    AudiothekProgramSet.imageUrl := PNone;
                    AudiothekProgramSet.items := Some [] |})
          nodes programSets ->
  getProgramSetsByID options
  = ([EPost (posted ("programSetsByIds(ids:[" ^^ quoted (map dec ids)
             ^^ "]){nodes{title, id, sharingUrl, description, synopsis}}"))],
     Ok programSets).
Proof.
  intros Hids Hd Hp Hnodes Hall.
  unfold getProgramSetsByID. rewrite (programSetsByIds_query_ids _ _ Hids).
  rewrite bind_lift_Ok, executeQuery_run. unfold bind, lift. cbn [fst snd app].
  unfold posted in Hd. rewrite Hd. cbn [rbind]. rewrite Hp. cbn [rbind].
  rewrite Hnodes. cbn [rbind py_iter].
  assert (Hmap : mapR programSet_of nodes = Ok programSets).
  { apply Forall2_mapR. clear - Hall.
    induction Hall as [|node ps l r (i & t & s & de & y & Hi & Ht & Hs & Hde & Hy & ->)
                         _ IH]; constructor; [| exact IH].
    unfold programSet_of. rewrite Hi, Ht, Hs, Hde, Hy. reflexivity. }
  rewrite Hmap. reflexivity.
Qed.

End Listings.

(** The search for [Krimi], answered with one category. *)
Lemma getCategories_by_search_witness :
  snd (@getCategories sample_builtins (constant_world categories_by_search_answer)
         search_options)
  = Ok [AudiothekCategory.init (PStr "42") (PStr "Krimi")].
Proof.
  destruct (@getCategories_by_search sample_builtins
              (constant_world categories_by_search_answer)) as [_ H].
  rewrite (H search_options "Krimi"
             (PDict [("editorialCategories",
                      PDict [("edges",
                              PList [PDict [("node", PDict [("title", PStr "Krimi");
                                                            ("id", PStr "42")])]])])])
             (PDict [("edges",
                      PList [PDict [("node", PDict [("title", PStr "Krimi");
                                                    ("id", PStr "42")])]])])
             [PDict [("node", PDict [("title", PStr "Krimi"); ("id", PStr "42")])]]
             [AudiothekCategory.init (PStr "42") (PStr "Krimi")]
             eq_refl eq_refl eq_refl eq_refl eq_refl).
  - reflexivity.
  - constructor; [| constructor].
    exists (PDict [("title", PStr "Krimi"); ("id", PStr "42")]).
    repeat split.
Defined.

(** The same search as the selector of a run. *)
Lemma categories_never_filter_witness :
  snd (@queryContent sample_builtins (constant_world categories_by_search_answer) 5
         search_options) = Raise TypeError /\
  List.length
    (fst (@queryContent sample_builtins (constant_world categories_by_search_answer) 5
            search_options)) = 1%nat.
Proof.
  destruct (@categories_never_filter sample_builtins
              (constant_world categories_by_search_answer) 5 search_options
              (fst (@getCategories sample_builtins
                      (constant_world categories_by_search_answer) search_options))
              eq_refl) as [H _].
  rewrite (H (AudiothekCategory.init (PStr "42") (PStr "Krimi")) [] eq_refl).
  split; reflexivity.
Defined.

(** The program IDs 7 and 9, answered with their two listing records. *)
Lemma getProgramSetsByID_returns_witness :
  snd (@getProgramSetsByID sample_builtins (constant_world programSets_by_id_answer)
         (sample_options None (Some [7; 9]) None None 100))
  = Ok [sample_programSet "7" "Show"; sample_programSet "9" "Other show"].
Proof.
  rewrite (@getProgramSetsByID_returns sample_builtins
             (constant_world programSets_by_id_answer)
             (sample_options None (Some [7; 9]) None None 100) [7; 9]
             (PDict [("programSetsByIds",
                      PDict [("nodes", PList [sample_listing "7" "Show";
                                              sample_listing "9" "Other show"])])])
             (PDict [("nodes", PList [sample_listing "7" "Show";
                                      sample_listing "9" "Other show"])])
             [sample_listing "7" "Show"; sample_listing "9" "Other show"]
             [sample_programSet "7" "Show"; sample_programSet "9" "Other show"]
             eq_refl eq_refl eq_refl eq_refl).
  - reflexivity.
  - repeat constructor; do 5 eexists; repeat split.
Defined.

(** ** The option checks, once more *)

Lemma contains_prefix (sub s : string) :
  prefixb sub s = true -> contains sub s = true.
Proof. intros H. destruct s; cbn [contains]; now rewrite H. Qed.

Lemma prefixb_append (sub b : string) : prefixb sub (sub ^^ b) = true.
Proof.
  induction sub as [|c sub IH]; [reflexivity |].
  cbn [String.append prefixb]. now rewrite Ascii.eqb_refl, IH.
Qed.

Lemma contains_inserted (sub a b : string) : contains sub (a ^^ sub ^^ b) = true.
Proof.
  induction a as [|c a IH].
  - change ("" ^^ sub ^^ b) with (sub ^^ b). apply contains_prefix, prefixb_append.
  - change ((String c a) ^^ sub ^^ b) with (String c (a ^^ sub ^^ b)).
    cbn [contains]. rewrite IH. apply orb_true_r.
Qed.

Lemma corrected_output_contains (s : string) :
  contains "%d" (corrected_output s) = true.
Proof.
  unfold corrected_output. destruct (rfind "." s >? -1).
  - apply contains_inserted.
  - change (s ^^ "%d") with (s ^^ "%d" ^^ ""). apply contains_inserted.
Qed.

Section CheckedOptions.
Context {B : Builtins} {W : World}.

(** The options that the checks return when the output directory
    exists. *)
Lemma getOptions_value (parsed : Options) :
  path_exists (outputDir parsed) = true ->
  exists tr,
    getOptions parsed
    = (tr,
       Ok {| categoryID :=
               if is_some (programID parsed) &&
                  (is_some (programSearch parsed) || is_some (categoryID parsed))
               then None else categoryID parsed;
             categorySearch := categorySearch parsed;
             programID := programID parsed;
             programSearch := programSearch parsed;
             maxPrograms := maxPrograms parsed;
             pagination := pagination parsed;
             latest := latest parsed;
             html := html parsed;
             outputDir := outputDir parsed;
             output := if contains "%d" (output parsed) then output parsed
                       else corrected_output (output parsed);
             search :=
               if is_some (programID parsed) &&
                  (is_some (programSearch parsed) || is_some (categoryID parsed))
               then Some PNone else search parsed |}).
Proof.
  destruct parsed as [cid csearch pid psearch cap page lat h dir out srch].
  cbn [outputDir programID programSearch categoryID categorySearch maxPrograms
       pagination latest html output search].
  intros Hdir. unfold getOptions.
  cbn [outputDir programID programSearch categoryID output].
  rewrite Hdir. cbn [negb].
  destruct (is_some pid && (is_some psearch || is_some cid));
    destruct (contains "%d" out) eqn:Hd;
    unfold bind, ret, emit, lift, silence_filters, with_output;
    cbn [fst snd output negb]; rewrite ?Hd; cbn [negb fst snd];
    eexists; reflexivity.
Qed.

(** X8. The option checks.  When the output directory does not exist they
    end the run with the message that names it, before anything is
    printed.  When it exists they return options whose output template
    contains [%d]; everything but the category IDs, the template and the
    attribute [search] is as parsed - in particular the program search
    term, also when the notice about overridden filters was printed; and
    checking the returned options again returns them unchanged. *)
Theorem getOptions_postcondition (parsed : Options) :
  (path_exists (outputDir parsed) = false ->
   getOptions parsed
   = ([], Raise (SystemExit ("The output directory " ^^ outputDir parsed
                             ^^ " does not exist")))) /\
  (path_exists (outputDir parsed) = true ->
   exists tr options,
     getOptions parsed = (tr, Ok options) /\
     contains "%d" (output options) = true /\
     categorySearch options = categorySearch parsed /\
     programID options = programID parsed /\
     programSearch options = programSearch parsed /\
     maxPrograms options = maxPrograms parsed /\
     pagination options = pagination parsed /\
     latest options = latest parsed /\
     html options = html parsed /\
     outputDir options = outputDir parsed /\
     exists tr', getOptions options = (tr', Ok options)).
Proof.
  split.
  - intros Hdir. unfold getOptions. rewrite Hdir. reflexivity.
  - intros Hdir. destruct (getOptions_value parsed Hdir) as [tr Hrun].
    do 2 eexists. split; [exact Hrun |].
    cbn [output categorySearch programID programSearch maxPrograms pagination latest
         html outputDir].
    assert (Hout : contains "%d" (if contains "%d" (output parsed) then output parsed
                                  else corrected_output (output parsed)) = true).
    { destruct (contains "%d" (output parsed)) eqn:Hd;
        [exact Hd | apply corrected_output_contains]. }
    split; [exact Hout |].
    repeat (split; [reflexivity |]).
    match goal with
    | |- exists tr', getOptions ?o = _ =>
        destruct (getOptions_value o Hdir) as [tr' Hagain]
    end.
    exists tr'. rewrite Hagain.
    cbn [output categorySearch programID programSearch maxPrograms pagination latest
         html outputDir categoryID search].
    rewrite Hout.
    clear Hrun Hagain.
    remember (is_some (programID parsed) &&
              (is_some (programSearch parsed) || is_some (categoryID parsed)))
      as overridden eqn:Hc.
    destruct overridden; cbn [is_some orb]; rewrite <- ?Hc; clear Hc;
      try (destruct (is_some (programID parsed) &&
                     (is_some (programSearch parsed) || false)));
      reflexivity.
Qed.

End CheckedOptions.

(** The checks of the default options when no path exists, and of options
    with program IDs and a search term when every path exists. *)
Lemma getOptions_postcondition_witness :
  snd (@getOptions sample_builtins
         {| server := fun _ => PNone; path_exists := fun _ => false |} default_options)
  = Raise (SystemExit "The output directory rss does not exist") /\
  exists tr options,
    @getOptions sample_builtins (constant_world PNone)
       (sample_options (Some [42]) (Some [7]) (Some "krimi") None 100)
    = (tr, Ok options) /\
    programSearch options = Some "krimi".
Proof.
  split.
  - destruct (@getOptions_postcondition sample_builtins
                {| server := fun _ => PNone; path_exists := fun _ => false |}
                default_options) as [H _].
    rewrite (H eq_refl). reflexivity.
  - destruct (@getOptions_postcondition sample_builtins (constant_world PNone)
                (sample_options (Some [42]) (Some [7]) (Some "krimi") None 100))
      as [_ H].
    destruct (H eq_refl) as (tr & options & Hrun & _ & _ & _ & Hps & _).
    exists tr, options. split; [exact Hrun | exact Hps].
Defined.

(** ** Writing a feed *)

Section WriteFeed.
Context {B : Builtins} {W : World}.

(** X9. When the feed-writing step of [main] returns, it has written one
    file and printed one line: the file is the serialized [rss] root
    around the channel of the program set, its path is the output
    directory joined with the file name made from the template, the entry
    for the index is the path of the file relative to the HTML directory
    with the normalized title, and the program set comes back with its
    feed path set and its items released, everything else unchanged. *)
Theorem writeFeed_returns (options : Options) (rssDir : string)
    (programSet released : AudiothekProgramSet.t) (entry : string * string)
    (tr : list event) :
  writeFeed options rssDir programSet = (tr, Ok (released, entry)) ->
  exists channel doc name normTitle line,
    AudiothekProgramSet.toXML programSet = Ok channel /\
    tostring (Element "rss" [] PNone [channel]) = Ok doc /\
    outputFileName options programSet = Ok name /\
    normalize (AudiothekProgramSet.title programSet) = Ok normTitle /\
    tr = [EWrite (path_join rssDir name) doc; EPrint line] /\
    entry = (path_join (path_join ".." "rss") name, normTitle) /\
    AudiothekProgramSet.rssPath released = PStr (path_join rssDir name) /\
    AudiothekProgramSet.items released = None /\
    AudiothekProgramSet.id released = AudiothekProgramSet.id programSet /\
    AudiothekProgramSet.title released = AudiothekProgramSet.title programSet /\
    AudiothekProgramSet.imageUrl released = AudiothekProgramSet.imageUrl programSet /\
    AudiothekProgramSet.audiothekPath released
    = AudiothekProgramSet.audiothekPath programSet /\
    AudiothekProgramSet.sharingUrl released = AudiothekProgramSet.sharingUrl programSet /\
    AudiothekProgramSet.description released
    = AudiothekProgramSet.description programSet /\
    AudiothekProgramSet.synopsis released = AudiothekProgramSet.synopsis programSet.
Proof.
  unfold writeFeed. intros H.
  destruct (AudiothekProgramSet.toXML programSet) as [channel|] eqn:Hc;
    [rewrite bind_lift_Ok in H | discriminate].
  destruct (normalize (AudiothekProgramSet.title programSet)) as [normTitle|] eqn:Hn;
    [rewrite bind_lift_Ok in H | discriminate].
  destruct (outputFileName options programSet) as [name|] eqn:Ho;
    [rewrite bind_lift_Ok in H | discriminate].
  unfold writeRSS in H.
  destruct (tostring (Element "rss" [] PNone [channel])) as [doc|] eqn:Hd.
  2: { unfold bind, emit, lift in H. cbn [fst snd] in H. discriminate. }
  unfold bind at 1 in H. unfold emit at 1 in H. cbn [fst snd] in H.
  match type of H with
  | context [lift ?r] => destruct r as [line|] eqn:Hl
  end.
  2: { unfold bind, lift in H. cbn [fst snd] in H. discriminate. }
  rewrite bind_lift_Ok in H. unfold bind, emit, ret in H. cbn [fst snd app] in H.
  injection H as <- <- <-.
  exists channel, doc, name, normTitle, line.
  repeat split; first [assumption | reflexivity].
Qed.

End WriteFeed.

(** ** The loop of [main], step by step *)

Lemma files_app (t1 t2 : list event) : files (t1 ++ t2) = files t1 ++ files t2.
Proof.
  induction t1 as [|ev t1 IH]; [reflexivity |].
  destruct ev; simpl; now rewrite IH.
Qed.

Lemma pauses_app (t1 t2 : list event) : pauses (t1 ++ t2) = (pauses t1 + pauses t2)%nat.
Proof.
  induction t1 as [|ev t1 IH]; [reflexivity |].
  destruct ev; simpl; now rewrite IH.
Qed.

Lemma pause_after_count (count : Z) :
  0 <= count ->
  Z.of_nat (pauses (pause_after (count + 1))) = 1 - ((count + 1) / 100 - count / 100).
Proof.
  intros Hc. unfold pause_after.
  destruct ((count + 1) mod 100 =? 0) eqn:E; cbn [negb pauses Z.of_nat].
  - apply Z.eqb_eq in E. Z.to_euclidean_division_equations. lia.
  - apply Z.eqb_neq in E. Z.to_euclidean_division_equations. lia.
Qed.

Section LoopSteps.
Context {B : Builtins} {W : World}.

(** What a returning feed-writing step leaves in the trace and in the
    index. *)
Lemma writeFeed_entry (options : Options) (rssDir : string)
    (programSet : AudiothekProgramSet.t)
    (r : AudiothekProgramSet.t * (string * string)) (tr : list event) :
  writeFeed options rssDir programSet = (tr, Ok r) ->
  exists name normTitle doc line,
    outputFileName options programSet = Ok name /\
    normalize (AudiothekProgramSet.title programSet) = Ok normTitle /\
    tr = [EWrite (path_join rssDir name) doc; EPrint line] /\
    snd r = (path_join (path_join ".." "rss") name, normTitle).
Proof.
  unfold writeFeed. intros H.
  destruct (AudiothekProgramSet.toXML programSet) as [channel|];
    [rewrite bind_lift_Ok in H | discriminate].
  destruct (normalize (AudiothekProgramSet.title programSet)) as [normTitle|];
    [rewrite bind_lift_Ok in H | discriminate].
  destruct (outputFileName options programSet) as [name|];
    [rewrite bind_lift_Ok in H | discriminate].
  unfold writeRSS in H.
  destruct (tostring (Element "rss" [] PNone [channel])) as [doc|].
  2: { unfold bind, emit, lift in H. cbn [fst snd] in H. discriminate. }
  unfold bind at 1 in H. unfold emit at 1 in H. cbn [fst snd] in H.
  match type of H with
  | context [lift ?x] => destruct x as [line|]
  end.
  2: { unfold bind, lift in H. cbn [fst snd] in H. discriminate. }
  rewrite bind_lift_Ok in H. unfold bind, emit, ret in H. cbn [fst snd app] in H.
  injection H as <- <-.
  exists name, normTitle, doc, line. repeat split; reflexivity.
Qed.

(** One turn of a loop that returns: the episode query, the feed when
    there are items, and either the end at the limit or the pause and the
    rest of the loop. *)
Lemma main_loop_step (options : Options) (rssDir : string) (limit count : Z)
    (programSet : AudiothekProgramSet.t) (rest : list AudiothekProgramSet.t)
    (jinjaVars out : list (string * string)) (tr : list event) :
  main_loop options rssDir limit count (programSet :: rest) jinjaVars = (tr, Ok out) ->
  exists q programSet1 has tw jinjaVars',
    AudiothekProgramSet.queryEpisodes programSet options
    = ([EPost (posted q)], Ok programSet1) /\
    AudiothekProgramSet.hasItems programSet1 = Ok has /\
    (if has : bool
     then exists r, writeFeed options rssDir programSet1 = (tw, Ok r) /\
                    jinjaVars' = jinjaVars ++ [snd r]
     else tw = [] /\ jinjaVars' = jinjaVars) /\
    (if (limit >? 0) && (count + 1 =? limit)
     then tr = [EPost (posted q)] ++ tw /\ out = jinjaVars'
     else exists tr2,
         main_loop options rssDir limit (count + 1) rest jinjaVars' = (tr2, Ok out) /\
         tr = [EPost (posted q)] ++ tw ++ pause_after (count + 1) ++ tr2).
Proof.
  cbn [main_loop]. intros H.
  apply bind_inv in H. destruct H as [(e & _ & He) | (t1 & ps1 & t2 & Hq & H & ->)];
    [discriminate |].
  pose proof (queryEpisodes_returns _ _ _ _ Hq) as (q & _ & _ & _ & -> & _).
  apply bind_inv in H. destruct H as [(e & _ & He) | (t3 & has & t4 & Hh & H & ->)];
    [discriminate |].
  unfold lift in Hh. injection Hh as <- Hh.
  apply bind_inv in H. destruct H as [(e & _ & He) | (tw & jv' & t5 & Hw & H & ->)];
    [discriminate |].
  exists q, ps1, has, tw, jv'.
  split; [exact Hq |]. split; [exact Hh |]. split.
  - destruct has.
    + apply bind_inv in Hw.
      destruct Hw as [(e & _ & He) | (t6 & r & t7 & Hw & Hret & ->)]; [discriminate |].
      unfold ret in Hret. injection Hret as <- <-.
      exists r. now rewrite app_nil_r.
    + unfold ret in Hw. now injection Hw as <- <-.
  - cbv zeta in H.
    destruct ((limit >? 0) && (count + 1 =? limit)).
    + unfold ret in H. injection H as <- <-. now rewrite app_nil_r.
    + apply bind_inv in H.
      destruct H as [(e & _ & He) | (t6 & u & tr2 & Hs & H & ->)]; [discriminate |].
      exists tr2. split; [exact H |].
      unfold pause_after.
      destruct (negb ((count + 1) mod 100 =? 0)); unfold emit, ret in Hs;
        now injection Hs as <-.
Qed.

End LoopSteps.

Section LoopResults.
Context {B : Builtins} {W : World}.

Lemma attempted_stop (limit count : Z) (programSet : AudiothekProgramSet.t)
    (rest : list AudiothekProgramSet.t) :
  (limit >? 0) && (count + 1 =? limit) = true ->
  attempted limit count (programSet :: rest) = [programSet].
Proof.
  intros H. apply andb_true_iff in H. destruct H as [Hl He].
  apply Z.eqb_eq in He. unfold attempted. rewrite Hl.
  replace (count <? limit) with true by (symmetry; apply Z.ltb_lt; lia).
  replace (limit - count) with 1 by lia. reflexivity.
Qed.

Lemma attempted_go (limit count : Z) (programSet : AudiothekProgramSet.t)
    (rest : list AudiothekProgramSet.t) :
  (limit >? 0) && (count + 1 =? limit) = false ->
  attempted limit count (programSet :: rest)
  = programSet :: attempted limit (count + 1) rest.
Proof.
  intros H. unfold attempted.
  destruct (limit >? 0) eqn:Hl; cbn [andb] in *; [| reflexivity].
  apply Z.eqb_neq in H.
  destruct (count <? limit) eqn:Hc.
  - apply Z.ltb_lt in Hc.
    replace (count + 1 <? limit) with true by (symmetry; apply Z.ltb_lt; lia).
    replace (Z.to_nat (limit - count)) with (S (Z.to_nat (limit - (count + 1)))) by lia.
    reflexivity.
  - apply Z.ltb_ge in Hc.
    replace (count + 1 <? limit) with false by (symmetry; apply Z.ltb_ge; lia).
    reflexivity.
Qed.

(** The feed of the candidate of one turn, read off the turn. *)
Lemma feed_of_turn (options : Options) (rssDir : string)
    (programSet programSet1 : AudiothekProgramSet.t) (t1 tw : list event) (has : bool)
    (jinjaVars jinjaVars' : list (string * string)) :
  AudiothekProgramSet.queryEpisodes programSet options = (t1, Ok programSet1) ->
  AudiothekProgramSet.hasItems programSet1 = Ok has ->
  (if has
   then exists r, writeFeed options rssDir programSet1 = (tw, Ok r) /\
                  jinjaVars' = jinjaVars ++ [snd r]
   else tw = [] /\ jinjaVars' = jinjaVars) ->
  files tw = map (fun f => path_join rssDir (fst f)) (feeds_of options [programSet]) /\
  pauses tw = O /\
  jinjaVars' = jinjaVars ++ map (fun f => (path_join (path_join ".." "rss") (fst f), snd f))
                                (feeds_of options [programSet]).
Proof.
  intros Hq Hh Hw. unfold feeds_of, feed_of. cbn [flat_map].
  rewrite Hq. cbn [snd]. rewrite Hh. destruct has.
  - destruct Hw as (r & Hw & ->).
    apply writeFeed_entry in Hw.
    destruct Hw as (name & normTitle & doc & line & Hn & Ht & -> & ->).
    rewrite Hn, Ht. repeat split.
  - destruct Hw as [-> ->]. cbn [app map files]. now rewrite app_nil_r.
Qed.

Lemma feeds_of_cons (options : Options) (programSet : AudiothekProgramSet.t)
    (rest : list AudiothekProgramSet.t) :
  feeds_of options (programSet :: rest)
  = feeds_of options [programSet] ++ feeds_of options rest.
Proof. unfold feeds_of. cbn [flat_map]. now rewrite app_nil_r. Qed.

Lemma main_loop_results (options : Options) (rssDir : string) (limit : Z) :
  forall (candidates : list AudiothekProgramSet.t) (count : Z)
         (jinjaVars out : list (string * string)) (tr : list event),
    main_loop options rssDir limit count candidates jinjaVars = (tr, Ok out) ->
    files tr = map (fun f => path_join rssDir (fst f))
                   (feeds_of options (attempted limit count candidates)) /\
    out = jinjaVars
          ++ map (fun f => (path_join (path_join ".." "rss") (fst f), snd f))
                 (feeds_of options (attempted limit count candidates)).
Proof.
  induction candidates as [|programSet rest IH]; intros count jinjaVars out tr H.
  - cbn [main_loop] in H. unfold ret in H. injection H as <- <-.
    assert (Ha : attempted limit count [] = []).
    { unfold attempted. destruct ((limit >? 0) && (count <? limit)); [| reflexivity].
      now destruct (Z.to_nat (limit - count)). }
    rewrite Ha. cbn. now rewrite app_nil_r.
  - apply main_loop_step in H.
    destruct H as (q & ps1 & has & tw & jv' & Hq & Hh & Hw & H).
    destruct (feed_of_turn options rssDir programSet ps1 _ tw has jinjaVars jv' Hq Hh Hw)
      as (Hfiles & _ & Hjv).
    destruct ((limit >? 0) && (count + 1 =? limit)) eqn:Hstop.
    + destruct H as [-> ->]. rewrite (attempted_stop _ _ _ _ Hstop).
      cbn [app files]. split; [exact Hfiles | exact Hjv].
    + destruct H as (tr2 & Hloop & ->). rewrite (attempted_go _ _ _ _ Hstop).
      destruct (IH _ _ _ _ Hloop) as [IHf IHo].
      rewrite feeds_of_cons, !map_app. split.
      * cbn [app files]. rewrite !files_app, Hfiles, IHf.
        assert (Hp : files (pause_after (count + 1)) = []).
        { unfold pause_after. now destruct (negb _). }
        now rewrite Hp.
      * rewrite IHo, Hjv. now rewrite app_assoc.
Qed.

(** X10. When the loop of [main] returns, the feed files it has opened
    and the index entries it returns are those of the feeds of the
    candidates it worked on (the first [limit] ones with a positive limit,
    all of them otherwise), in order: one file and one entry for each
    candidate whose episode query was answered with at least one item, in
    the output directory under the name made from the template, and none
    for a candidate without items. *)
Theorem main_loop_feeds (options : Options) (rssDir : string) (limit : Z)
    (candidates : list AudiothekProgramSet.t) (out : list (string * string))
    (tr : list event) :
  main_loop options rssDir limit 0 candidates [] = (tr, Ok out) ->
  files tr
  = map (fun f => path_join rssDir (fst f))
        (feeds_of options (if limit >? 0 then firstn (Z.to_nat limit) candidates
                           else candidates)) /\
  out
  = map (fun f => (path_join (path_join ".." "rss") (fst f), snd f))
        (feeds_of options (if limit >? 0 then firstn (Z.to_nat limit) candidates
                           else candidates)) /\
  (forall programSet programSet1,
      snd (AudiothekProgramSet.queryEpisodes programSet options) = Ok programSet1 ->
      AudiothekProgramSet.hasItems programSet1 = Ok false ->
      feeds_of options [programSet] = []).
Proof.
  intros H. apply main_loop_results in H. destruct H as [Hf Ho].
  assert (Ha : attempted limit 0 candidates
               = if limit >? 0 then firstn (Z.to_nat limit) candidates else candidates).
  { unfold attempted. destruct (limit >? 0) eqn:Hl; [| reflexivity].
    rewrite Z.gtb_ltb in Hl. rewrite Hl. cbn [andb]. now rewrite Z.sub_0_r. }
  rewrite Ha in Hf, Ho. split; [exact Hf |]. split; [exact Ho |].
  intros programSet programSet1 Hq Hh. unfold feeds_of, feed_of. cbn [flat_map].
  now rewrite Hq, Hh.
Qed.

Lemma main_loop_pauses (options : Options) (rssDir : string) (limit : Z) :
  forall (candidates : list AudiothekProgramSet.t) (count : Z)
         (jinjaVars out : list (string * string)) (tr : list event),
    0 <= count ->
    main_loop options rssDir limit count candidates jinjaVars = (tr, Ok out) ->
    exists slept : Z,
      slept = (if (limit >? 0) && (count <? limit) &&
                  (limit - count <=? Z.of_nat (List.length candidates))
               then limit - count - 1
               else Z.of_nat (List.length candidates)) /\
      Z.of_nat (pauses tr) = slept - ((count + slept) / 100 - count / 100).
Proof.
  induction candidates as [|programSet rest IH]; intros count jinjaVars out tr Hc H.
  - cbn [main_loop] in H. unfold ret in H. injection H as <- <-.
    eexists. split; [reflexivity |]. cbn [List.length Z.of_nat pauses].
    destruct ((limit >? 0) && (count <? limit) && (limit - count <=? 0)) eqn:E.
    + apply andb_true_iff in E. destruct E as [E E3].
      apply andb_true_iff in E. destruct E as [_ E2].
      apply Z.ltb_lt in E2. apply Z.leb_le in E3. lia.
    + rewrite Z.add_0_r. lia.
  - apply main_loop_step in H.
    destruct H as (q & ps1 & has & tw & jv' & Hq & Hh & Hw & H).
    destruct (feed_of_turn options rssDir programSet ps1 _ tw has jinjaVars jv' Hq Hh Hw)
      as (_ & Hpw & _).
    eexists. split; [reflexivity |].
    destruct ((limit >? 0) && (count + 1 =? limit)) eqn:Hstop.
    + destruct H as [-> _].
      apply andb_true_iff in Hstop. destruct Hstop as [Hl He]. apply Z.eqb_eq in He.
      rewrite Hl.
      replace (count <? limit) with true by (symmetry; apply Z.ltb_lt; lia).
      replace (limit - count <=? Z.of_nat (List.length (programSet :: rest)))
        with true by (symmetry; apply Z.leb_le; cbn [List.length]; lia).
      cbn [andb app pauses]. rewrite Hpw.
      replace (limit - count - 1) with 0 by lia.
      rewrite Z.add_0_r. cbn. lia.
    + destruct H as (tr2 & Hloop & ->).
      destruct (IH (count + 1) jv' out tr2 ltac:(lia) Hloop) as (slept & Hs & Hp).
      cbn [app pauses]. rewrite !pauses_app, Hpw. cbn [Nat.add].
      rewrite Nat2Z.inj_add, Hp, (pause_after_count count Hc).
      assert (Hn : Z.of_nat (List.length (programSet :: rest))
                   = Z.of_nat (List.length rest) + 1) by (cbn [List.length]; lia).
      rewrite Hn.
      destruct (limit >? 0) eqn:Hl; cbn [andb] in Hstop, Hs |- *.
      * apply Z.eqb_neq in Hstop.
        destruct (count <? limit) eqn:Hlt; cbn [andb].
        -- apply Z.ltb_lt in Hlt.
           replace (count + 1 <? limit) with true in Hs
             by (symmetry; apply Z.ltb_lt; lia).
           cbn [andb] in Hs.
           replace (limit - count <=? Z.of_nat (List.length rest) + 1)
             with (limit - (count + 1) <=? Z.of_nat (List.length rest))
             by (apply Bool.eq_true_iff_eq; rewrite !Z.leb_le; lia).
           destruct (limit - (count + 1) <=? Z.of_nat (List.length rest)); subst slept.
           ++ replace (count + (limit - count - 1))
                with (count + 1 + (limit - (count + 1) - 1)) by lia. lia.
           ++ replace (count + (Z.of_nat (List.length rest) + 1))
                with (count + 1 + Z.of_nat (List.length rest)) by lia. lia.
        -- apply Z.ltb_ge in Hlt.
           replace (count + 1 <? limit) with false in Hs
             by (symmetry; apply Z.ltb_ge; lia).
           cbn [andb] in Hs. subst slept.
           replace (count + (Z.of_nat (List.length rest) + 1))
             with (count + 1 + Z.of_nat (List.length rest)) by lia. lia.
      * subst slept.
        replace (count + (Z.of_nat (List.length rest) + 1))
          with (count + 1 + Z.of_nat (List.length rest)) by lia. lia.
Qed.

(** X11. The pauses of a loop that returns.  After every program set it
    has worked on the loop sleeps one second, unless the running count is
    a multiple of 100 and unless the program set is the one that reaches
    the limit: with [n] candidates and no limit reached that makes
    [n - n / 100] pauses, and with the limit [m <= n] reached,
    [(m - 1) - (m - 1) / 100]. *)
Theorem main_loop_sleeps (options : Options) (rssDir : string) (limit : Z)
    (candidates : list AudiothekProgramSet.t) (out : list (string * string))
    (tr : list event) :
  main_loop options rssDir limit 0 candidates [] = (tr, Ok out) ->
  (0 < limit <= Z.of_nat (List.length candidates) ->
   Z.of_nat (pauses tr) = (limit - 1) - (limit - 1) / 100) /\
  (limit <= 0 \/ Z.of_nat (List.length candidates) < limit ->
   Z.of_nat (pauses tr)
   = Z.of_nat (List.length candidates) - Z.of_nat (List.length candidates) / 100).
Proof.
  intros H. apply main_loop_pauses in H; [| lia].
  destruct H as (slept & Hs & Hp). rewrite Z.add_0_l, Z.div_0_l, Z.sub_0_r in Hp by lia.
  rewrite Z.sub_0_r in Hs. split.
  - intros [Hl Hn].
    replace (limit >? 0) with true in Hs by (symmetry; rewrite Z.gtb_ltb; apply Z.ltb_lt; lia).
    replace (0 <? limit) with true in Hs by (symmetry; apply Z.ltb_lt; lia).
    replace (limit <=? Z.of_nat (List.length candidates)) with true in Hs
      by (symmetry; apply Z.leb_le; lia).
    cbn [andb] in Hs. now subst slept.
  - intros Hl.
    assert (E : (limit >? 0) && (0 <? limit) &&
                (limit <=? Z.of_nat (List.length candidates)) = false).
    { destruct Hl as [Hl | Hl].
      - replace (limit >? 0) with false
          by (symmetry; rewrite Z.gtb_ltb; apply Z.ltb_ge; lia). reflexivity.
      - replace (limit <=? Z.of_nat (List.length candidates)) with false
          by (symmetry; apply Z.leb_gt; lia). apply andb_false_r. }
    rewrite E in Hs. now subst slept.
Qed.

End LoopResults.

(** The feed of the populated sample. *)
Lemma writeFeed_returns_witness :
  exists tr released entry,
    @writeFeed sample_builtins default_options "rss/rss" populated_sample
    = (tr, Ok (released, entry)) /\
    entry = ("../rss/ardaudiothek_7.rss", "Show") /\
    AudiothekProgramSet.items released = None /\
    files tr = ["rss/rss/ardaudiothek_7.rss"].
Proof.
  destruct (@writeFeed sample_builtins default_options "rss/rss" populated_sample)
    as [tr [[released entry]|e]] eqn:E; [| vm_compute in E; discriminate].
  exists tr, released, entry. split; [reflexivity |].
  destruct (@writeFeed_returns sample_builtins _ _ _ _ _ _ E)
    as (channel & doc & name & normTitle & line & _ & _ & Hname & Hnorm & -> & ->
        & _ & Hitems & _).
  vm_compute in Hname. injection Hname as <-.
  vm_compute in Hnorm. injection Hnorm as <-.
  repeat split. exact Hitems.
Defined.

(** A cap of 2 on five candidates, each answered with [two_episodes]:
    two feeds, one pause. *)
Lemma main_loop_feeds_witness :
  files (fst (@main_loop sample_builtins (constant_world two_episodes)
                default_options "rss/rss" 2 0 five_candidates []))
  = ["rss/rss/ardaudiothek_1.rss"; "rss/rss/ardaudiothek_2.rss"].
Proof.
  destruct (@main_loop sample_builtins (constant_world two_episodes)
              default_options "rss/rss" 2 0 five_candidates [])
    as [tr [out|e]] eqn:E; [| vm_compute in E; discriminate].
  destruct (@main_loop_feeds sample_builtins (constant_world two_episodes)
              _ _ _ _ _ _ E) as (Hf & _).
  cbn [fst]. rewrite Hf. vm_compute. reflexivity.
Defined.

Lemma main_loop_sleeps_witness :
  pauses (fst (@main_loop sample_builtins (constant_world two_episodes)
                 default_options "rss/rss" 2 0 five_candidates []))
  = 1%nat.
Proof.
  destruct (@main_loop sample_builtins (constant_world two_episodes)
              default_options "rss/rss" 2 0 five_candidates [])
    as [tr [out|e]] eqn:E; [| vm_compute in E; discriminate].
  destruct (@main_loop_sleeps sample_builtins (constant_world two_episodes)
              _ _ _ _ _ _ E) as (H & _).
  cbn [fst]. apply Nat2Z.inj. rewrite H; [reflexivity |].
  cbn. lia.
Defined.

(** ** The pages of a listing *)

Section Pages.
Context {B : Builtins} {W : World}.

Lemma loop_pages (options : Options) (filter : string) (total : Z)
    (page : nat -> list AudiothekProgramSet.t) :
  pages_are options filter page -> 0 <= total ->
  forall (m k : nat) (acc : list AudiothekProgramSet.t) (fuel : nat),
    (m < fuel)%nat ->
    (forall j : nat, (j < m)%nat ->
        Z.of_nat (k + j) * pagination options + pagination options <= total) ->
    total < Z.of_nat (k + m) * pagination options + pagination options ->
    exists tr,
      getProgramSets_loop fuel options filter (PInt total)
                          (Z.of_nat k * pagination options) acc
      = (tr, Ok (acc ++ concat (map page (seq k m)))) /\
      List.length tr = m.
Proof.
  intros Hpages Htot m k acc fuel Hfuel Hin Hout.
  destruct (loop_requests options filter total page Hpages Htot m k acc fuel Hfuel Hin Hout)
    as (tr & Hloop & Htr).
  exists tr. split; [exact Hloop |].
  apply Forall2_same_length in Htr. rewrite <- Htr. apply length_seq.
Qed.

(** X12. The result of [getProgramSets] without categories, for a
    positive page size [p], answers that decode to the pages [page 0],
    [page 1], ... at the offsets [0], [p], ..., and a total count
    [total >= 0] in the first answer: it requests exactly
    [max 1 (total / p)] pages (integer division, rounding down) and
    returns their program sets in the order of the pages; the records from
    the offset [p * (total / p)] on are not requested when [total >= p]. *)
Theorem getProgramSets_pages (options : Options) (total : Z)
    (page : nat -> list AudiothekProgramSet.t) :
  0 < pagination options -> 0 <= total ->
  (forall filter, programSets_filter options [] = Ok filter ->
                  pages_are options filter page) ->
  (forall filter q data,
      programSets_filter options [] = Ok filter ->
      page_query options filter 0 = Ok q ->
      getitem (server (posted q)) "data" = Ok data ->
      page_total data = Ok (PInt total)) ->
  forall fuel : nat,
    (Z.to_nat (Z.max 1 (total / pagination options)) < fuel)%nat ->
    exists tr,
      getProgramSets fuel options []
      = (tr, Ok (concat (map page (seq 0 (Z.to_nat (Z.max 1 (total / pagination options))))))) /\
      List.length tr = Z.to_nat (Z.max 1 (total / pagination options)).
Proof.
  intros Hp Htot Hpages Hfirst fuel Hfuel.
  set (p := pagination options) in *.
  destruct (programSets_filter_nil options) as [filter Hfilter].
  specialize (Hpages filter Hfilter).
  pose proof (Z.div_mod total p ltac:(lia)) as Hdm.
  pose proof (Z.mod_pos_bound total p Hp) as Hr.
  assert (Hq : 0 <= total / p) by (apply Z.div_pos; lia).
  set (m := Z.to_nat (total / p - 1)).
  assert (Hm : Z.of_nat m = Z.max 0 (total / p - 1)) by (unfold m; lia).
  assert (Hn : Z.to_nat (Z.max 1 (total / p)) = S m) by lia.
  rewrite Hn in *.
  destruct fuel as [|fuel]; [lia |].
  destruct (Hpages O) as (q & data & Hquery & Hdata & Hpage).
  change (Z.of_nat 0 * pagination options) with 0 in Hquery.
  pose proof (Hfirst filter q data Hfilter Hquery Hdata) as Htotal.
  destruct (loop_pages options filter total page Hpages Htot m 1 ([] ++ page O) fuel)
    as (tr & Hloop & Hlen).
  - lia.
  - intros j Hj. fold p. nia.
  - fold p. nia.
  - exists (EPost (posted q) :: tr). split; [| cbn [List.length]; now rewrite Hlen].
    unfold getProgramSets. rewrite Hfilter, bind_lift_Ok.
    cbn [getProgramSets_loop].
    change (another_page options (PInt (-1)) 0) with (@Ok bool true).
    rewrite bind_lift_Ok.
    rewrite (fetch_page_run options filter q 0 data (PInt (-1)) (PInt total) (page O)
               Hquery Hdata Hpage (or_introl (conj eq_refl Htotal))).
    unfold bind at 1. cbn [fst snd].
    replace (0 + pagination options) with (Z.of_nat 1 * pagination options) by lia.
    rewrite Hloop. cbn [fst snd app seq map concat]. reflexivity.
Qed.

(** The loop on answers whose total count stays negative. *)
Lemma loop_unknown_total (options : Options) (filter : string) (total : Z) :
  pages_report options filter total ->
  total < 0 ->
  forall (fuel k : nat) (t : Z) (acc : list AudiothekProgramSet.t),
    t < 0 ->
    exists tr,
      getProgramSets_loop fuel options filter (PInt t)
                          (Z.of_nat k * pagination options) acc
      = (tr, Raise OutOfFuel) /\
      List.length tr = fuel.
Proof.
  intros Hdec Htot.
  induction fuel as [|fuel IH]; intros k t acc Ht; cbn [getProgramSets_loop].
  - exists []. now split.
  - assert (Hlt : py_lt (PInt t) (PInt 0) = Ok true).
    { unfold py_lt. simpl. f_equal. apply Z.ltb_lt. lia. }
    unfold another_page. rewrite Hlt. cbn [rbind]. rewrite bind_lift_Ok.
    destruct (Hdec k) as (q & data & page & Hq & Hdata & Hpage & Htotal).
    rewrite (fetch_page_run options filter q _ data (PInt t) (PInt total) page
               Hq Hdata Hpage (or_introl (conj Hlt Htotal))).
    unfold bind at 1. cbn [fst snd].
    replace (Z.of_nat k * pagination options + pagination options)
      with (Z.of_nat (S k) * pagination options) by lia.
    destruct (IH (S k) total (acc ++ page) Htot) as (tr & Hloop & Hlen).
    rewrite Hloop. cbn [fst snd]. exists (EPost (posted q) :: tr).
    split; [reflexivity | cbn [List.length]; now rewrite Hlen].
Qed.

(** The loop on a known total with a page size that is not positive. *)
Lemma loop_no_progress (options : Options) (filter : string) (total : Z) :
  pages_report options filter total ->
  0 <= total -> pagination options <= 0 ->
  forall (fuel k : nat) (acc : list AudiothekProgramSet.t),
    exists tr,
      getProgramSets_loop fuel options filter (PInt total)
                          (Z.of_nat k * pagination options) acc
      = (tr, Raise OutOfFuel) /\
      List.length tr = fuel.
Proof.
  intros Hdec Htot Hp.
  induction fuel as [|fuel IH]; intros k acc; cbn [getProgramSets_loop].
  - exists []. now split.
  - unfold another_page. rewrite (known_total _ Htot). cbn [rbind].
    unfold py_le. cbn [as_num].
    replace (Z.of_nat k * pagination options + pagination options <=? total) with true
      by (symmetry; apply Z.leb_le; nia).
    rewrite bind_lift_Ok.
    destruct (Hdec k) as (q & data & page & Hq & Hdata & Hpage & _).
    rewrite (fetch_page_run options filter q _ data (PInt total) (PInt total) page
               Hq Hdata Hpage (or_intror (conj (known_total _ Htot) eq_refl))).
    unfold bind at 1. cbn [fst snd].
    replace (Z.of_nat k * pagination options + pagination options)
      with (Z.of_nat (S k) * pagination options) by lia.
    destruct (IH (S k) (acc ++ page)) as (tr & Hloop & Hlen).
    rewrite Hloop. cbn [fst snd]. exists (EPost (posted q) :: tr).
    split; [reflexivity | cbn [List.length]; now rewrite Hlen].
Qed.

(** X13. The loop of [getProgramSets] does not end when the API reports a
    negative total count, or when the page size is zero or negative (and
    the total count is not negative): when the page queries at the offsets
    [0, p, 2p, ...] are answered with pages that decode and carry the
    total count [total] (other queries may be answered in any way), the
    loop is still running after any number of turns, having posted one
    request in each of them. *)
Theorem getProgramSets_spins (options : Options) (total : Z) :
  (forall filter, programSets_filter options [] = Ok filter ->
                  pages_report options filter total) ->
  total < 0 \/ pagination options <= 0 ->
  forall fuel : nat,
    exists tr,
      getProgramSets fuel options [] = (tr, Raise OutOfFuel) /\
      List.length tr = fuel.
Proof.
  intros Hdec Hcase fuel.
  destruct (programSets_filter_nil options) as [filter Hfilter].
  specialize (Hdec filter Hfilter).
  unfold getProgramSets. rewrite Hfilter, bind_lift_Ok.
  destruct (Z.ltb_spec total 0) as [Hneg | Hpos].
  - apply (loop_unknown_total options filter total Hdec Hneg fuel O). lia.
  - destruct Hcase as [Hcase | Hp]; [lia |].
    destruct fuel as [|fuel]; [exists []; now split |].
    cbn [getProgramSets_loop].
    change (another_page options (PInt (-1)) 0) with (@Ok bool true).
    rewrite bind_lift_Ok.
    destruct (Hdec O) as (q & data & page & Hq & Hdata & Hpage & Htotal).
    change (Z.of_nat 0 * pagination options) with 0 in Hq.
    rewrite (fetch_page_run options filter q 0 data (PInt (-1)) (PInt total) page
               Hq Hdata Hpage (or_introl (conj eq_refl Htotal))).
    unfold bind at 1. cbn [fst snd].
    replace (0 + pagination options) with (Z.of_nat 1 * pagination options) by lia.
    destruct (loop_no_progress options filter total Hdec Hpos Hp fuel 1%nat ([] ++ page))
      as (tr & Hloop & Hlen).
    rewrite Hloop. cbn [fst snd]. exists (EPost (posted q) :: tr).
    split; [reflexivity | cbn [List.length]; now rewrite Hlen].
Qed.

End Pages.

(** A catalogue of 250 program sets read in pages of 100, every page
    answered with the same record. *)
Lemma getProgramSets_pages_witness :
  exists tr,
    @getProgramSets sample_builtins
       (constant_world (page_answer 250 [sample_listing "7" "Show"])) 3
       (sample_options None None None None 100) []
    = (tr, Ok [sample_programSet "7" "Show"; sample_programSet "7" "Show"]) /\
    List.length tr = 2%nat.
Proof.
  apply (@getProgramSets_pages sample_builtins
           (constant_world (page_answer 250 [sample_listing "7" "Show"]))
           (sample_options None None None None 100) 250
           (fun _ => [sample_programSet "7" "Show"])).
  - reflexivity.
  - discriminate.
  - intros filter _ k. do 2 eexists. split; [reflexivity |]. split; reflexivity.
  - intros filter q data _ _ Hdata. simpl in Hdata. injection Hdata as <-. reflexivity.
  - vm_compute. lia.
Defined.

(** A page size of 0. *)
Lemma getProgramSets_spins_witness :
  exists tr,
    @getProgramSets sample_builtins (constant_world (page_answer 5 [])) 4
       (sample_options None None None None 0) []
    = (tr, Raise OutOfFuel) /\
    List.length tr = 4%nat.
Proof.
  apply (@getProgramSets_spins sample_builtins (constant_world (page_answer 5 []))
           (sample_options None None None None 0) 5).
  - intros filter _ k. do 3 eexists. repeat split.
  - right. discriminate.
Defined.

(** ** The prefixes of a feed *)

Lemma forallb_member {A} (f : A -> bool) (l1 l2 : list A) (x : A) :
  f x = false -> forallb f (l1 ++ x :: l2) = false.
Proof.
  intros H. rewrite forallb_app. cbn [forallb]. rewrite H.
  now rewrite andb_false_r.
Qed.

Lemma prefixes_bound_child (scope : list string) (tag : string)
    (attrib : list (string * pyval)) (text : pyval) (l1 l2 : list element)
    (x : element) :
  prefixes_bound (declared attrib ++ scope) x = false ->
  prefixes_bound scope (Element tag attrib text (l1 ++ x :: l2)) = false.
Proof.
  intros H. cbn [prefixes_bound]. rewrite forallb_member by exact H.
  now rewrite andb_false_r.
Qed.

Section Prefixes.
Context {B : Builtins}.

(** X14. No feed of the script is well-formed for a namespace-aware
    parser.  The channel of every program set has the child [atom:link],
    neither the channel nor the [rss] root around it carries an
    attribute, and so the prefix [atom] is used without a declaration;
    likewise the element of every episode uses the prefix [media] (in
    [media:content]) in every scope that does not declare it. *)
Theorem feed_prefixes_unbound :
  (forall (programSet : AudiothekProgramSet.t) (channel : element),
      AudiothekProgramSet.toXML programSet = Ok channel ->
      In "atom:link" (map tag_of (children_of channel)) /\
      attrib_of channel = [] /\
      prefixes_bound ["xml"; "xmlns"] (Element "rss" [] PNone [channel]) = false) /\
  (forall (item : AudiothekItem.t) (e : element) (scope : list string),
      AudiothekItem.toXML item = Ok e ->
      existsb (String.eqb "media") scope = false ->
      prefixes_bound scope e = false).
Proof.
  split.
  - intros programSet channel H. unfold AudiothekProgramSet.toXML in H.
    destruct (py_html_escape (AudiothekProgramSet.title programSet)) as [t|];
      [| discriminate].
    destruct (AudiothekProgramSet.showImage programSet) as [img|]; [| discriminate].
    destruct (py_html_escape (AudiothekProgramSet.synopsis programSet)) as [sy|];
      [| discriminate].
    destruct (AudiothekProgramSet.items programSet) as [l|]; [| discriminate].
    cbn [rbind] in H.
    destruct (mapR AudiothekItem.toXML (filter AudiothekItem.valid l)) as [nodes|];
      [| discriminate].
    cbn [rbind] in H. injection H as <-.
    cbn [children_of attrib_of app]. split; [| split; [reflexivity |]].
    + cbn [map In]. right. right. rewrite map_app, in_app_iff. right.
      cbn [map tag_of In]. tauto.
    + assert (Ha : prefixes_bound ["xml"; "xmlns"]
                     (Element "atom:link"
                        [("href", PStr "ardaudiothek.html"); ("rel", PStr "self");
                         ("type", PStr "application/rss+xml")] PNone []) = false)
        by reflexivity.
      cbn [prefixes_bound declared flat_map app forallb] in Ha |- *.
      rewrite forallb_app. cbn [forallb prefixes_bound declared flat_map app].
      rewrite Ha. now rewrite !andb_false_r.
  - intros item e scope H Hs. unfold AudiothekItem.toXML in H.
    destruct (py_html_escape (AudiothekItem.title item)) as [t|]; [| discriminate].
    destruct (py_html_escape (AudiothekItem.synopsis item)) as [d|]; [| discriminate].
    cbn [rbind] in H.
    assert (Hm : forall a, prefixes_bound scope
                   (Element "media:content"
                      [("url", a); ("medium", PStr "audio");
                       ("type", PStr "audio/mpeg");
                       ("duration", PStr (py_str (AudiothekItem.duration item)))]
                      PNone []) = false).
    { intros a. cbn [prefixes_bound].
      change (declared [("url", a); ("medium", PStr "audio"); ("type", PStr "audio/mpeg");
                        ("duration", PStr (py_str (AudiothekItem.duration item)))])
        with (@nil string).
      cbn [app]. unfold bound at 1.
      change (prefix_of "media:content") with (Some "media"). cbv beta iota.
      now rewrite Hs. }
    destruct (truthy (AudiothekItem.imageUrl item)).
    + destruct (py_html_escape (AudiothekItem.imageUrl item)) as [u|]; [| discriminate].
      cbn [rbind] in H.
      destruct (match AudiothekItem.programSet item with
                | Some owner_title => py_html_escape owner_title
                | None => Ok PNone
                end) as [it|]; [| discriminate].
      cbn [rbind] in H. injection H as <-.
      apply (prefixes_bound_child scope "item" [] PNone [_; _; _; _; _]). apply Hm.
    + injection H as <-.
      apply (prefixes_bound_child scope "item" [] PNone [_; _; _; _; _]). apply Hm.
Qed.

End Prefixes.

(** The feed of the populated sample. *)
Lemma feed_prefixes_unbound_witness :
  exists channel,
    @AudiothekProgramSet.toXML sample_builtins populated_sample = Ok channel /\
    prefixes_bound ["xml"; "xmlns"] (Element "rss" [] PNone [channel]) = false.
Proof.
  destruct (@AudiothekProgramSet.toXML sample_builtins populated_sample)
    as [channel|e] eqn:E; [| vm_compute in E; discriminate].
  exists channel. split; [reflexivity |].
  apply (proj1 (@feed_prefixes_unbound sample_builtins) populated_sample channel E).
Defined.

(** ** The index of [main] *)

Section SortFacts.
Context {A : Type} (key : A -> string).

Lemma ltb_false_leb (s t : string) : String.ltb s t = false -> String.leb t s = true.
Proof.
  unfold String.ltb, String.leb. rewrite (String.compare_antisym s t).
  now destruct (String.compare t s).
Qed.

Lemma ltb_true_leb (s t : string) : String.ltb s t = true -> String.leb s t = true.
Proof. unfold String.ltb, String.leb. now destruct (String.compare s t). Qed.

Lemma insert_sorted_perm (x : A) (l : list A) :
  Permutation (insert_sorted key x l) (x :: l).
Proof.
  induction l as [|y l IH]; cbn [insert_sorted]; [reflexivity |].
  destruct (String.ltb (key y) (key x)); [| reflexivity].
  rewrite IH. apply perm_swap.
Qed.

Lemma list_sort_perm (l : list A) : Permutation (list_sort key l) l.
Proof.
  induction l as [|x l IH]; cbn [list_sort]; [reflexivity |].
  rewrite insert_sorted_perm. now constructor.
Qed.

Lemma insert_sorted_sorted (x : A) (l : list A) :
  Sorted (fun a b => String.leb (key a) (key b) = true) l ->
  Sorted (fun a b => String.leb (key a) (key b) = true) (insert_sorted key x l).
Proof.
  induction l as [|y l IH]; intros Hs; cbn [insert_sorted].
  - repeat constructor.
  - destruct (String.ltb (key y) (key x)) eqn:E.
    + apply Sorted_inv in Hs. destruct Hs as [Hs Hd]. constructor; [now apply IH |].
      destruct l as [|z l]; cbn [insert_sorted].
      * constructor. now apply ltb_true_leb.
      * destruct (String.ltb (key z) (key x)).
        -- constructor. now inversion Hd.
        -- constructor. now apply ltb_true_leb.
    + constructor; [exact Hs |]. constructor. now apply ltb_false_leb.
Qed.

Lemma list_sort_sorted (l : list A) :
  Sorted (fun a b => String.leb (key a) (key b) = true) (list_sort key l).
Proof.
  induction l as [|x l IH]; cbn [list_sort]; [constructor |].
  now apply insert_sorted_sorted.
Qed.

End SortFacts.

(** Sorting commutes with a map that keeps the keys. *)
Lemma list_sort_map {A A'} (key : A -> string) (key' : A' -> string) (f : A -> A')
    (l : list A) :
  (forall x, key' (f x) = key x) ->
  list_sort key' (map f l) = map f (list_sort key l).
Proof.
  intros Hk. induction l as [|x l IH]; cbn [map list_sort]; [reflexivity |].
  rewrite IH. generalize (list_sort key l) as s. intros s.
  induction s as [|y s IHs]; cbn [map insert_sorted]; [reflexivity |].
  rewrite !Hk. destruct (String.ltb (key y) (key x)); cbn [map]; [now rewrite IHs | reflexivity].
Qed.

Lemma group_append_keys (k : string) (e : string * string) (d : groups) (k' : string) :
  In k' (map fst (group_append k e d)) <-> k' = k \/ In k' (map fst d).
Proof.
  induction d as [|[k0 l0] d IH]; cbn [group_append map fst In].
  - intuition.
  - destruct (String.eqb k k0) eqn:E; cbn [map fst In].
    + apply String.eqb_eq in E. subst k0. intuition.
    + rewrite IH. intuition.
Qed.

Lemma group_append_NoDup (k : string) (e : string * string) (d : groups) :
  NoDup (map fst d) -> NoDup (map fst (group_append k e d)).
Proof.
  induction d as [|[k0 l0] d IH]; cbn [group_append map fst]; intros H.
  - repeat constructor. intros [].
  - destruct (String.eqb k k0) eqn:E; cbn [map fst]; [exact H |].
    apply NoDup_cons_iff in H. destruct H as [Hn Hd].
    constructor; [| now apply IH].
    rewrite group_append_keys. intros [-> | Hin]; [| contradiction].
    now rewrite String.eqb_refl in E.
Qed.

Lemma group_append_nonempty (k : string) (e : string * string) (d : groups) :
  Forall (fun g => snd g <> []) d ->
  Forall (fun g => snd g <> []) (group_append k e d).
Proof.
  induction d as [|[k0 l0] d IH]; cbn [group_append]; intros H.
  - repeat constructor. discriminate.
  - apply Forall_cons_iff in H. destruct H as [H0 H].
    destruct (String.eqb k k0).
    + constructor; [| exact H]. cbn [snd]. now destruct l0.
    + constructor; [exact H0 | now apply IH].
Qed.

Lemma group_append_perm (k : string) (e : string * string) (d : groups) :
  Permutation (concat (map snd (group_append k e d))) (concat (map snd d) ++ [e]).
Proof.
  induction d as [|[k0 l0] d IH]; cbn [group_append map snd concat app]; [reflexivity |].
  destruct (String.eqb k k0); cbn [map snd concat].
  - rewrite <- !app_assoc. apply Permutation_app_head. apply Permutation_app_comm.
  - rewrite IH. now rewrite app_assoc.
Qed.

(** The list of a key holds the entries of that key, in the order in
    which they came. *)
Lemma group_append_members (k : string) (e : string * string) (d : groups)
    (F F' : string -> list (string * string)) :
  (forall k', F' k' = F k' ++ (if String.eqb k k' then [e] else [])) ->
  NoDup (map fst d) ->
  (~ In k (map fst d) -> F k = []) ->
  Forall (fun g => snd g = F (fst g)) d ->
  Forall (fun g => snd g = F' (fst g)) (group_append k e d).
Proof.
  intros HF'. induction d as [|[k0 l0] d IH]; cbn [group_append map fst]; intros Hd Hk H.
  - constructor; [| constructor]. cbn [fst snd].
    rewrite HF', String.eqb_refl, Hk; [reflexivity | intros []].
  - apply NoDup_cons_iff in Hd. destruct Hd as [Hn Hd].
    apply Forall_cons_iff in H. cbn [fst snd] in H. destruct H as [H0 H].
    destruct (String.eqb k k0) eqn:E.
    + apply String.eqb_eq in E. subst k0. constructor.
      * cbn [fst snd]. now rewrite HF', String.eqb_refl, H0.
      * rewrite Forall_forall in *. intros g Hg. rewrite HF'.
        destruct (String.eqb k (fst g)) eqn:E'.
        -- apply String.eqb_eq in E'. exfalso. apply Hn. rewrite E'. now apply in_map.
        -- rewrite app_nil_r. now apply H.
    + constructor.
      * cbn [fst snd]. now rewrite HF', E, app_nil_r.
      * apply IH; [exact Hd | | exact H].
        intros Hnk. apply Hk. cbn [In]. intros [<- | Hin]; [| contradiction].
        now rewrite String.eqb_refl in E.
Qed.

Section IndexFacts.
Context {B : Builtins} {C : Casing}.

Lemma programsByChar_inv (l seen : list (string * string)) (d : groups) :
  NoDup (map fst d) ->
  Forall (fun g => snd g <> []) d ->
  Forall (fun g => snd g = filter (of_initial (fst g)) seen) d ->
  (forall e, In e seen -> In (initial e) (map fst d)) ->
  Permutation (concat (map snd d)) seen ->
  let d' := fold_left (fun d e => group_append (initial e) e d) l d in
  NoDup (map fst d') /\
  Forall (fun g => snd g <> []) d' /\
  Forall (fun g => snd g = filter (of_initial (fst g)) (seen ++ l)) d' /\
  (forall e, In e (seen ++ l) -> In (initial e) (map fst d')) /\
  Permutation (concat (map snd d')) (seen ++ l).
Proof.
  revert seen d. induction l as [|e l IH]; intros seen d Hd Hn Hm Hc Hp; cbn [fold_left].
  - rewrite app_nil_r. repeat split; assumption.
  - replace (seen ++ e :: l) with ((seen ++ [e]) ++ l) by now rewrite <- app_assoc.
    apply IH.
    + now apply group_append_NoDup.
    + now apply group_append_nonempty.
    + apply (group_append_members (initial e) e d
               (fun k => filter (of_initial k) seen)
               (fun k => filter (of_initial k) (seen ++ [e]))).
      * intros k'. rewrite filter_app. cbn [filter]. unfold of_initial at 2.
        now destruct (String.eqb (initial e) k').
      * exact Hd.
      * intros Hnk. destruct (filter (of_initial (initial e)) seen) as [|x r] eqn:Ef;
          [reflexivity |].
        exfalso. assert (Hx : In x (filter (of_initial (initial e)) seen))
          by (rewrite Ef; now left).
        apply filter_In in Hx. destruct Hx as [Hx Hi]. unfold of_initial in Hi.
        apply String.eqb_eq in Hi. apply Hnk. rewrite <- Hi. now apply Hc.
      * exact Hm.
    + intros x Hx. rewrite group_append_keys. apply in_app_iff in Hx.
      destruct Hx as [Hx | [<- | []]]; [right; now apply Hc | now left].
    + rewrite group_append_perm. now apply Permutation_app_tail.
Qed.

Lemma format_anchor (k : string) : pyformat "#%s" [PStr k] = Ok ("#" ^^ k).
Proof.
  unfold pyformat. cbn. unfold pad, truncate. cbn.
  induction k as [|c k IH]; [reflexivity |]. cbn.
  injection IH as IH. now rewrite IH.
Qed.

Lemma mapR_map {A' C'} (f : A' -> result C') (g : A' -> C') (l : list A') :
  (forall a, f a = Ok (g a)) -> mapR f l = Ok (map g l).
Proof.
  intros H. induction l as [|a l IH]; cbn [mapR map]; [reflexivity |].
  now rewrite H, IH.
Qed.

Lemma sort_groups_perm (d : groups) :
  Permutation (concat (map snd (sort_groups d))) (concat (map snd d)).
Proof.
  induction d as [|g d IH]; cbn [sort_groups map concat snd]; [reflexivity |].
  apply Permutation_app; [apply list_sort_perm | exact IH].
Qed.

Lemma Forall2_maps {A' B' C'} (R : B' -> C' -> Prop) (f : A' -> B') (g : A' -> C')
    (l : list A') :
  Forall (fun a => R (f a) (g a)) l -> Forall2 R (map f l) (map g l).
Proof. induction 1; cbn [map]; constructor; assumption. Qed.

(** X15. The index data of [main].  For every list of entries the block
    returns; each initial that occurs among the entries gets exactly one
    section, keyed by its escaped upper-case form, which holds the entries
    of that initial and no others, sorted by title; every entry is in the
    sections exactly once; the sections are ordered by their keys; and
    the anchors of [letters] are those of the sections, one for one and in
    the same order. *)
Theorem index_sections (jinjaVars : list (string * string)) :
  exists (anchors : list (string * string)) (sections : groups) (initials : list string),
    index_data jinjaVars = Ok (anchors, sections) /\
    NoDup initials /\
    (forall e, In e jinjaVars -> In (initial e) initials) /\
    Forall2 (fun initChar section =>
               fst section = html_escape (upper initChar) /\
               snd section <> [] /\
               Permutation (snd section) (filter (of_initial initChar) jinjaVars) /\
               Sorted (fun a b => String.leb (snd a) (snd b) = true) (snd section))
            initials sections /\
    Permutation (concat (map snd sections)) jinjaVars /\
    Sorted (fun a b => String.leb (fst a) (fst b) = true) sections /\
    anchors = map (fun section => ("#" ^^ fst section, fst section)) sections.
Proof.
  destruct (programsByChar_inv jinjaVars [] [] (NoDup_nil _) (Forall_nil _) (Forall_nil _)
              (fun e (H : In e []) => match H with end) (perm_nil _))
    as (Hd & Hn & Hm & Hc & Hp).
  cbn [app] in Hm, Hc, Hp. fold (programsByChar jinjaVars) in Hd, Hn, Hm, Hc, Hp.
  set (d0 := programsByChar jinjaVars) in *.
  set (k := fun g : string * list (string * string) => html_escape (upper (fst g))).
  set (f := fun g : string * list (string * string) => (k g, snd g)).
  set (h := fun g : string * list (string * string) => ("#" ^^ k g, k g)).
  set (L := list_sort k (sort_groups d0)).
  assert (HL : Permutation L (sort_groups d0)) by apply list_sort_perm.
  assert (Hod : orderedData (sort_groups d0) = map f L).
  { unfold orderedData. now apply list_sort_map. }
  assert (Hle : letters (sort_groups d0) = Ok (map h L)).
  { unfold letters.
    rewrite (mapR_map _ h) by (intros g; now rewrite format_anchor).
    cbn [rbind]. f_equal. now apply list_sort_map. }
  assert (Hkeys : map fst (sort_groups d0) = map fst d0).
  { unfold sort_groups. rewrite map_map. reflexivity. }
  exists (map h L), (map f L), (map fst L).
  split. { unfold index_data. cbv zeta. fold d0. now rewrite Hle, Hod. }
  split. { apply (Permutation_NoDup (l := map fst d0)); [| exact Hd].
           rewrite <- Hkeys. symmetry. now apply Permutation_map. }
  split. { intros e He. apply (Permutation_in (l := map fst d0)); [| now apply Hc].
           rewrite <- Hkeys. symmetry. now apply Permutation_map. }
  split.
  { apply Forall2_maps. apply (Permutation_Forall (Permutation_sym HL)).
    unfold sort_groups. apply Forall_map.
    rewrite Forall_forall in *. intros g Hg. unfold f, k. cbn [fst snd].
    split; [reflexivity |]. split.
    - intros E. apply (Hn g Hg). apply Permutation_nil.
      rewrite <- E. apply list_sort_perm.
    - split; [| apply list_sort_sorted].
      rewrite <- (Hm g Hg). apply list_sort_perm. }
  split.
  { rewrite map_map. cbn [f snd]. rewrite <- flat_map_concat_map.
    rewrite (Permutation_flat_map _ HL). rewrite flat_map_concat_map.
    rewrite sort_groups_perm. exact Hp. }
  split. { rewrite <- Hod. apply list_sort_sorted. }
  rewrite map_map. reflexivity.
Qed.

End IndexFacts.

(** ** Feeds of textual program sets *)

Lemma element_induction (P : element -> Prop) :
  (forall tag attrib text children,
      Forall P children -> P (Element tag attrib text children)) ->
  forall e, P e.
Proof.
  intros H. fix IH 1. intros [tag attrib text children]. apply H.
  induction children as [|c children IHc]; constructor; [apply IH | exact IHc].
Qed.

Lemma write_attrs_str (attrib : list (string * pyval)) :
  forallb (fun kv => is_str (snd kv)) attrib = true ->
  exists s, write_attrs attrib = Ok s.
Proof.
  induction attrib as [|[k v] attrib IH]; cbn [forallb write_attrs snd]; intros H.
  - now exists "".
  - apply andb_true_iff in H. destruct H as [Hv H].
    destruct (IH H) as (r & ->). destruct v; try discriminate.
    unfold write_attr. cbn [snd fst rbind]. now eexists.
Qed.

Lemma serialize_writable (e : element) :
  writable e = true -> forall ind, exists doc, serialize ind e = Ok doc.
Proof.
  induction e as [tag attrib text children IH] using element_induction.
  cbn [writable]. intros H ind.
  apply andb_true_iff in H. destruct H as [H Hc].
  apply andb_true_iff in H. destruct H as [Ha Ht].
  cbn [serialize]. destruct (write_attrs_str _ Ha) as (attrs & ->). cbn [rbind].
  destruct children as [|c children].
  - destruct text; try discriminate; cbn [write_text truthy rbind negb].
    + now eexists.
    + destruct (negb (String.eqb s "")); now eexists.
  - assert (Ht' : exists t, (let? text' := indented_text (ind ^^ "    ") text in
                             write_text text') = Ok t).
    { destruct text; try discriminate; unfold indented_text; cbn [truthy negb rbind].
      - now eexists.
      - destruct (String.eqb s ""); cbn [negb rbind write_text]; [now eexists |].
        destruct (blank s); cbn [write_text]; now eexists. }
    destruct Ht' as (t & Ht').
    destruct (indented_text (ind ^^ "    ") text) as [text'|]; [| discriminate].
    cbn [rbind] in Ht' |- *. rewrite Ht'. cbn [rbind].
    match goal with
    | |- exists doc, rbind ?m _ = Ok doc => assert (Hb : exists body, m = Ok body)
    end.
    { clear - IH Hc. revert c IH Hc.
      induction children as [|c2 children IHl]; intros c IH Hc;
        pose proof (Forall_inv IH) as IH0; apply Forall_inv_tail in IH;
        cbn [forallb] in Hc; apply andb_true_iff in Hc; destruct Hc as [Hc0 Hc];
        destruct (IH0 Hc0 (ind ^^ "    ")) as (x & Hx).
      - rewrite Hx. now eexists.
      - cbn [rbind]. rewrite Hx. cbn [rbind].
        destruct (IHl c2 IH Hc) as (r & ->). now eexists. }
    destruct Hb as (body & ->). now eexists.
Qed.

Section TextualFeeds.
Context {B : Builtins}.

Lemma item_toXML_writable (item : AudiothekItem.t) :
  textual_item item = true ->
  exists e, AudiothekItem.toXML item = Ok e /\ writable e = true.
Proof.
  unfold textual_item. intros H.
  repeat (apply andb_true_iff in H; destruct H as [H ?]).
  destruct item as [i t dt du dl sh de sy v im ps].
  cbn [AudiothekItem.title AudiothekItem.synopsis AudiothekItem.sharingUrl
       AudiothekItem.downloadUrl AudiothekItem.dateTime AudiothekItem.imageUrl
       AudiothekItem.programSet] in *.
  unfold AudiothekItem.toXML.
  cbn [AudiothekItem.title AudiothekItem.synopsis AudiothekItem.sharingUrl
       AudiothekItem.downloadUrl AudiothekItem.dateTime AudiothekItem.imageUrl
       AudiothekItem.programSet AudiothekItem.duration].
  destruct t; try discriminate. destruct sy; try discriminate.
  destruct dl; try discriminate.
  cbn [py_html_escape rbind].
  destruct im as [| | |u| |]; try discriminate; cbn [truthy].
  - eexists. split; [reflexivity |].
    cbn [writable forallb snd is_str andb str_or_none app].
    destruct sh; try discriminate; destruct dt; try discriminate; reflexivity.
  - destruct (negb (String.eqb u "")).
    + cbn [py_html_escape rbind].
      destruct ps as [o|].
      * destruct o; try discriminate. cbn [py_html_escape rbind].
        eexists. split; [reflexivity |].
        cbn [writable forallb snd is_str andb str_or_none app].
        destruct sh; try discriminate; destruct dt; try discriminate; reflexivity.
      * cbn [rbind]. eexists. split; [reflexivity |].
        cbn [writable forallb snd is_str andb str_or_none app].
        destruct sh; try discriminate; destruct dt; try discriminate; reflexivity.
    + eexists. split; [reflexivity |].
      cbn [writable forallb snd is_str andb str_or_none app].
      destruct sh; try discriminate; destruct dt; try discriminate; reflexivity.
Qed.

Lemma items_toXML_writable (l : list AudiothekItem.t) :
  forallb (fun item => negb (AudiothekItem.valid item) || textual_item item) l = true ->
  exists nodes, mapR AudiothekItem.toXML (filter AudiothekItem.valid l) = Ok nodes /\
                forallb writable nodes = true.
Proof.
  induction l as [|item l IH]; cbn [forallb filter]; intros H.
  - now exists [].
  - apply andb_true_iff in H. destruct H as [Hi H].
    destruct (IH H) as (nodes & Hn & Hw).
    destruct (AudiothekItem.valid item); cbn [negb orb] in Hi.
    + destruct (item_toXML_writable item Hi) as (e & He & Hwe).
      cbn [mapR]. rewrite He, Hn. cbn [rbind]. eexists. split; [reflexivity |].
      cbn [forallb]. now rewrite Hwe, Hw.
    + now exists nodes.
Qed.

Lemma programSet_toXML_writable (programSet : AudiothekProgramSet.t) :
  textual_programSet programSet = true ->
  exists channel, AudiothekProgramSet.toXML programSet = Ok channel /\
                  writable channel = true.
Proof.
  unfold textual_programSet. intros H.
  repeat (apply andb_true_iff in H; destruct H as [H ?]).
  destruct programSet as [i t sh de sy rp ap im its].
  cbn [AudiothekProgramSet.title AudiothekProgramSet.synopsis
       AudiothekProgramSet.sharingUrl AudiothekProgramSet.imageUrl
       AudiothekProgramSet.items] in *.
  destruct its as [l|]; [| discriminate].
  match goal with Hl : forallb _ l = true |- _ =>
    destruct (items_toXML_writable l Hl) as (nodes & Hn & Hw) end.
  unfold AudiothekProgramSet.toXML, AudiothekProgramSet.showImage.
  cbn [AudiothekProgramSet.title AudiothekProgramSet.synopsis
       AudiothekProgramSet.sharingUrl AudiothekProgramSet.imageUrl
       AudiothekProgramSet.items AudiothekProgramSet.audiothekPath].
  destruct t; try discriminate. destruct sy; try discriminate.
  cbn [py_html_escape rbind]. rewrite Hn.
  assert (Hlink : exists l, pyformat "https://www.ardaudiothek.de%s" [ap] = Ok l).
  { unfold pyformat. cbn. unfold pad, truncate. cbn.
    destruct (format_from Copy "" []) eqn:E; [| discriminate E]. now eexists. }
  destruct Hlink as (lk & Hlk).
  destruct im as [| | |u| |]; try discriminate; cbn [is_none negb rbind py_html_escape].
  - eexists. split; [reflexivity |].
    cbn [writable forallb snd is_str andb str_or_none app].
    rewrite Hw. destruct sh; try discriminate; reflexivity.
  - destruct (negb (is_none ap)).
    + rewrite Hlk. cbn [rbind]. eexists. split; [reflexivity |].
      cbn [writable forallb snd is_str andb str_or_none app].
      rewrite Hw. destruct sh; try discriminate; reflexivity.
    + cbn [rbind]. eexists. split; [reflexivity |].
      cbn [writable forallb snd is_str andb str_or_none app].
      rewrite Hw. destruct sh; try discriminate; reflexivity.
Qed.

End TextualFeeds.

Section FeedSerialized.
Context {B : Builtins}.

(** X16. The feed of a program set whose fields are texts is always
    built and serialized.  When title and synopsis are strings, sharing
    URL and image URL strings or [None], and the valid episodes textual,
    [toXML] returns the channel, and indenting and serializing the [rss]
    root around it yields the document: no exception arises before the
    file is written.  Episodes built by the constructor from string
    fields (with any duration and a date that may be missing) and owned
    by a program set with a string title are textual. *)
Theorem textual_feed_serializes :
  (forall programSet : AudiothekProgramSet.t,
      textual_programSet programSet = true ->
      exists channel doc,
        AudiothekProgramSet.toXML programSet = Ok channel /\
        tostring (Element "rss" [] PNone [channel]) = Ok doc) /\
  (forall (id duration dateTime : pyval)
          (title downloadUrl sharingUrl description synopsis imageUrl owner : string),
      str_or_none dateTime = true ->
      exists item,
        AudiothekItem.init id (PStr title) duration dateTime (PStr downloadUrl)
                           (PStr sharingUrl) (PStr description) (PStr synopsis)
                           (PStr imageUrl) = Ok item /\
        AudiothekItem.valid item = true /\
        textual_item (AudiothekItem.set_programSet (Some (PStr owner)) item) = true).
Proof.
  split.
  - intros programSet Ht.
    destruct (programSet_toXML_writable programSet Ht) as (channel & Hc & Hw).
    destruct (serialize_writable (Element "rss" [] PNone [channel])) with (ind := newline)
      as (doc & Hdoc).
    { cbn [writable forallb str_or_none andb]. now rewrite Hw. }
    now exists channel, doc.
  - intros id duration dateTime title downloadUrl sharingUrl description synopsis
           imageUrl owner Hd.
    unfold AudiothekItem.init, AudiothekItem.or_empty. cbn [py_len rbind is_none negb].
    destruct (slen imageUrl >? 0); cbn [py_replace rbind];
      (eexists; split; [reflexivity |]; split; [reflexivity |]);
      unfold textual_item, AudiothekItem.set_programSet;
      cbn [AudiothekItem.title AudiothekItem.synopsis AudiothekItem.sharingUrl
           AudiothekItem.downloadUrl AudiothekItem.dateTime AudiothekItem.imageUrl
           AudiothekItem.programSet is_str str_or_none andb];
      destruct (slen sharingUrl >? 0), (slen synopsis >? 0), dateTime;
      try discriminate; reflexivity.
Qed.

End FeedSerialized.

(** The populated sample is textual, and its feed is serialized. *)
Lemma textual_feed_serializes_witness :
  textual_programSet populated_sample = true /\
  exists channel doc,
    @AudiothekProgramSet.toXML sample_builtins populated_sample = Ok channel /\
    @tostring (Element "rss" [] PNone [channel]) = Ok doc.
Proof.
  split; [vm_compute; reflexivity |].
  apply (proj1 (@textual_feed_serializes sample_builtins) populated_sample).
  vm_compute. reflexivity.
Defined.

(** ** The footprint of a run *)


Section Footprint.
Context {B : Builtins} {W : World}.
Variables (options : Options) (rssDir : string).








End Footprint.

Section MainFootprint.
Context {B : Builtins} {W : World} {C : Casing} {S : Site}.


End MainFootprint.

(** ** The text of the listing request *)

Lemma append_empty (s : string) : s ^^ "" = s.
Proof. induction s as [|c s IH]; [reflexivity |]. cbn. now rewrite IH. Qed.

Lemma append_assoc (s t u : string) : (s ^^ t) ^^ u = s ^^ t ^^ u.
Proof. induction s as [|c s IH]; [reflexivity |]. cbn. now rewrite IH. Qed.

Lemma bind_head {A C} (m : M A) (k : A -> M C) (ev : event) (t : list event) :
  fst m = ev :: t -> exists rest, fst (bind m k) = ev :: rest.
Proof.
  intros H. unfold bind. destruct (snd m); cbn [fst]; rewrite H; now eexists.
Qed.

Section ListingRequest.
Context {B : Builtins} {W : World}.

Lemma search_filter_text (options : Options) :
  programSets_filter options []
  = Ok match programSearch options with
       | Some term =>
           "filter:{title:{likeInsensitive:" ^^ dq ^^ "%" ^^ term ^^ "%" ^^ dq ^^ "}},"
       | None => ""
       end.
Proof.
  unfold programSets_filter.
  destruct (programSearch options) as [term|]; [| reflexivity].
  cbn [List.length Z.of_nat Z.gtb Z.compare rbind app].
  unfold pyformat, dq, dquote. cbn. unfold pad, truncate. cbn.
  rewrite ?append_empty, ?append_assoc. reflexivity.
Qed.

Lemma page_query_text (options : Options) (filter : string) (offset : Z) :
  page_query options filter offset
  = Ok ("programSets(" ^^ filter ^^ ",first:" ^^ dec (pagination options)
        ^^ ",offset:" ^^ dec offset
        ^^ ",orderBy:LAST_ITEM_ADDED_DESC){edges{node{title, id, sharingUrl, description, synopsis}}, totalCount}").
Proof.
  unfold page_query, pyformat. cbn. unfold pad, truncate. cbn.
  rewrite ?append_empty, ?append_assoc. reflexivity.
Qed.

(** X18. The first request of [getProgramSets] without categories,
    whatever the API answers: the listing query with the page size, the
    offset 0 and the filter clause, which is empty without a program
    search term and otherwise holds the term as it was given, unescaped,
    between two [%] wildcards. *)
Theorem first_listing_request (fuel : nat) (options : Options) :
  exists rest,
    fst (getProgramSets (S fuel) options [])
    = EPost (posted ("programSets("
                     ^^ match programSearch options with
                        | Some term =>
                            "filter:{title:{likeInsensitive:" ^^ dq ^^ "%" ^^ term
                            ^^ "%" ^^ dq ^^ "}},"
                        | None => ""
                        end
                     ^^ ",first:" ^^ dec (pagination options) ^^ ",offset:0"
                     ^^ ",orderBy:LAST_ITEM_ADDED_DESC){edges{node{title, id, sharingUrl, description, synopsis}}, totalCount}"))
      :: rest.
Proof.
  unfold getProgramSets. rewrite search_filter_text, bind_lift_Ok.
  cbn [getProgramSets_loop].
  change (another_page options (PInt (-1)) 0) with (@Ok bool true).
  rewrite bind_lift_Ok. unfold fetch_page.
  rewrite page_query_text, bind_lift_Ok.
  match goal with
  | |- exists rest, fst (bind (bind ?e ?k1) ?k2) = ?ev :: rest =>
      destruct (bind_head e k1 ev [] eq_refl) as (t & Ht);
      exact (bind_head (bind e k1) k2 ev t Ht)
  end.
Qed.

End ListingRequest.
